(** * Badminton statistics analyzer: the metrics core of [badminton_analyzer.py]

    A shallow embedding of [BadmintonAnalyzer]: the SQL queries it issues are
    functions from a database (typed tables, as lists of rows) to lists of
    row dictionaries, and the Python code that post-processes the rows is
    written in an exception monad over dynamically typed Python values.

    Idealisations, used throughout:
    - a Python [float] (an SQLite REAL) is an exact rational, or one of the
      IEEE special values; binary rounding of [/] and [*] is not modelled,
      [round(x, 2)] rounds the exact value, ties to even, and [AVG] is the
      exact mean. A number that the code computes in binary64 can differ
      from the model's in the last decimal (the code rounds [23 / 160 * 100]
      to 14.37, the model to 14.38). The statements below are worded to
      hold for both: they speak of the numbers that a result carries, or
      bound a rounded number by [near2], or state values that are exact in
      binary64;
    - an SQLite INTEGER is unbounded, as a Python [int] is. In SQLite it
      ends at [max_integer]: an id beyond it is refused with
      [OverflowError], and a [SUM] beyond it fails, on which
      [execute_query] answers with no row. The statements that promise a
      result for every store assume [fits], [shot_sums_fit] and
      [rally_sums_fit];
    - the store is reachable and has the schema the queries name, so the
      [except sqlite3.Error] branch of [execute_query] is never taken. *)

From Stdlib Require Import ZArith QArith Qround String List Lia Lqa.
From stdpp Require Import base option list gmap strings sorting.

Open Scope string_scope.

(** ** Python values, exceptions and operators *)

Module Py.

(** A float: finite (exact), or an IEEE special value. *)
Inductive float :=
| Fin (q : Q)
| PInf
| NInf
| NaN.

(** What a cell of a [sqlite3.Row] or an entry of a result dictionary
    holds: [None] (SQL NULL), [int], [float] or [str]. *)
Inductive value :=
| VNone
| VInt (z : Z)
| VFloat (x : float)
| VStr (s : string).

Inductive exn :=
| TypeError
| ValueError
| IndexError
| KeyError
| ZeroDivisionError.

Inductive result (A : Type) :=
| Ok (a : A)
| Raise (e : exn).
Arguments Ok {A} a.
Arguments Raise {A} e.

#[global] Instance result_ret : MRet result := fun _ a => Ok a.
#[global] Instance result_bind : MBind result := fun _ _ f m =>
  match m with
  | Ok a => f a
  | Raise e => Raise e
  end.

Definition mapM {A B} (f : A -> result B) : list A -> result (list B) :=
  fix go l :=
    match l with
    | [] => Ok []
    | a :: l' => b ← f a; bs ← go l'; Ok (b :: bs)
    end.

(** Exact comparison of rationals as booleans. *)
Definition Qltb (x y : Q) : bool :=
  match (x ?= y)%Q with Lt => true | _ => false end.

Definition Qeqb (x y : Q) : bool :=
  match (x ?= y)%Q with Eq => true | _ => false end.

(** [a < b] on floats; every comparison with [nan] is false. *)
Definition float_ltb (a b : float) : bool :=
  match a, b with
  | NaN, _ | _, NaN => false
  | Fin x, Fin y => Qltb x y
  | NInf, NInf => false
  | NInf, _ => true
  | _, NInf => false
  | PInf, _ => false
  | Fin _, PInf => true
  end.

Definition float_eqb (a b : float) : bool :=
  match a, b with
  | Fin x, Fin y => Qeqb x y
  | PInf, PInf | NInf, NInf => true
  | _, _ => false
  end.

Definition float_leb (a b : float) : bool := float_ltb a b || float_eqb a b.

(** The numeric reading of a value: an [int] is compared and combined
    with a [float] as the float of the same value. *)
Definition to_float (v : value) : option float :=
  match v with
  | VInt z => Some (Fin (inject_Z z))
  | VFloat x => Some x
  | VNone | VStr _ => None
  end.

(** [a > b], [a < b], [a >= b]: numbers with numbers, strings with strings;
    anything else, [None] included, raises [TypeError]. *)
Definition py_lt (a b : value) : result bool :=
  match a, b with
  | VStr s, VStr t => Ok (String.ltb s t)
  | _, _ =>
      match to_float a, to_float b with
      | Some x, Some y => Ok (float_ltb x y)
      | _, _ => Raise TypeError
      end
  end.

Definition py_gt (a b : value) : result bool := py_lt b a.

Definition py_ge (a b : value) : result bool :=
  match a, b with
  | VStr s, VStr t => Ok (String.leb t s)
  | _, _ =>
      match to_float a, to_float b with
      | Some x, Some y => Ok (float_leb y x)
      | _, _ => Raise TypeError
      end
  end.

Definition Qsgn (q : Q) : Z := Z.sgn (Qnum q).

Definition float_mul (a b : float) : float :=
  match a, b with
  | NaN, _ | _, NaN => NaN
  | Fin x, Fin y => Fin (Qred (x * y))
  | Fin x, PInf | PInf, Fin x =>
      match Qsgn x with Z0 => NaN | Zpos _ => PInf | Zneg _ => NInf end
  | Fin x, NInf | NInf, Fin x =>
      match Qsgn x with Z0 => NaN | Zpos _ => NInf | Zneg _ => PInf end
  | PInf, PInf | NInf, NInf => PInf
  | PInf, NInf | NInf, PInf => NInf
  end.

(** Float division by a non-zero float. *)
Definition float_div (a b : float) : float :=
  match a, b with
  | NaN, _ | _, NaN => NaN
  | Fin x, Fin y => Fin (Qred (x / y))
  | Fin _, (PInf | NInf) => Fin 0
  | PInf, Fin y => match Qsgn y with Zneg _ => NInf | _ => PInf end
  | NInf, Fin y => match Qsgn y with Zneg _ => PInf | _ => NInf end
  | (PInf | NInf), (PInf | NInf) => NaN
  end.

Definition float_add (a b : float) : float :=
  match a, b with
  | NaN, _ | _, NaN => NaN
  | Fin x, Fin y => Fin (Qred (x + y))
  | PInf, NInf | NInf, PInf => NaN
  | PInf, _ | _, PInf => PInf
  | NInf, _ | _, NInf => NInf
  end.

Definition is_zero (x : float) : bool :=
  match x with Fin q => Qeqb q 0 | _ => false end.

(** [a / b], true division: the result is a float also for two ints. *)
Definition py_truediv (a b : value) : result value :=
  match to_float a, to_float b with
  | Some x, Some y =>
      if is_zero y then Raise ZeroDivisionError else Ok (VFloat (float_div x y))
  | _, _ => Raise TypeError
  end.

(** [a * b] on numbers (the analyzer multiplies no strings). *)
Definition py_mul (a b : value) : result value :=
  match a, b with
  | VInt x, VInt y => Ok (VInt (x * y))
  | _, _ =>
      match to_float a, to_float b with
      | Some x, Some y => Ok (VFloat (float_mul x y))
      | _, _ => Raise TypeError
      end
  end.

Definition py_add (a b : value) : result value :=
  match a, b with
  | VInt x, VInt y => Ok (VInt (x + y))
  | _, _ =>
      match to_float a, to_float b with
      | Some x, Some y => Ok (VFloat (float_add x y))
      | _, _ => Raise TypeError
      end
  end.

(** [sum(l)]: starts from the int [0] and adds from the left. *)
Definition py_sum (l : list value) : result value :=
  foldl (fun acc v => a ← acc; py_add a v) (Ok (VInt 0)) l.

(** The integer nearest to [q], ties to the even one. *)
Definition round_half_even (q : Q) : Z :=
  let f := Qfloor q in
  match (q - inject_Z f ?= 1 # 2)%Q with
  | Lt => f
  | Gt => (f + 1)%Z
  | Eq => if Z.even f then f else (f + 1)%Z
  end.

(** [q] rounded to two decimals. *)
Definition Qround2 (q : Q) : Q :=
  Qred (inject_Z (round_half_even (q * 100)) / 100).

(** [round(v, 2)]: an int is returned as it is, a float is rounded to two
    decimals, infinities and nan are kept. *)
Definition py_round2 (v : value) : result value :=
  match v with
  | VInt z => Ok (VInt z)
  | VFloat (Fin q) => Ok (VFloat (Fin (Qround2 q)))
  | VFloat x => Ok (VFloat x)
  | VNone | VStr _ => Raise TypeError
  end.

(** Truth value of a value in a condition. *)
Definition truthy (v : value) : bool :=
  match v with
  | VNone => false
  | VInt z => negb (z =? 0)%Z
  | VFloat x => negb (is_zero x)
  | VStr s => negb (String.eqb s EmptyString)
  end.

(** A dictionary with string keys, such as [dict(row)]. *)
Abbreviation dict := (gmap string value).

(** [d[k]] *)
Definition getitem (d : dict) (k : string) : result value :=
  match d !! k with
  | Some v => Ok v
  | None => Raise KeyError
  end.

(** [d.get(k, dflt)] *)
Definition get (d : dict) (k : string) (dflt : value) : value :=
  default dflt (d !! k).

(** [l[0]] *)
Definition item0 {A} (l : list A) : result A :=
  match l with
  | a :: _ => Ok a
  | [] => Raise IndexError
  end.

(** The truth value of a dictionary: it is non-empty. *)
Definition dict_truthy (d : dict) : bool := bool_decide (d ≠ ∅).

(** [max(l, key=key)] on a non-empty list: the first element whose key no
    later key exceeds; a later element replaces the current one only when
    its key is strictly greater. *)
Definition py_max_by {A} (key : A -> value) (l : list A) : result A :=
  match l with
  | [] => Raise ValueError
  | a :: l' =>
      foldl (fun acc b =>
               m ← acc;
               c ← py_gt (key b) (key m);
               Ok (if c : bool then b else m))
            (Ok a) l'
  end.

End Py.

Import Py.

(** ** The store: tables and SQL evaluation *)

Module Sql.

(** Modelled from the spec: the schema file ([badminton_schema.sql]) is not
    among the sources. The tables have the columns that the analyzer's
    queries name and the data generator's INSERT statements list; counters of
    [match_statistics] are non-negative integers (data model, section 3 of
    the specification); a column is nullable where the generator writes
    [None] into it. Of [match_statistics] and [tournaments] only the columns
    that the queries below read are kept. The remaining columns of
    [head_to_head], which no source file lists, are carried as a dictionary. *)
Record player := {
  p_player_id : Z;
  p_first_name : string;
  p_last_name : string;
  p_nationality : string;
  p_birth_date : string;
  p_gender : string;
  p_height_cm : Z;
  p_weight_kg : Z;
  p_dominant_hand : string;
  p_world_ranking : option Z
}.

Record match_row := {
  m_match_id : Z;
  m_tournament_id : Z;
  m_match_date : string;
  m_match_time : string;
  m_round : string;
  m_court : string;
  m_match_type : string;
  m_best_of : Z;
  m_duration_minutes : Z;
  m_winner_id : Z;
  m_status : string;
  m_temperature_celsius : Z;
  m_humidity_percent : Z
}.

Record participant := {
  mp_participant_id : Z;
  mp_match_id : Z;
  mp_player_id : Z;
  mp_partner_id : option Z;
  mp_team_position : Z;
  mp_is_winner : Z
}.

Record statistics := {
  ms_match_id : Z;
  ms_player_id : Z;
  ms_total_serves : N;
  ms_service_aces : N;
  ms_service_faults : N;
  ms_winners : N;
  ms_unforced_errors : N;
  ms_smashes : N;
  ms_clears : N;
  ms_drops : N;
  ms_drives : N;
  ms_net_shots : N;
  ms_lobs : N;
  ms_kills : N;
  ms_short_rallies_won : N;
  ms_medium_rallies_won : N;
  ms_long_rallies_won : N;
  ms_short_rallies_played : N;
  ms_medium_rallies_played : N;
  ms_long_rallies_played : N;
  ms_points_won : N;
  ms_points_played : N
}.

Record tournament := {
  t_tournament_id : Z;
  t_tournament_name : string;
  t_tournament_type : string
}.

Record h2h := {
  h_player1_id : Z;
  h_player2_id : Z;
  h_columns : dict
}.

Record database := {
  players : list player;
  matches : list match_row;
  match_participants : list participant;
  match_statistics : list statistics;
  tournaments : list tournament;
  head_to_head : list h2h
}.

(** *** Scalar expressions; [None] is NULL *)

Definition int (o : option Z) : value := from_option VInt VNone o.
Definition real (o : option Q) : value :=
  from_option (fun q => VFloat (Fin (Qred q))) VNone o.
Definition text (o : option string) : value := from_option VStr VNone o.

Definition counter (n : N) : option Z := Some (Z.of_N n).

(** [NULLIF(x, y)] *)
Definition nullif (x : option Z) (y : Z) : option Z :=
  z ← x; if (z =? y)%Z then None else Some z.

(** [x * 1.0 / y]: real division; NULL when an operand is NULL (or [y] is
    zero, which SQLite also answers with NULL). *)
Definition real_div (x y : option Z) : option Q :=
  a ← x; b ← y;
  if (b =? 0)%Z then None else Some (inject_Z a / inject_Z b)%Q.

(** [e * 100] *)
Definition times100 (o : option Q) : option Q := (fun q => q * 100)%Q <$> o.

(** The integer nearest to [q], ties away from zero. *)
Definition round_half_away (q : Q) : Z :=
  if Qltb q 0 then (- Qfloor (- q + (1 # 2)))%Z else Qfloor (q + (1 # 2)).

(** [ROUND(e, 2)] *)
Definition round2 (o : option Q) : option Q :=
  (fun q => inject_Z (round_half_away (q * 100)) / 100)%Q <$> o.

(** [CASE WHEN c = 1 THEN a ELSE b END]: a NULL [c] takes the ELSE branch. *)
Definition case_eq1 {A} (c : option Z) (a b : A) : A :=
  match c with
  | Some 1%Z => a
  | _ => b
  end.

(** *** Aggregates over the rows of a group; NULLs are skipped *)

Definition non_null {A} (l : list (option A)) : list A := omap id l.

(** [COUNT( * )] *)
Definition count_star {A} (rows : list A) : value :=
  VInt (Z.of_nat (length rows)).

(** [COUNT(DISTINCT e)] *)
Definition count_distinct (l : list (option Z)) : value :=
  VInt (Z.of_nat (length (remove_dups (non_null l)))).

Definition Zsum (l : list Z) : Z := foldr Z.add 0%Z l.
Definition Qsum (l : list Q) : Q := foldr Qplus 0%Q l.

(** [SUM(e)]: NULL when the group has no non-NULL value. *)
Definition sum (l : list (option Z)) : option Z :=
  match non_null l with
  | [] => None
  | zs => Some (Zsum zs)
  end.

(** [AVG(e)]: NULL when the group has no non-NULL value. *)
Definition avg (l : list (option Q)) : option Q :=
  match non_null l with
  | [] => None
  | qs => Some (Qsum qs / inject_Z (Z.of_nat (length qs)))%Q
  end.

Definition to_real (o : option Z) : option Q := inject_Z <$> o.

(** [MAX(e)] on text, in byte order. *)
Definition max_text (l : list (option string)) : option string :=
  match non_null l with
  | [] => None
  | s :: ss => Some (foldl (fun m t => if String.ltb m t then t else m) s ss)
  end.

(** *** Joins, ordering, limit *)

(** [l JOIN r ON on] *)
Definition join {A B} (on : A -> B -> bool) (l : list A) (r : list B)
  : list (A * B) :=
  a ← l; b ← List.filter (on a) r; [(a, b)].

(** [l LEFT JOIN r ON on]: a row of [l] without a partner is kept, with
    NULLs for the columns of [r]. *)
Definition left_join {A B} (on : A -> B -> bool) (l : list A) (r : list B)
  : list (A * option B) :=
  a ← l;
  match List.filter (on a) r with
  | [] => [(a, None)]
  | bs => (fun b => (a, Some b)) <$> bs
  end.

(** [ORDER BY]: a stable insertion sort; [before a b] says that [a] must
    come strictly before [b]. (SQLite leaves the order of ties open.) *)
Definition insert_by {A} (before : A -> A -> bool) (a : A) : list A -> list A :=
  fix go l :=
    match l with
    | [] => [a]
    | b :: l' => if before a b then a :: b :: l' else b :: go l'
    end.

Definition order_by {A} (before : A -> A -> bool) (l : list A) : list A :=
  foldr (insert_by before) [] l.

(** [LIMIT n]: a negative [n] is no limit. *)
Definition limit {A} (n : Z) (l : list A) : list A :=
  if (n <? 0)%Z then l else take (Z.to_nat n) l.

(** *** [SELECT t.*]: a table row as a dictionary *)

Definition player_columns (p : player) : dict :=
  {[ "player_id" := VInt (p_player_id p);
     "first_name" := VStr (p_first_name p);
     "last_name" := VStr (p_last_name p);
     "nationality" := VStr (p_nationality p);
     "birth_date" := VStr (p_birth_date p);
     "gender" := VStr (p_gender p);
     "height_cm" := VInt (p_height_cm p);
     "weight_kg" := VInt (p_weight_kg p);
     "dominant_hand" := VStr (p_dominant_hand p);
     "world_ranking" := int (p_world_ranking p) ]}.

Definition match_columns (m : match_row) : dict :=
  {[ "match_id" := VInt (m_match_id m);
     "tournament_id" := VInt (m_tournament_id m);
     "match_date" := VStr (m_match_date m);
     "match_time" := VStr (m_match_time m);
     "round" := VStr (m_round m);
     "court" := VStr (m_court m);
     "match_type" := VStr (m_match_type m);
     "best_of" := VInt (m_best_of m);
     "duration_minutes" := VInt (m_duration_minutes m);
     "winner_id" := VInt (m_winner_id m);
     "status" := VStr (m_status m);
     "temperature_celsius" := VInt (m_temperature_celsius m);
     "humidity_percent" := VInt (m_humidity_percent m) ]}.

Definition h2h_columns (h : h2h) : dict :=
  <["player1_id" := VInt (h_player1_id h)]>
    (<["player2_id" := VInt (h_player2_id h)]> (h_columns h)).

End Sql.

Import Sql.

(** ** The queries of [BadmintonAnalyzer]

    Each definition evaluates the SQL text of the method it is named after;
    its result is what [execute_query] returns for it, a list of row
    dictionaries. *)

(** The rows of [match_statistics] with [player_id = ?]. *)
Definition statistics_of (db : database) (player_id : Z) : list statistics :=
  List.filter (fun ms => (ms_player_id ms =? player_id)%Z) (match_statistics db).

(** A counter column over rows, and [AVG(a * 1.0 / NULLIF(b, 0))]. *)
Definition column (f : statistics -> N) (rows : list statistics) : list (option Z) :=
  (fun ms => counter (f ms)) <$> rows.

Definition avg_ratio (a b : statistics -> N) (rows : list statistics) : option Q :=
  avg ((fun ms => real_div (counter (a ms)) (nullif (counter (b ms)) 0)) <$> rows).

(** The rows of [get_player_profile]'s query before grouping: [players]
    LEFT JOINed with the participations of the player and these with their
    completed matches, restricted by [WHERE p.player_id = ?]. *)
Definition profile_rows (db : database) (player_id : Z)
  : list (player * option participant * option match_row) :=
  let p_mp :=
    left_join (fun p mp => (p_player_id p =? mp_player_id mp)%Z)
      (players db) (match_participants db) in
  let p_mp_m :=
    left_join
      (fun '(_, mp) m =>
         match mp with
         | Some mp => (mp_match_id mp =? m_match_id m)%Z
                      && String.eqb (m_status m) "COMPLETED"
         | None => false
         end)
      p_mp (matches db) in
  List.filter (fun '(p, _, _) => (p_player_id p =? player_id)%Z) p_mp_m.

(** The query of [get_player_profile]. After [WHERE p.player_id = ?] the
    grouping by [p.player_id] yields one group, or none; the bare columns
    [p.*] are read from the group's first row. *)
Definition player_profile_query (db : database) (player_id : Z) : list dict :=
  let rows := profile_rows db player_id in
  match rows with
  | [] => []
  | (p, _, _) :: _ =>
      let is_winner := (fun '(_, mp, _) => mp_is_winner <$> mp) <$> rows in
      let m := (fun '(_, _, m) => m) <$> rows in
      [ {[ "total_matches" := count_distinct (fmap m_match_id <$> m);
           "matches_won" :=
             int (Sql.sum ((fun w => Some (case_eq1 w 1 0)%Z) <$> is_winner));
           "win_percentage" :=
             real (round2 (times100
               (avg ((fun w => Some (case_eq1 w 1 0)%Q) <$> is_winner))));
           "avg_match_duration" :=
             real (avg ((fun m => to_real (m_duration_minutes <$> m)) <$> m));
           "last_match_date" := text (max_text (fmap m_match_date <$> m));
           "tournaments_played" := count_distinct (fmap m_tournament_id <$> m) ]}
        ∪ player_columns p ]
  end.

(** The query of [get_player_statistics_summary]: aggregates without GROUP
    BY, hence exactly one row, also over no statistics rows. *)
Definition player_statistics_summary_query (db : database) (player_id : Z)
  : list dict :=
  let rows := statistics_of db player_id in
  [ {[ "total_matches" := count_star rows;
       "avg_serves" := real (avg (to_real <$> column ms_total_serves rows));
       "ace_percentage" :=
         real (times100 (avg_ratio ms_service_aces ms_total_serves rows));
       "fault_percentage" :=
         real (times100 (avg_ratio ms_service_faults ms_total_serves rows));
       "avg_winners" := real (avg (to_real <$> column ms_winners rows));
       "avg_unforced_errors" :=
         real (avg (to_real <$> column ms_unforced_errors rows));
       "winner_to_error_ratio" :=
         real (avg_ratio ms_winners ms_unforced_errors rows);
       "points_won_percentage" :=
         real (times100 (avg_ratio ms_points_won ms_points_played rows));
       "total_smashes" := int (Sql.sum (column ms_smashes rows));
       "total_clears" := int (Sql.sum (column ms_clears rows));
       "total_drops" := int (Sql.sum (column ms_drops rows));
       "total_net_shots" := int (Sql.sum (column ms_net_shots rows)) ]}
    ∪
    {[ "short_rally_success" :=
         real (times100
           (avg_ratio ms_short_rallies_won ms_short_rallies_played rows));
       "medium_rally_success" :=
         real (times100
           (avg_ratio ms_medium_rallies_won ms_medium_rallies_played rows));
       "long_rally_success" :=
         real (times100
           (avg_ratio ms_long_rallies_won ms_long_rallies_played rows)) ]} ].

(** [first_name || ' ' || last_name] *)
Definition full_name (p : player) : string :=
  p_first_name p +:+ " " +:+ p_last_name p.

(** The query of [get_head_to_head], with its four parameters. *)
Definition head_to_head_query (db : database) (a1 a2 b1 b2 : Z) : list dict :=
  let h_p1 :=
    join (fun h p1 => (h_player1_id h =? p_player_id p1)%Z)
      (head_to_head db) (players db) in
  let h_p1_p2 :=
    join (fun '(h, _) p2 => (h_player2_id h =? p_player_id p2)%Z)
      h_p1 (players db) in
  let rows :=
    List.filter
      (fun '(h, _, _) =>
         ((h_player1_id h =? a1)%Z && (h_player2_id h =? a2)%Z)
         || ((h_player1_id h =? b1)%Z && (h_player2_id h =? b2)%Z))
      h_p1_p2 in
  (fun '(h, p1, p2) =>
     <["player2_name" := VStr (full_name p2)]>
       (<["player1_name" := VStr (full_name p1)]> (h2h_columns h)))
  <$> rows.

(** The query of [get_shot_distribution_analysis]: one row, always (the
    sums are unbounded here; see [shot_sums_fit]). *)
Definition shot_distribution_query (db : database) (player_id : Z) : list dict :=
  let rows := statistics_of db player_id in
  [ {[ "total_smashes" := int (Sql.sum (column ms_smashes rows));
       "total_clears" := int (Sql.sum (column ms_clears rows));
       "total_drops" := int (Sql.sum (column ms_drops rows));
       "total_drives" := int (Sql.sum (column ms_drives rows));
       "total_net_shots" := int (Sql.sum (column ms_net_shots rows));
       "total_lobs" := int (Sql.sum (column ms_lobs rows));
       "total_kills" := int (Sql.sum (column ms_kills rows));
       "total_winners" := int (Sql.sum (column ms_winners rows));
       "total_unforced_errors" :=
         int (Sql.sum (column ms_unforced_errors rows));
       "total_matches" := count_star rows ]} ].

(** The query of [get_rally_length_analysis]: one row, always (the sums are
    unbounded here; see [rally_sums_fit]). *)
Definition rally_length_query (db : database) (player_id : Z) : list dict :=
  let rows := statistics_of db player_id in
  [ {[ "total_short_rallies" :=
         int (Sql.sum (column ms_short_rallies_played rows));
       "short_rallies_won" := int (Sql.sum (column ms_short_rallies_won rows));
       "total_medium_rallies" :=
         int (Sql.sum (column ms_medium_rallies_played rows));
       "medium_rallies_won" := int (Sql.sum (column ms_medium_rallies_won rows));
       "total_long_rallies" :=
         int (Sql.sum (column ms_long_rallies_played rows));
       "long_rallies_won" := int (Sql.sum (column ms_long_rallies_won rows));
       "total_matches" := count_star rows ]} ].

(** [m.match_id = ms.match_id AND ms.player_id = ?], the condition of the
    LEFT JOIN with [match_statistics] in the two queries below. *)
Definition statistics_on (player_id : Z) (m : match_row) (ms : statistics) : bool :=
  (m_match_id m =? ms_match_id ms)%Z && (ms_player_id ms =? player_id)%Z.

(** The query of [get_recent_matches]. *)
Definition recent_matches_query (db : database) (player_id lim : Z) : list dict :=
  let m_mp :=
    join (fun m mp => (m_match_id m =? mp_match_id mp)%Z)
      (matches db) (match_participants db) in
  let m_mp_opp :=
    join (fun '(m, _) mp_opp =>
            (m_match_id m =? mp_match_id mp_opp)%Z
            && negb (mp_player_id mp_opp =? player_id)%Z)
      m_mp (match_participants db) in
  let m_mp_opp_p :=
    join (fun '(_, _, mp_opp) p_opp =>
            (mp_player_id mp_opp =? p_player_id p_opp)%Z)
      m_mp_opp (players db) in
  let m_mp_opp_p_t :=
    join (fun '(m, _, _, _) t => (m_tournament_id m =? t_tournament_id t)%Z)
      m_mp_opp_p (tournaments db) in
  let joined :=
    left_join (fun '(m, _, _, _, _) ms => statistics_on player_id m ms)
      m_mp_opp_p_t (match_statistics db) in
  let rows :=
    List.filter
      (fun '(m, mp, _, _, _, _) =>
         (mp_player_id mp =? player_id)%Z
         && String.eqb (m_status m) "COMPLETED")
      joined in
  let later '(m1, _, _, _, _, _) '(m2, _, _, _, _, _) :=
    String.ltb (m_match_date m2) (m_match_date m1)
    || (String.eqb (m_match_date m1) (m_match_date m2)
        && String.ltb (m_match_time m2) (m_match_time m1)) in
  (fun '(m, mp, _, p_opp, t, ms) =>
     {[ "tournament_name" := VStr (t_tournament_name t);
        "opponent_name" := VStr (full_name p_opp);
        "opponent_nationality" := VStr (p_nationality p_opp);
        "is_winner" := VInt (mp_is_winner mp);
        "points_won" := int (ms ≫= fun ms => counter (ms_points_won ms));
        "points_played" := int (ms ≫= fun ms => counter (ms_points_played ms));
        "winners" := int (ms ≫= fun ms => counter (ms_winners ms));
        "unforced_errors" :=
          int (ms ≫= fun ms => counter (ms_unforced_errors ms)) ]}
     ∪ match_columns m)
  <$> limit lim (order_by later rows).

(** The query of [get_performance_by_tournament_type]: one row per
    tournament type among the joined rows, most matches first. *)
Definition performance_by_tournament_type_query (db : database) (player_id : Z)
  : list dict :=
  let m_t :=
    join (fun m t => (m_tournament_id m =? t_tournament_id t)%Z)
      (matches db) (tournaments db) in
  let m_t_mp :=
    join (fun '(m, _) mp =>
            (m_match_id m =? mp_match_id mp)%Z
            && (mp_player_id mp =? player_id)%Z)
      m_t (match_participants db) in
  let joined :=
    left_join (fun '(m, _, _) ms => statistics_on player_id m ms)
      m_t_mp (match_statistics db) in
  let rows :=
    List.filter (fun '(m, _, _, _) => String.eqb (m_status m) "COMPLETED")
      joined in
  let types := remove_dups ((fun '(_, t, _, _) => t_tournament_type t) <$> rows) in
  let group ty :=
    List.filter (fun '(_, t, _, _) => String.eqb (t_tournament_type t) ty) rows in
  let played g := length (remove_dups ((fun '(m, _, _, _) => m_match_id m) <$> g)) in
  let is_winner g := (fun '(_, _, mp, _) => Some (mp_is_winner mp)) <$> g in
  (fun '(ty, g) =>
     {[ "tournament_type" := VStr ty;
        "matches_played" := VInt (Z.of_nat (played g));
        "matches_won" :=
          int (Sql.sum ((fun w => Some (case_eq1 w 1 0)%Z) <$> is_winner g));
        "win_percentage" :=
          real (round2 (times100
            (avg ((fun w => Some (case_eq1 w 1 0)%Q) <$> is_winner g))));
        "avg_points_won_pct" :=
          real (times100 (avg
            ((fun '(_, _, _, ms) =>
                real_div (ms ≫= fun ms => counter (ms_points_won ms))
                  (nullif (ms ≫= fun ms => counter (ms_points_played ms)) 0))
             <$> g)));
        "avg_match_duration" :=
          real (avg ((fun '(m, _, _, _) =>
                        Some (inject_Z (m_duration_minutes m))) <$> g)) ]})
  <$> order_by (fun '(_, g1) '(_, g2) => (played g2 <? played g1)%nat)
        ((fun ty => (ty, group ty)) <$> types).

(** ** The methods of [BadmintonAnalyzer] *)

(** [result[0] if result else {}] *)
Definition first_or_empty (result : list dict) : dict :=
  match result with
  | row :: _ => row
  | [] => ∅
  end.

Definition get_player_profile (db : database) (player_id : Z) : dict :=
  first_or_empty (player_profile_query db player_id).

Definition get_player_statistics_summary (db : database) (player_id : Z) : dict :=
  first_or_empty (player_statistics_summary_query db player_id).

Definition get_head_to_head (db : database) (player1_id player2_id : Z) : dict :=
  first_or_empty
    (head_to_head_query db
       (Z.min player1_id player2_id) (Z.max player1_id player2_id)
       (Z.min player1_id player2_id) (Z.max player1_id player2_id)).

Definition get_recent_matches (db : database) (player_id lim : Z) : list dict :=
  recent_matches_query db player_id lim.

Definition get_performance_by_tournament_type (db : database) (player_id : Z)
  : list dict :=
  performance_by_tournament_type_query db player_id.

(** The seven shot-type sums, in the order of the source's list. *)
Definition shot_totals : list string :=
  [ "total_smashes"; "total_clears"; "total_drops"; "total_drives";
    "total_net_shots"; "total_lobs"; "total_kills" ].

(** [round((result[key] / total_shots) * 100, 2) if total_shots > 0 else 0] *)
Definition shot_percentage (result : dict) (total_shots : value) (key : string)
  : Py.result value :=
  c ← py_gt total_shots (VInt 0);
  if c : bool then
    n ← getitem result key;
    q ← py_truediv n total_shots;
    x ← py_mul q (VInt 100);
    py_round2 x
  else Ok (VInt 0).

Definition get_shot_distribution_analysis (db : database) (player_id : Z)
  : Py.result dict :=
  result ← item0 (shot_distribution_query db player_id);
  guard ←
    (if dict_truthy result
     then n ← getitem result "total_matches"; py_gt n (VInt 0)
     else Ok false);
  if guard : bool then
    shots ← mapM (getitem result) shot_totals;
    total_shots ← py_sum shots;
    smash ← shot_percentage result total_shots "total_smashes";
    clear ← shot_percentage result total_shots "total_clears";
    drop ← shot_percentage result total_shots "total_drops";
    drive ← shot_percentage result total_shots "total_drives";
    net_shot ← shot_percentage result total_shots "total_net_shots";
    lob ← shot_percentage result total_shots "total_lobs";
    kill ← shot_percentage result total_shots "total_kills";
    ratio ←
      (e ← getitem result "total_unforced_errors";
       c ← py_gt e (VInt 0);
       if c : bool then
         w ← getitem result "total_winners";
         e ← getitem result "total_unforced_errors";
         q ← py_truediv w e;
         py_round2 q
       else Ok (VFloat PInf));
    let distribution : dict :=
      {[ "smash_percentage" := smash;
         "clear_percentage" := clear;
         "drop_percentage" := drop;
         "drive_percentage" := drive;
         "net_shot_percentage" := net_shot;
         "lob_percentage" := lob;
         "kill_percentage" := kill;
         "total_shots" := total_shots;
         "winner_to_error_ratio" := ratio ]} in
    Ok (distribution ∪ result)
  else Ok result.

(** [round((result[won] / result[played]) * 100, 2) if result[played] > 0
    else 0] *)
Definition rally_win_rate (result : dict) (won played : string)
  : Py.result value :=
  n ← getitem result played;
  c ← py_gt n (VInt 0);
  if c : bool then
    w ← getitem result won;
    n ← getitem result played;
    q ← py_truediv w n;
    x ← py_mul q (VInt 100);
    py_round2 x
  else Ok (VInt 0).

Definition get_rally_length_analysis (db : database) (player_id : Z)
  : Py.result dict :=
  result ← item0 (rally_length_query db player_id);
  if dict_truthy result then
    short ← rally_win_rate result "short_rallies_won" "total_short_rallies";
    medium ← rally_win_rate result "medium_rallies_won" "total_medium_rallies";
    long ← rally_win_rate result "long_rallies_won" "total_long_rallies";
    let analysis : dict :=
      {[ "short_rally_win_rate" := short;
         "medium_rally_win_rate" := medium;
         "long_rally_win_rate" := long;
         "preferred_rally_length" := VNone ]} in
    s ← getitem analysis "short_rally_win_rate";
    m ← getitem analysis "medium_rally_win_rate";
    l ← getitem analysis "long_rally_win_rate";
    let win_rates := [("short", s); ("medium", m); ("long", l)] in
    best ← py_max_by snd win_rates;
    let analysis := <["preferred_rally_length" := VStr (fst best)]> analysis in
    Ok (analysis ∪ result)
  else Ok result.

(** One entry of the mapping that [compare_players] returns. The name is
    kept as the two values that the f-string joins with a space. *)
Record shot_split := {
  split_smash : value;
  split_clear : value;
  split_drop : value;
  split_net_shot : value
}.

Record comparison := {
  cmp_name : value * value;
  cmp_nationality : value;
  cmp_ranking : value;
  cmp_matches_played : value;
  cmp_win_percentage : value;
  cmp_points_won_percentage : value;
  cmp_winner_to_error_ratio : value;
  cmp_ace_percentage : value;
  cmp_preferred_rally_length : value;
  cmp_shot_distribution : shot_split
}.

Definition compare_players (db : database) (player_ids : list Z)
  : Py.result (gmap Z comparison) :=
  if (length player_ids <? 2)%nat then Raise ValueError
  else
    foldl
      (fun acc player_id =>
         comparisons ← acc;
         let profile := get_player_profile db player_id in
         let stats := get_player_statistics_summary db player_id in
         shot_analysis ← get_shot_distribution_analysis db player_id;
         rally_analysis ← get_rally_length_analysis db player_id;
         Ok (<[player_id :=
                {| cmp_name := (get profile "first_name" (VStr EmptyString),
                                get profile "last_name" (VStr EmptyString));
                   cmp_nationality := get profile "nationality" (VStr EmptyString);
                   cmp_ranking := get profile "world_ranking" VNone;
                   cmp_matches_played := get profile "total_matches" (VInt 0);
                   cmp_win_percentage := get profile "win_percentage" (VInt 0);
                   cmp_points_won_percentage :=
                     get stats "points_won_percentage" (VInt 0);
                   cmp_winner_to_error_ratio :=
                     get stats "winner_to_error_ratio" (VInt 0);
                   cmp_ace_percentage := get stats "ace_percentage" (VInt 0);
                   cmp_preferred_rally_length :=
                     get rally_analysis "preferred_rally_length" (VStr "unknown");
                   cmp_shot_distribution :=
                     {| split_smash := get shot_analysis "smash_percentage" (VInt 0);
                        split_clear := get shot_analysis "clear_percentage" (VInt 0);
                        split_drop := get shot_analysis "drop_percentage" (VInt 0);
                        split_net_shot :=
                          get shot_analysis "net_shot_percentage" (VInt 0) |}
                |}]> comparisons))
      (Ok ∅) player_ids.

(** The band of the share of won matches among [recent_matches]. *)
Definition _calculate_recent_form (recent_matches : list dict)
  : Py.result string :=
  match recent_matches with
  | [] => Ok "No recent data"
  | _ =>
      let wins :=
        length (List.filter (fun m => truthy (get m "is_winner" VNone))
                  recent_matches) in
      let total := length recent_matches in
      q ← py_truediv (VInt (Z.of_nat wins)) (VInt (Z.of_nat total));
      win_rate ← py_mul q (VInt 100);
      c80 ← py_ge win_rate (VInt 80);
      if c80 : bool then Ok "Excellent"
      else
        c60 ← py_ge win_rate (VInt 60);
        if c60 : bool then Ok "Good"
        else
          c40 ← py_ge win_rate (VInt 40);
          if c40 : bool then Ok "Average" else Ok "Poor"
  end.

(** The strings that the scouting report appends. *)
Definition accuracy_strength : string :=
  "Excellent shot accuracy and low error rate".
Definition errors_weakness : string := "High unforced error rate".
Definition serving_strength : string := "Strong serving game".
Definition serving_weakness : string := "Weak serving game".
Definition attacking_strength : string := "Aggressive attacking style".
Definition endurance_strength : string :=
  "Strong endurance and long rally performance".
Definition quick_finishing_strength : string := "Quick point finishing ability".

(** The scouting report. Of [player_info] the name is kept as the two values
    that the f-string joins, and in place of the age, which [_calculate_age] derives from
    the wall clock behind a catch-all handler, the birth date that it reads
    is kept. *)
Record player_info := {
  info_name : value * value;
  info_nationality : value;
  info_birth_date : value;
  info_ranking : value;
  info_dominant_hand : value
}.

Record performance_overview := {
  perf_total_matches : value;
  perf_win_percentage : value;
  perf_recent_form : string
}.

Record playing_style := {
  style_shot_distribution : dict;
  style_rally_preference : dict;
  style_strengths : list string;
  style_weaknesses : list string
}.

Record scouting_report := {
  report_player_info : player_info;
  report_performance_overview : performance_overview;
  report_playing_style : playing_style;
  report_tournament_performance : list dict;
  report_recent_matches : list dict
}.

(** [l.append(x)] *)
Definition append (l : list string) (x : string) : list string := (l ++ [x])%list.

(** The strengths and weaknesses of the report, as the pair of lists that
    the source fills by [append]. *)
Definition classify (stats_summary shot_analysis rally_analysis : dict)
  : Py.result (list string * list string) :=
  let strengths : list string := [] in
  let weaknesses : list string := [] in
  '(strengths, weaknesses) ←
    (c ← py_gt (get stats_summary "winner_to_error_ratio" (VInt 0))
           (VFloat (Fin (3 # 2)));
     if c : bool then Ok (append strengths accuracy_strength, weaknesses)
     else
       c ← py_lt (get stats_summary "winner_to_error_ratio" (VInt 0))
             (VFloat (Fin (4 # 5)));
       if c : bool then Ok (strengths, append weaknesses errors_weakness)
       else Ok (strengths, weaknesses));
  '(strengths, weaknesses) ←
    (c ← py_gt (get stats_summary "ace_percentage" (VInt 0)) (VInt 8);
     if c : bool then Ok (append strengths serving_strength, weaknesses)
     else
       c ← py_lt (get stats_summary "ace_percentage" (VInt 0)) (VInt 3);
       if c : bool then Ok (strengths, append weaknesses serving_weakness)
       else Ok (strengths, weaknesses));
  strengths ←
    (c ← py_gt (get shot_analysis "smash_percentage" (VInt 0)) (VInt 25);
     if c : bool then Ok (append strengths attacking_strength)
     else Ok strengths);
  strengths ←
    (c ← py_gt (get rally_analysis "long_rally_win_rate" (VInt 0))
           (get rally_analysis "short_rally_win_rate" (VInt 0));
     if c : bool then Ok (append strengths endurance_strength)
     else Ok (append strengths quick_finishing_strength));
  Ok (strengths, weaknesses).

Definition generate_scouting_report (db : database) (player_id : Z)
  : Py.result scouting_report :=
  let profile := get_player_profile db player_id in
  let stats_summary := get_player_statistics_summary db player_id in
  shot_analysis ← get_shot_distribution_analysis db player_id;
  rally_analysis ← get_rally_length_analysis db player_id;
  let performance_by_tournament :=
    get_performance_by_tournament_type db player_id in
  let recent_matches := get_recent_matches db player_id 5 in
  '(strengths, weaknesses) ← classify stats_summary shot_analysis rally_analysis;
  recent_form ← _calculate_recent_form recent_matches;
  Ok {| report_player_info :=
          {| info_name := (get profile "first_name" (VStr EmptyString),
                           get profile "last_name" (VStr EmptyString));
             info_nationality := get profile "nationality" (VStr EmptyString);
             info_birth_date := get profile "birth_date" VNone;
             info_ranking := get profile "world_ranking" VNone;
             info_dominant_hand := get profile "dominant_hand" VNone |};
        report_performance_overview :=
          {| perf_total_matches := get profile "total_matches" (VInt 0);
             perf_win_percentage := get profile "win_percentage" (VInt 0);
             perf_recent_form := recent_form |};
        report_playing_style :=
          {| style_shot_distribution := shot_analysis;
             style_rally_preference := rally_analysis;
             style_strengths := strengths;
             style_weaknesses := weaknesses |};
        report_tournament_performance := performance_by_tournament;
        report_recent_matches := take 5 recent_matches |}.

(** ** Top performers *)

(** A joined row of the query of [get_top_performers]: a player, one of the
    player's participations, its completed match, and the player's
    statistics row for that match when there is one. *)
Definition performer_row : Type :=
  player * participant * match_row * option statistics.

Definition performer_rows (db : database) : list performer_row :=
  let p_mp :=
    join (fun p mp => (p_player_id p =? mp_player_id mp)%Z)
      (players db) (match_participants db) in
  let p_mp_m :=
    join (fun '(_, mp) m =>
            (mp_match_id mp =? m_match_id m)%Z
            && String.eqb (m_status m) "COMPLETED")
      p_mp (matches db) in
  left_join (fun '(p, _, m) ms =>
               (p_player_id p =? ms_player_id ms)%Z
               && (m_match_id m =? ms_match_id ms)%Z)
    p_mp_m (match_statistics db).

(** [ms.a * 1.0 / NULLIF(ms.b, 0)] on a joined row. *)
Definition performer_ratio (a b : statistics -> N) (r : performer_row) : option Q :=
  let '(_, _, _, ms) := r in
  real_div (ms ≫= fun ms => counter (a ms))
    (nullif (ms ≫= fun ms => counter (b ms)) 0).

(** [COUNT(DISTINCT m.match_id)] over a group. *)
Definition matches_in (g : list performer_row) : nat :=
  length (remove_dups ((fun '(_, _, m, _) => m_match_id m) <$> g)).

(** [AVG(CASE WHEN mp.is_winner = 1 THEN 1.0 ELSE 0.0 END) * 100] *)
Definition win_share (g : list performer_row) : option Q :=
  times100
    (avg ((fun '(_, mp, _, _) => Some (case_eq1 (Some (mp_is_winner mp)) 1 0)%Q)
          <$> g)).

(** The dictionary [valid_metrics]: each metric name with the aggregate that
    its SQL fragment computes over the rows of a group. *)
Definition valid_metrics : gmap string (list performer_row -> option Q) :=
  {[ "win_percentage" := win_share;
     "total_matches" := fun g => Some (inject_Z (Z.of_nat (matches_in g)));
     "avg_points_won" :=
       fun g => times100 (avg (performer_ratio ms_points_won ms_points_played <$> g));
     "winner_ratio" :=
       fun g => avg (performer_ratio ms_winners ms_unforced_errors <$> g);
     "ace_percentage" :=
       fun g => times100 (avg (performer_ratio ms_service_aces ms_total_serves <$> g)) ]}.

(** The columns of the GROUP BY clause. *)
Definition performer_key : Type := Z * string * string * string * string * option Z.

Definition key_of (p : player) : performer_key :=
  (p_player_id p, p_first_name p, p_last_name p, p_nationality p, p_gender p,
   p_world_ranking p).

(** [a < b] in the order of ORDER BY, where NULL is the smallest value. *)
Definition null_ltb (a b : option Q) : bool :=
  match a, b with
  | None, Some _ => true
  | Some x, Some y => Qltb x y
  | _, None => false
  end.

(** The groups of the query that pass [HAVING COUNT(DISTINCT m.match_id) >= ?],
    ordered by [metric_value DESC] and cut by LIMIT. *)
Definition top_groups (db : database) (expr : list performer_row -> option Q)
    (min_matches lim : Z) : list (performer_key * list performer_row) :=
  let rows := performer_rows db in
  let keys := remove_dups ((fun '(p, _, _, _) => key_of p) <$> rows) in
  let group k :=
    List.filter (fun '(p, _, _, _) => bool_decide (key_of p = k)) rows in
  let having :=
    List.filter (fun '(_, g) => (min_matches <=? Z.of_nat (matches_in g))%Z)
      ((fun k => (k, group k)) <$> keys) in
  let metric_value '(_, g) := round2 (expr g) in
  limit lim
    (order_by (fun x y => null_ltb (metric_value y) (metric_value x)) having).

(** The SELECT list over one group. *)
Definition performer_columns (expr : list performer_row -> option Q)
    (x : performer_key * list performer_row) : dict :=
  let '((id, first, last, nationality, gender, ranking), g) := x in
  {[ "player_id" := VInt id;
     "player_name" := VStr (first +:+ " " +:+ last);
     "nationality" := VStr nationality;
     "gender" := VStr gender;
     "world_ranking" := int ranking;
     "total_matches" := VInt (Z.of_nat (matches_in g));
     "matches_won" :=
       int (Sql.sum ((fun '(_, mp, _, _) =>
                        Some (case_eq1 (Some (mp_is_winner mp)) 1 0)%Z) <$> g));
     "win_percentage" := real (round2 (win_share g));
     "metric_value" := real (round2 (expr g)) ]}.

(** The query of [get_top_performers] for the SQL fragment of a metric. *)
Definition top_performers_query (db : database)
    (expr : list performer_row -> option Q) (min_matches lim : Z) : list dict :=
  performer_columns expr <$> top_groups db expr min_matches lim.

Definition get_top_performers (db : database) (metric : string)
    (lim min_matches : Z) : Py.result (list dict) :=
  match valid_metrics !! metric with
  | None => Raise ValueError
  | Some expr => Ok (top_performers_query db expr min_matches lim)
  end.

(** Row [b] is not listed before row [a] against [metric_value DESC]: its
    value is NULL, or both are numbers and the value of [b] is not greater. *)
Definition not_above (a b : value) : Prop :=
  b = VNone
  \/ exists x y, a = VFloat (Fin x) /\ b = VFloat (Fin y) /\ (y <= x)%Q.

(** ** Closed forms, for the statements below *)

(** The sum of a counter column over the statistics rows of a player. *)
Definition total (f : statistics -> N) (db : database) (player_id : Z) : Z :=
  Zsum ((fun ms => Z.of_N (f ms)) <$> statistics_of db player_id).

(** [round(x / t * 100, 2)] as a rational, and [0] when [t] is not
    positive. *)
Definition rate (x t : Z) : Q :=
  if (0 <? t)%Z then Qround2 (inject_Z x / inject_Z t * 100) else 0%Q.

(** [round((x / t) * 100, 2) if t > 0 else 0] as a Python value: a float in
    the first case, the int [0] in the second. *)
Definition percentage (x t : Z) : value :=
  if (0 <? t)%Z then VFloat (Fin (rate x t)) else VInt 0.

(** [round(w / e, 2) if e > 0 else float('inf')] *)
Definition ratio (w e : Z) : value :=
  if (0 <? e)%Z then VFloat (Fin (Qround2 (inject_Z w / inject_Z e)))
  else VFloat PInf.

(** The sum of the seven shot-type sums of a player. *)
Definition total_shots (db : database) (player_id : Z) : Z :=
  (total ms_smashes db player_id + total ms_clears db player_id
   + total ms_drops db player_id + total ms_drives db player_id
   + total ms_net_shots db player_id + total ms_lobs db player_id
   + total ms_kills db player_id)%Z.

(** The fields that [get_shot_distribution_analysis] adds to the row of sums
    for a player with statistics rows. *)
Definition shot_distribution (db : database) (player_id : Z) : dict :=
  let t := total_shots db player_id in
  {[ "smash_percentage" := percentage (total ms_smashes db player_id) t;
     "clear_percentage" := percentage (total ms_clears db player_id) t;
     "drop_percentage" := percentage (total ms_drops db player_id) t;
     "drive_percentage" := percentage (total ms_drives db player_id) t;
     "net_shot_percentage" := percentage (total ms_net_shots db player_id) t;
     "lob_percentage" := percentage (total ms_lobs db player_id) t;
     "kill_percentage" := percentage (total ms_kills db player_id) t;
     "total_shots" := VInt t;
     "winner_to_error_ratio" :=
       ratio (total ms_winners db player_id)
         (total ms_unforced_errors db player_id) ]}.

(** The win rates of the three rally-length buckets of a player. *)
Definition short_rate (db : database) (player_id : Z) : Q :=
  rate (total ms_short_rallies_won db player_id)
    (total ms_short_rallies_played db player_id).
Definition medium_rate (db : database) (player_id : Z) : Q :=
  rate (total ms_medium_rallies_won db player_id)
    (total ms_medium_rallies_played db player_id).
Definition long_rate (db : database) (player_id : Z) : Q :=
  rate (total ms_long_rallies_won db player_id)
    (total ms_long_rallies_played db player_id).

(** The bucket that [max(win_rates, key=...)] selects, in closed form: the
    fold keeps the current bucket unless a later one has a strictly greater
    rate. *)
Definition preferred_rally_length (db : database) (player_id : Z) : string :=
  let s := short_rate db player_id in
  let m := medium_rate db player_id in
  let l := long_rate db player_id in
  if Qltb s m then (if Qltb m l then "long" else "medium")
  else (if Qltb s l then "long" else "short").

(** The fields that [get_rally_length_analysis] adds to the row of sums for
    a player with statistics rows. *)
Definition rally_analysis (db : database) (player_id : Z) : dict :=
  <["preferred_rally_length" := VStr (preferred_rally_length db player_id)]>
    {[ "short_rally_win_rate" :=
         percentage (total ms_short_rallies_won db player_id)
           (total ms_short_rallies_played db player_id);
       "medium_rally_win_rate" :=
         percentage (total ms_medium_rallies_won db player_id)
           (total ms_medium_rallies_played db player_id);
       "long_rally_win_rate" :=
         percentage (total ms_long_rallies_won db player_id)
           (total ms_long_rallies_played db player_id);
       "preferred_rally_length" := VNone ]}.


(** The number of won matches of a list of match rows, and the share of won
    matches in percent, as [_calculate_recent_form] computes them. *)
Definition wins (recent_matches : list dict) : nat :=
  length (List.filter (fun m => truthy (get m "is_winner" VNone)) recent_matches).

Definition win_rate (recent_matches : list dict) : Q :=
  inject_Z (Z.of_nat (wins recent_matches))
  / inject_Z (Z.of_nat (length recent_matches)) * 100.

(** The band of a win rate, as the specification words it. *)
Definition band (w : Q) : string :=
  if Qle_bool 80 w then "Excellent"
  else if Qle_bool 60 w then "Good"
  else if Qle_bool 40 w then "Average"
  else "Poor".

(** The order of the bands: Poor < Average < Good < Excellent. *)
Definition band_rank (form : string) : nat :=
  if String.eqb form "Excellent" then 3
  else if String.eqb form "Good" then 2
  else if String.eqb form "Average" then 1
  else 0.

(** The completed matches in which a player takes part. *)
Definition completed_matches (db : database) (player_id : Z) : list match_row :=
  List.filter
    (fun m =>
       String.eqb (m_status m) "COMPLETED"
       && existsb (fun mp => (mp_player_id mp =? player_id)%Z
                             && (mp_match_id mp =? m_match_id m)%Z)
            (match_participants db))
    (matches db).

(** ** Preconditions of a result, and rounding in floating point *)

(** The largest SQLite INTEGER. An id beyond the range is refused by
    [execute] with [OverflowError], and a [SUM] beyond it fails with
    "integer overflow", on which [execute_query] answers with no row and
    [[0]] raises [IndexError]. Neither failure is modelled; the statements
    that promise a result for every store therefore assume that the id and
    the sums fit. *)
Definition max_integer : Z := 9223372036854775807.

Definition fits (z : Z) : Prop := (- max_integer - 1 <= z <= max_integer)%Z.

(** The sums of the query of [get_shot_distribution_analysis] fit. *)
Definition shot_sums_fit (db : database) (player_id : Z) : Prop :=
  Forall (fun f => fits (total f db player_id))
    [ ms_smashes; ms_clears; ms_drops; ms_drives; ms_net_shots; ms_lobs;
      ms_kills; ms_winners; ms_unforced_errors ].

(** The sums of the query of [get_rally_length_analysis] fit. *)
Definition rally_sums_fit (db : database) (player_id : Z) : Prop :=
  Forall (fun f => fits (total f db player_id))
    [ ms_short_rallies_played; ms_short_rallies_won;
      ms_medium_rallies_played; ms_medium_rallies_won;
      ms_long_rallies_played; ms_long_rallies_won ].

(** [q] is [x], a number that is not negative, rounded to two decimals, up
    to the error of binary floating point: half a hundredth from the
    rounding, and a relative error of [2^-50] from the division, the
    multiplication and the conversion of the rounded decimal, each of which
    is exact in this model and rounds to the nearest double in the code. A
    statement with [near2] holds for both. *)
Definition near2 (q x : Q) : Prop :=
  (x - (1 # 200) - x * (1 # 1125899906842624) <= q
   <= x + (1 # 200) + x * (1 # 1125899906842624))%Q.


(** The percentages of the shot distribution, each with the column whose
    share it is. *)
Definition shot_shares : list (string * (statistics -> N)) :=
  [ ("smash_percentage", ms_smashes); ("clear_percentage", ms_clears);
    ("drop_percentage", ms_drops); ("drive_percentage", ms_drives);
    ("net_shot_percentage", ms_net_shots); ("lob_percentage", ms_lobs);
    ("kill_percentage", ms_kills) ].

(** [(d1, t1)] is listed before [(d2, t2)] by [ORDER BY m.match_date DESC,
    m.match_time DESC], the order of [get_recent_matches]. *)
Definition later_than (d1 t1 d2 t2 : string) : bool :=
  String.ltb d2 d1 || (String.eqb d1 d2 && String.ltb t2 t1).


(** A joined row of the query of [get_recent_matches]. *)
Definition recent_row : Type :=
  match_row * participant * participant * player * tournament * option statistics.

(** The strengths and the weaknesses that [generate_scouting_report]
    appends, in closed form: from the winner/error ratio [w], the ace
    percentage [a], the smash percentage [s] and the long and short rally win
    rates [l] and [sh]. *)
Definition strengths_of (w a s l sh : float) : list string :=
  ((if float_ltb (Fin (3 # 2)) w then [accuracy_strength] else [])
   ++ (if float_ltb (Fin 8) a then [serving_strength] else [])
   ++ (if float_ltb (Fin 25) s then [attacking_strength] else [])
   ++ [if float_ltb sh l then endurance_strength else quick_finishing_strength])%list.

Definition weaknesses_of (w a : float) : list string :=
  ((if float_ltb (Fin (3 # 2)) w then []
    else if float_ltb w (Fin (4 # 5)) then [errors_weakness] else [])
   ++ (if float_ltb (Fin 8) a then []
       else if float_ltb a (Fin 3) then [serving_weakness] else []))%list.

(** ** A small store, for the examples *)

(** Three players: player 1 with the statistics row of the specification's
    end-to-end example, player 2 with a row of zeros, player 3 without
    statistics and without matches. Players 1 and 2 met once. *)
Definition example_player (id : Z) (first last : string) : player :=
  {| p_player_id := id; p_first_name := first; p_last_name := last;
     p_nationality := "DEN"; p_birth_date := "1994-01-04"; p_gender := "M";
     p_height_cm := 194; p_weight_kg := 88; p_dominant_hand := "R";
     p_world_ranking := Some id |}.

Definition example_row : statistics :=
  {| ms_match_id := 1; ms_player_id := 1;
     ms_total_serves := 25; ms_service_aces := 1; ms_service_faults := 2;
     ms_winners := 20; ms_unforced_errors := 10;
     ms_smashes := 30; ms_clears := 20; ms_drops := 10; ms_drives := 10;
     ms_net_shots := 10; ms_lobs := 10; ms_kills := 10;
     ms_short_rallies_won := 8; ms_medium_rallies_won := 3;
     ms_long_rallies_won := 1; ms_short_rallies_played := 10;
     ms_medium_rallies_played := 10; ms_long_rallies_played := 5;
     ms_points_won := 12; ms_points_played := 25 |}.

Definition zero_row : statistics :=
  {| ms_match_id := 1; ms_player_id := 2;
     ms_total_serves := 0; ms_service_aces := 0; ms_service_faults := 0;
     ms_winners := 0; ms_unforced_errors := 0;
     ms_smashes := 0; ms_clears := 0; ms_drops := 0; ms_drives := 0;
     ms_net_shots := 0; ms_lobs := 0; ms_kills := 0;
     ms_short_rallies_won := 0; ms_medium_rallies_won := 0;
     ms_long_rallies_won := 0; ms_short_rallies_played := 0;
     ms_medium_rallies_played := 0; ms_long_rallies_played := 0;
     ms_points_won := 0; ms_points_played := 0 |}.

Definition example_match : match_row :=
  {| m_match_id := 1; m_tournament_id := 1; m_match_date := "2024-03-14";
     m_match_time := "10:30:00"; m_round := "QF"; m_court := "Court 1";
     m_match_type := "MS"; m_best_of := 3; m_duration_minutes := 47;
     m_winner_id := 1; m_status := "COMPLETED";
     m_temperature_celsius := 21; m_humidity_percent := 55 |}.

Definition example_db : database :=
  {| players :=
       [ example_player 1 "Viktor" "Axelsen";
         example_player 2 "Kento" "Momota";
         example_player 3 "Anders" "Antonsen" ];
     matches := [example_match];
     match_participants :=
       [ {| mp_participant_id := 1; mp_match_id := 1; mp_player_id := 1;
            mp_partner_id := None; mp_team_position := 1; mp_is_winner := 1 |};
         {| mp_participant_id := 2; mp_match_id := 1; mp_player_id := 2;
            mp_partner_id := None; mp_team_position := 2; mp_is_winner := 0 |} ];
     match_statistics := [example_row; zero_row];
     tournaments :=
       [ {| t_tournament_id := 1; t_tournament_name := "All England Open";
            t_tournament_type := "BWF_SUPER_1000" |} ];
     head_to_head :=
       [ {| h_player1_id := 1; h_player2_id := 2;
            h_columns := {[ "total_matches" := VInt 1 ]} |} ] |}.

(** Match lists for the recent-form classifier. *)
Definition won_match : dict := {[ "is_winner" := VInt 1 ]}.
Definition lost_match : dict := {[ "is_winner" := VInt 0 ]}.

(** ** A second store, with a season of matches

    Players 1 and 2 met three times in completed matches, once at a
    tournament of one type and twice at a tournament of another; a fourth
    match is scheduled. Only the first match has statistics rows. *)
Definition season_match (id tournament_id : Z) (date : string) (winner_id : Z)
    (status : string) : match_row :=
  {| m_match_id := id; m_tournament_id := tournament_id; m_match_date := date;
     m_match_time := "10:30:00"; m_round := "QF"; m_court := "Court 1";
     m_match_type := "MS"; m_best_of := 3; m_duration_minutes := 47;
     m_winner_id := winner_id; m_status := status;
     m_temperature_celsius := 21; m_humidity_percent := 55 |}.

Definition season_participant (id match_id player_id is_winner : Z) : participant :=
  {| mp_participant_id := id; mp_match_id := match_id; mp_player_id := player_id;
     mp_partner_id := None; mp_team_position := 1; mp_is_winner := is_winner |}.

Definition season_db : database :=
  {| players :=
       [ example_player 1 "Viktor" "Axelsen";
         example_player 2 "Kento" "Momota";
         example_player 3 "Anders" "Antonsen" ];
     matches :=
       [ season_match 1 1 "2024-03-14" 1 "COMPLETED";
         season_match 2 2 "2024-04-02" 2 "COMPLETED";
         season_match 3 2 "2024-04-20" 1 "COMPLETED";
         season_match 4 1 "2024-05-01" 0 "SCHEDULED" ];
     match_participants :=
       [ season_participant 1 1 1 1; season_participant 2 1 2 0;
         season_participant 3 2 1 0; season_participant 4 2 2 1;
         season_participant 5 3 1 1; season_participant 6 3 2 0;
         season_participant 7 4 1 0; season_participant 8 4 2 0 ];
     match_statistics := [example_row; zero_row];
     tournaments :=
       [ {| t_tournament_id := 1; t_tournament_name := "All England Open";
            t_tournament_type := "BWF_SUPER_1000" |};
         {| t_tournament_id := 2; t_tournament_name := "Swiss Open";
            t_tournament_type := "BWF_SUPER_300" |} ];
     head_to_head :=
       [ {| h_player1_id := 1; h_player2_id := 2;
            h_columns := {[ "total_matches" := VInt 3 ]} |} ] |}.

(** * Properties

    ** Rationals and rounding *)

Lemma Qltb_lt (x y : Q) : Qltb x y = true <-> (x < y)%Q.
Proof.
  unfold Qltb. rewrite Qlt_alt. destruct (x ?= y)%Q; split; congruence.
Qed.

Lemma Qltb_inject_Z (x y : Z) : Qltb (inject_Z x) (inject_Z y) = (x <? y)%Z.
Proof.
  apply eq_true_iff_eq. rewrite Qltb_lt, Z.ltb_lt, <- Zlt_Qlt. reflexivity.
Qed.

Lemma Qeqb_eq (x y : Q) : Qeqb x y = true <-> (x == y)%Q.
Proof.
  unfold Qeqb. rewrite Qeq_alt. destruct (x ?= y)%Q; split; congruence.
Qed.

Lemma Qeqb_inject_Z (x y : Z) : Qeqb (inject_Z x) (inject_Z y) = (x =? y)%Z.
Proof.
  apply eq_true_iff_eq. rewrite Qeqb_eq, Z.eqb_eq, inject_Z_injective. reflexivity.
Qed.

Lemma round_half_even_Qeq (p q : Q) : (p == q)%Q -> round_half_even p = round_half_even q.
Proof.
  intros H. unfold round_half_even.
  rewrite (Qfloor_comp _ _ H).
  assert (E : (p - inject_Z (Qfloor q) ?= 1 # 2)%Q = (q - inject_Z (Qfloor q) ?= 1 # 2)%Q).
  { apply Qcompare_comp; [rewrite H|]; reflexivity. }
  rewrite E. reflexivity.
Qed.

Lemma Qround2_Qeq (p q : Q) : (p == q)%Q -> Qround2 p = Qround2 q.
Proof.
  intros H. unfold Qround2.
  rewrite (round_half_even_Qeq (p * 100) (q * 100)); [reflexivity|].
  rewrite H. reflexivity.
Qed.

Lemma round_half_even_near (q : Q) :
  (inject_Z (round_half_even q) - q <= 1 # 2)%Q /\ (q - inject_Z (round_half_even q) <= 1 # 2)%Q.
Proof.
  unfold round_half_even.
  pose proof (Qfloor_le q) as Hl. pose proof (Qlt_floor q) as Hu.
  rewrite inject_Z_plus in Hu. change (inject_Z 1) with 1%Q in Hu.
  destruct (q - inject_Z (Qfloor q) ?= 1 # 2)%Q eqn:E.
  - apply Qeq_alt in E. destruct (Z.even (Qfloor q)).
    + split; lra.
    + rewrite inject_Z_plus. change (inject_Z 1) with 1%Q. split; lra.
  - apply Qlt_alt in E. split; lra.
  - apply Qgt_alt in E. rewrite inject_Z_plus. change (inject_Z 1) with 1%Q. split; lra.
Qed.

Lemma Qround2_near (q : Q) :
  (Qround2 q - q <= 1 # 200)%Q /\ (q - Qround2 q <= 1 # 200)%Q.
Proof.
  unfold Qround2. rewrite Qred_correct.
  destruct (round_half_even_near (q * 100)) as [H1 H2].
  set (z := inject_Z (round_half_even (q * 100))) in *. clearbody z.
  unfold Qdiv. change (/ 100)%Q with (1 # 100)%Q.
  split; lra.
Qed.

Lemma round_half_even_nonneg (q : Q) : (0 <= q)%Q -> (0 <= round_half_even q)%Z.
Proof.
  intros H. unfold round_half_even.
  assert (0 <= Qfloor q)%Z.
  { change 0%Z with (Qfloor 0). apply Qfloor_resp_le. exact H. }
  destruct (q - inject_Z (Qfloor q) ?= 1 # 2)%Q; [destruct (Z.even _)|..]; lia.
Qed.

Lemma Qround2_nonneg (q : Q) : (0 <= q)%Q -> (0 <= Qround2 q)%Q.
Proof.
  intros H. unfold Qround2. rewrite Qred_correct.
  assert (0 <= round_half_even (q * 100))%Z.
  { apply round_half_even_nonneg. lra. }
  assert (0 <= inject_Z (round_half_even (q * 100)))%Q.
  { change 0%Q with (inject_Z 0). rewrite <- Zle_Qle. assumption. }
  unfold Qdiv. change (/ 100)%Q with (1 # 100)%Q.
  set (z := inject_Z (round_half_even (q * 100))) in *. clearbody z.
  apply Qmult_le_0_compat; [assumption | discriminate].
Qed.

(** ** Python operators on the values that the queries return *)

Lemma bind_Ok {A B} (f : A -> Py.result B) (a : A) : (Ok a ≫= f) = f a.
Proof. reflexivity. Qed.

Lemma bind_Raise {A B} (f : A -> Py.result B) (e : exn) : (Raise e ≫= f) = Raise e.
Proof. reflexivity. Qed.

Lemma getitem_Some (d : dict) (k : string) (v : value) :
  d !! k = Some v -> getitem d k = Ok v.
Proof. intros H. unfold getitem. rewrite H. reflexivity. Qed.

Lemma py_lt_int (a b : Z) : py_lt (VInt a) (VInt b) = Ok (a <? b)%Z.
Proof. cbn. rewrite Qltb_inject_Z. reflexivity. Qed.

Lemma py_gt_int (a b : Z) : py_gt (VInt a) (VInt b) = Ok (b <? a)%Z.
Proof. apply py_lt_int. Qed.

Lemma py_gt_None (v : value) : py_gt VNone v = Raise TypeError.
Proof. destruct v; reflexivity. Qed.

Lemma py_lt_None (v : value) : py_lt VNone v = Raise TypeError.
Proof. destruct v; reflexivity. Qed.

Lemma py_sum_ints (l : list Z) (a : Z) :
  foldl (fun acc v => a ← acc; py_add a v) (Ok (VInt a)) (VInt <$> l)
  = Ok (VInt (a + Zsum l)).
Proof.
  revert a. induction l as [|z l IH]; intros a; cbn.
  - do 2 f_equal. unfold Zsum. cbn. lia.
  - rewrite IH. do 2 f_equal. unfold Zsum. cbn. lia.
Qed.

Lemma is_zero_int (t : Z) : is_zero (Fin (inject_Z t)) = (t =? 0)%Z.
Proof. cbn. apply (Qeqb_inject_Z t 0). Qed.

(** The Python expression behind every percentage and win rate. *)
Lemma percentage_eval (x t : Z) :
  (c ← py_gt (VInt t) (VInt 0);
   if c : bool then
     q ← py_truediv (VInt x) (VInt t);
     y ← py_mul q (VInt 100);
     py_round2 y
   else Ok (VInt 0)) = Ok (percentage x t).
Proof.
  rewrite py_gt_int, bind_Ok. unfold percentage, rate.
  destruct (0 <? t)%Z eqn:Ht; [|reflexivity].
  unfold py_truediv. cbn [to_float]. rewrite is_zero_int.
  apply Z.ltb_lt in Ht. destruct (t =? 0)%Z eqn:E; [apply Z.eqb_eq in E; lia|].
  cbn. do 3 f_equal. apply Qround2_Qeq.
  rewrite !Qred_correct. reflexivity.
Qed.

Lemma ratio_eval (w e : Z) :
  (c ← py_gt (VInt e) (VInt 0);
   if c : bool then q ← py_truediv (VInt w) (VInt e); py_round2 q
   else Ok (VFloat PInf)) = Ok (ratio w e).
Proof.
  rewrite py_gt_int, bind_Ok. unfold ratio.
  destruct (0 <? e)%Z eqn:Ht; [|reflexivity].
  unfold py_truediv. cbn [to_float]. rewrite is_zero_int.
  apply Z.ltb_lt in Ht. destruct (e =? 0)%Z eqn:E; [apply Z.eqb_eq in E; lia|].
  cbn. do 3 f_equal. apply Qround2_Qeq.
  rewrite !Qred_correct. reflexivity.
Qed.

Lemma shot_percentage_eval (row : dict) (key : string) (x t : Z) :
  row !! key = Some (VInt x) ->
  shot_percentage row (VInt t) key = Ok (percentage x t).
Proof.
  intros H. unfold shot_percentage. rewrite <- percentage_eval.
  destruct (py_gt (VInt t) (VInt 0)) as [[|]|]; cbn; [|reflexivity..].
  rewrite (getitem_Some _ _ _ H). reflexivity.
Qed.

Lemma rally_win_rate_eval (row : dict) (won played : string) (w n : Z) :
  row !! won = Some (VInt w) -> row !! played = Some (VInt n) ->
  rally_win_rate row won played = Ok (percentage w n).
Proof.
  intros Hw Hn. unfold rally_win_rate. rewrite <- percentage_eval.
  rewrite (getitem_Some _ _ _ Hn), bind_Ok.
  destruct (py_gt (VInt n) (VInt 0)) as [[|]|]; cbn; [|reflexivity..].
  rewrite (getitem_Some _ _ _ Hw). reflexivity.
Qed.

(** Sums over the rows of a player. *)
Lemma non_null_column (f : statistics -> N) (rows : list statistics) :
  non_null (column f rows) = (fun ms => Z.of_N (f ms)) <$> rows.
Proof.
  unfold non_null, column. induction rows as [|ms rows IH]; cbn; [reflexivity|].
  f_equal. exact IH.
Qed.

Lemma sum_column_nil (f : statistics -> N) : int (Sql.sum (column f [])) = VNone.
Proof. reflexivity. Qed.

Lemma sum_column_cons (f : statistics -> N) (rows : list statistics) :
  rows <> [] ->
  int (Sql.sum (column f rows)) = VInt (Zsum ((fun ms => Z.of_N (f ms)) <$> rows)).
Proof.
  intros H. unfold Sql.sum. rewrite non_null_column.
  destruct rows; [congruence|]. reflexivity.
Qed.

Lemma Zsum_nonneg (f : statistics -> N) (rows : list statistics) :
  (0 <= Zsum ((fun ms => Z.of_N (f ms)) <$> rows))%Z.
Proof. unfold Zsum. induction rows; cbn; lia. Qed.

Lemma total_nonneg (f : statistics -> N) (db : database) (player_id : Z) :
  (0 <= total f db player_id)%Z.
Proof. apply Zsum_nonneg. Qed.

(** ** Shot distribution *)

Ltac lookup_row := solve [simplify_map_eq; reflexivity | by simplify_map_eq].

Ltac eval_getitem :=
  repeat (erewrite getitem_Some by lookup_row; rewrite ?bind_Ok).

Lemma dict_truthy_lookup (d : dict) (k : string) (v : value) :
  d !! k = Some v -> dict_truthy d = true.
Proof.
  intros H. unfold dict_truthy. apply bool_decide_eq_true.
  intros ->. rewrite lookup_empty in H. discriminate.
Qed.

Lemma count_star_pos {A} (rows : list A) :
  rows <> [] -> exists n, count_star rows = VInt n /\ (0 <? n)%Z = true.
Proof.
  intros H. exists (Z.of_nat (length rows)). split; [reflexivity|].
  apply Z.ltb_lt. destruct rows; [congruence|]. cbn [length]. lia.
Qed.

(** With statistics rows: the row of sums, extended by the distribution. *)
Lemma get_shot_distribution_analysis_rows (db : database) (player_id : Z) :
  statistics_of db player_id <> [] ->
  exists row,
    shot_distribution_query db player_id = [row]
    /\ get_shot_distribution_analysis db player_id
       = Ok (shot_distribution db player_id ∪ row).
Proof.
  intros Hrows. eexists. split; [reflexivity|].
  unfold get_shot_distribution_analysis, shot_distribution_query.
  destruct (count_star_pos _ Hrows) as (n & -> & Hn).
  rewrite !(sum_column_cons _ _ Hrows).
  change (Zsum ((fun ms => Z.of_N (?f ms)) <$> statistics_of db player_id))
    with (total f db player_id).
  fold (total ms_smashes db player_id) (total ms_clears db player_id)
    (total ms_drops db player_id) (total ms_drives db player_id)
    (total ms_net_shots db player_id) (total ms_lobs db player_id)
    (total ms_kills db player_id) (total ms_winners db player_id)
    (total ms_unforced_errors db player_id).
  set (row := ({[ "total_smashes" := _ ]} : dict)) || idtac.
  cbn [item0]. rewrite bind_Ok.
  erewrite dict_truthy_lookup by lookup_row.
  eval_getitem. rewrite ratio_eval.
  rewrite py_gt_int, bind_Ok, Hn.
  unfold shot_totals. cbn [mapM]. eval_getitem.
  unfold py_sum.
  change [VInt ?a; VInt ?b; VInt ?c; VInt ?d; VInt ?e; VInt ?f; VInt ?g]
    with (VInt <$> [a; b; c; d; e; f; g]).
  rewrite py_sum_ints, bind_Ok.
  replace (0 + Zsum _)%Z with (total_shots db player_id)
    by (unfold total_shots, Zsum; cbn [foldr]; lia).
  repeat (erewrite shot_percentage_eval by lookup_row; rewrite ?bind_Ok).
  reflexivity.
Qed.

(** Without statistics rows: the row of NULL sums, as it is. *)
Lemma get_shot_distribution_analysis_no_rows (db : database) (player_id : Z) :
  statistics_of db player_id = [] ->
  exists row,
    shot_distribution_query db player_id = [row]
    /\ get_shot_distribution_analysis db player_id = Ok row
    /\ row !! "total_shots" = None
    /\ row !! "smash_percentage" = None
    /\ row !! "winner_to_error_ratio" = None.
Proof.
  intros Hrows. eexists. split; [reflexivity|].
  unfold get_shot_distribution_analysis, shot_distribution_query.
  rewrite Hrows. split; [reflexivity|]. by simplify_map_eq.
Qed.

(** ** Rally-length analysis *)

Lemma to_float_percentage (x t : Z) :
  to_float (percentage x t) = Some (Fin (rate x t)).
Proof. unfold percentage, rate. destruct (0 <? t)%Z; reflexivity. Qed.

Lemma py_gt_percentage (x t y u : Z) :
  py_gt (percentage x t) (percentage y u) = Ok (Qltb (rate y u) (rate x t)).
Proof.
  unfold py_gt, py_lt. rewrite !to_float_percentage.
  unfold percentage. destruct (0 <? t)%Z, (0 <? u)%Z; reflexivity.
Qed.

(** Without statistics rows every sum is [None], and the first comparison
    [result['total_short_rallies'] > 0] raises. *)
Lemma get_rally_length_analysis_no_rows (db : database) (player_id : Z) :
  statistics_of db player_id = [] ->
  get_rally_length_analysis db player_id = Raise TypeError.
Proof.
  intros Hrows. unfold get_rally_length_analysis, rally_length_query.
  rewrite Hrows. reflexivity.
Qed.

Lemma get_rally_length_analysis_rows (db : database) (player_id : Z) :
  statistics_of db player_id <> [] ->
  exists row,
    rally_length_query db player_id = [row]
    /\ get_rally_length_analysis db player_id
       = Ok (rally_analysis db player_id ∪ row).
Proof.
  intros Hrows. eexists. split; [reflexivity|].
  unfold get_rally_length_analysis, rally_length_query.
  rewrite !(sum_column_cons _ _ Hrows).
  fold (total ms_short_rallies_played db player_id)
    (total ms_short_rallies_won db player_id)
    (total ms_medium_rallies_played db player_id)
    (total ms_medium_rallies_won db player_id)
    (total ms_long_rallies_played db player_id)
    (total ms_long_rallies_won db player_id).
  cbn [item0]. rewrite bind_Ok.
  erewrite dict_truthy_lookup by lookup_row.
  repeat (erewrite rally_win_rate_eval by lookup_row; rewrite ?bind_Ok).
  eval_getitem.
  cbn [py_max_by foldl]. rewrite bind_Ok. cbn [snd].
  rewrite py_gt_percentage, bind_Ok.
  fold (short_rate db player_id) (medium_rate db player_id).
  unfold rally_analysis, preferred_rally_length.
  destruct (Qltb (short_rate db player_id) (medium_rate db player_id));
    cbn match; rewrite bind_Ok; cbn [snd]; rewrite py_gt_percentage, bind_Ok;
    fold (short_rate db player_id) (medium_rate db player_id)
      (long_rate db player_id);
    match goal with |- context [Qltb ?a ?b] => destruct (Qltb a b) end;
    reflexivity.
Qed.

(** ** Strengths and weaknesses *)

Lemma py_lt_numbers (a b : value) (x y : float) :
  to_float a = Some x -> to_float b = Some y -> py_lt a b = Ok (float_ltb x y).
Proof.
  intros Ha Hb. unfold py_lt. rewrite Ha, Hb.
  destruct a; try discriminate; destruct b; try discriminate; reflexivity.
Qed.

Lemma py_gt_numbers (a b : value) (x y : float) :
  to_float a = Some x -> to_float b = Some y -> py_gt a b = Ok (float_ltb y x).
Proof. intros Ha Hb. apply py_lt_numbers; assumption. Qed.

Ltac decide_closed := eapply bool_decide_unpack; vm_compute; exact I.

(** What [classify] appends, read off its result. The three comparisons
    named here have succeeded, and each decides one string. *)
Lemma classify_Ok (stats_summary shot_analysis rally_analysis : dict)
    (strengths weaknesses : list string) :
  classify stats_summary shot_analysis rally_analysis = Ok (strengths, weaknesses) ->
  exists accurate attacking enduring : bool,
    py_gt (get stats_summary "winner_to_error_ratio" (VInt 0)) (VFloat (Fin (3 # 2)))
      = Ok accurate
    /\ py_gt (get shot_analysis "smash_percentage" (VInt 0)) (VInt 25) = Ok attacking
    /\ py_gt (get rally_analysis "long_rally_win_rate" (VInt 0))
         (get rally_analysis "short_rally_win_rate" (VInt 0)) = Ok enduring
    /\ (accuracy_strength ∈ strengths <-> accurate = true)
    /\ (accurate = true -> errors_weakness ∉ weaknesses)
    /\ (attacking_strength ∈ strengths <-> attacking = true)
    /\ (endurance_strength ∈ strengths <-> enduring = true)
    /\ (quick_finishing_strength ∈ strengths <-> enduring = false)
    /\ length (filter (fun s => s = endurance_strength \/ s = quick_finishing_strength)
                 strengths) = 1%nat.
Proof.
  unfold classify.
  generalize (py_gt (get stats_summary "winner_to_error_ratio" (VInt 0))
                (VFloat (Fin (3 # 2)))).
  generalize (py_lt (get stats_summary "winner_to_error_ratio" (VInt 0))
                (VFloat (Fin (4 # 5)))).
  generalize (py_gt (get stats_summary "ace_percentage" (VInt 0)) (VInt 8)).
  generalize (py_lt (get stats_summary "ace_percentage" (VInt 0)) (VInt 3)).
  generalize (py_gt (get shot_analysis "smash_percentage" (VInt 0)) (VInt 25)).
  generalize (py_gt (get rally_analysis "long_rally_win_rate" (VInt 0))
                (get rally_analysis "short_rally_win_rate" (VInt 0))).
  intros r6 r5 r4 r3 r2 r1.
  destruct r1 as [c1|]; [|discriminate].
  destruct c1; cbn -[elem_of filter].
  - destruct r3 as [c3|]; [|discriminate].
    destruct c3; cbn -[elem_of filter].
    + destruct r5 as [[|]|]; [| |discriminate]; cbn -[elem_of filter];
        (destruct r6 as [[|]|]; [| |discriminate]); cbn -[elem_of filter];
        intros [= <- <-]; do 3 eexists; (do 3 (split; [reflexivity|]));
        decide_closed.
    + destruct r4 as [c4|]; [|discriminate].
      destruct c4; cbn -[elem_of filter];
        (destruct r5 as [[|]|]; [| |discriminate]); cbn -[elem_of filter];
        (destruct r6 as [[|]|]; [| |discriminate]); cbn -[elem_of filter];
        intros [= <- <-]; do 3 eexists; (do 3 (split; [reflexivity|]));
        decide_closed.
  - destruct r2 as [c2|]; [|discriminate].
    destruct c2; cbn -[elem_of filter];
      (destruct r3 as [c3|]; [|discriminate]);
      (destruct c3; cbn -[elem_of filter];
       [|destruct r4 as [[|]|]; [| |discriminate]; cbn -[elem_of filter]]);
      (destruct r5 as [[|]|]; [| |discriminate]); cbn -[elem_of filter];
      (destruct r6 as [[|]|]; [| |discriminate]); cbn -[elem_of filter];
      intros [= <- <-]; do 3 eexists; (do 3 (split; [reflexivity|]));
      decide_closed.
Qed.

(** ** Recent form *)

Lemma float_leb_Fin (a b : Q) : float_leb (Fin a) (Fin b) = Qle_bool a b.
Proof.
  apply eq_true_iff_eq. unfold float_leb. cbn [float_ltb float_eqb].
  rewrite orb_true_iff, Qltb_lt, Qeqb_eq, Qle_bool_iff, Qle_lteq. reflexivity.
Qed.

Lemma Qle_bool_Qeq (a b c : Q) : (b == c)%Q -> Qle_bool a b = Qle_bool a c.
Proof.
  intros H. apply eq_true_iff_eq. rewrite !Qle_bool_iff, H. reflexivity.
Qed.

Lemma py_ge_float_int (q : Q) (k : Z) :
  py_ge (VFloat (Fin q)) (VInt k) = Ok (Qle_bool (inject_Z k) q).
Proof. cbn. rewrite float_leb_Fin. reflexivity. Qed.

(** On a non-empty list the classifier returns the band of the win rate. *)
Lemma recent_form_eval (recent_matches : list dict) :
  recent_matches <> [] ->
  _calculate_recent_form recent_matches = Ok (band (win_rate recent_matches)).
Proof.
  intros Hne. unfold _calculate_recent_form.
  destruct recent_matches as [|m l]; [congruence|].
  fold (wins (m :: l)). unfold win_rate.
  set (w := Z.of_nat (wins (m :: l))).
  set (t := Z.of_nat (length (m :: l))).
  assert (Ht : (t =? 0)%Z = false).
  { apply Z.eqb_neq. subst t. cbn [length]. lia. }
  unfold py_truediv. cbn [to_float]. rewrite is_zero_int, Ht, bind_Ok.
  cbn [py_mul to_float float_div float_mul]. rewrite bind_Ok.
  rewrite !py_ge_float_int, !bind_Ok.
  assert (E : (Qred (Qred (inject_Z w / inject_Z t) * inject_Z 100)
               == inject_Z w / inject_Z t * 100)%Q).
  { rewrite !Qred_correct. reflexivity. }
  rewrite !(Qle_bool_Qeq _ _ _ E). unfold band.
  change (inject_Z 80) with 80%Q. change (inject_Z 60) with 60%Q.
  change (inject_Z 40) with 40%Q.
  destruct (Qle_bool 80 _); [reflexivity|]. rewrite ?bind_Ok.
  destruct (Qle_bool 60 _); [reflexivity|]. rewrite ?bind_Ok.
  destruct (Qle_bool 40 _); reflexivity.
Qed.

Lemma band_cases (w : Q) :
  ((80 <= w)%Q -> band w = "Excellent")
  /\ ((60 <= w)%Q -> (w < 80)%Q -> band w = "Good")
  /\ ((40 <= w)%Q -> (w < 60)%Q -> band w = "Average")
  /\ ((w < 40)%Q -> band w = "Poor").
Proof.
  unfold band.
  destruct (Qle_bool 80 w) eqn:E80; [apply Qle_bool_iff in E80|];
  destruct (Qle_bool 60 w) eqn:E60; try apply Qle_bool_iff in E60;
  destruct (Qle_bool 40 w) eqn:E40; try apply Qle_bool_iff in E40;
  repeat split; intros; try reflexivity; exfalso;
  try (assert (~ (80 <= w)%Q) by (rewrite <- Qle_bool_iff; congruence));
  try (assert (~ (60 <= w)%Q) by (rewrite <- Qle_bool_iff; congruence));
  try (assert (~ (40 <= w)%Q) by (rewrite <- Qle_bool_iff; congruence));
  lra.
Qed.

Lemma band_monotone (v w : Q) :
  (v <= w)%Q -> (band_rank (band v) <= band_rank (band w))%nat.
Proof.
  intros H. unfold band.
  destruct (Qle_bool 80 w) eqn:W80; destruct (Qle_bool 80 v) eqn:V80;
  destruct (Qle_bool 60 w) eqn:W60; destruct (Qle_bool 60 v) eqn:V60;
  destruct (Qle_bool 40 w) eqn:W40; destruct (Qle_bool 40 v) eqn:V40;
  try (cbn; lia); exfalso;
  repeat match goal with
    | E : Qle_bool _ _ = true |- _ => apply Qle_bool_iff in E
    | E : Qle_bool ?a ?b = false |- _ =>
        assert (~ (a <= b)%Q) by (rewrite <- Qle_bool_iff; congruence); clear E
    end; lra.
Qed.

(** ** Player profile *)

(** Joins. *)
Lemma left_join_keeps {A B} (on : A -> B -> bool) (l : list A) (r : list B) (a : A) :
  a ∈ l -> exists b, (a, b) ∈ left_join on l r.
Proof.
  intros Ha. unfold left_join.
  destruct (List.filter (on a) r) as [|b bs] eqn:E.
  - exists None. apply list_elem_of_bind. exists a. split; [|exact Ha].
    rewrite E. apply list_elem_of_singleton. reflexivity.
  - exists (Some b). apply list_elem_of_bind. exists a. split; [|exact Ha].
    rewrite E. apply (list_elem_of_fmap_2 (fun b => (a, Some b))). left.
Qed.

Lemma left_join_partner {A B} (on : A -> B -> bool) (l : list A) (r : list B)
    (a : A) (b : B) :
  (a, Some b) ∈ left_join on l r -> a ∈ l /\ b ∈ r /\ on a b = true.
Proof.
  unfold left_join. intros H. apply list_elem_of_bind in H as (a' & H & Ha').
  destruct (List.filter (on a') r) as [|b' bs] eqn:E.
  - apply list_elem_of_singleton in H. discriminate.
  - rewrite <- E in H. apply list_elem_of_fmap in H as (b'' & [= <- <-] & Hb).
    apply list_elem_of_In, filter_In in Hb as [Hb Hon].
    rewrite <- list_elem_of_In in Hb. auto.
Qed.

Lemma non_null_all_None {A} (l : list (option A)) :
  (forall x, x ∈ l -> x = None) -> non_null l = [].
Proof.
  unfold non_null. induction l as [|x l IH]; intros H; [reflexivity|].
  rewrite (H x) by left. cbn. apply IH. intros y Hy. apply H. right. exact Hy.
Qed.

(** The rows behind the profile of a player. *)
Lemma profile_rows_player (db : database) (player_id : Z) p mp m :
  (p, mp, m) ∈ profile_rows db player_id ->
  p ∈ players db /\ p_player_id p = player_id.
Proof.
  unfold profile_rows. intros H.
  apply list_elem_of_In, filter_In in H as [H Hk]. apply Z.eqb_eq in Hk.
  split; [|exact Hk]. rewrite <- list_elem_of_In in H.
  apply list_elem_of_bind in H as ([p' mp'] & H & Hx).
  assert (p' = p) as ->.
  { destruct (List.filter _ (matches db)).
    - apply list_elem_of_singleton in H. congruence.
    - apply list_elem_of_fmap in H as (? & H & _). congruence. }
  apply list_elem_of_bind in Hx as (p' & H' & Hp).
  destruct (List.filter _ (match_participants db)).
  - apply list_elem_of_singleton in H'. congruence.
  - apply list_elem_of_fmap in H' as (? & H' & _). congruence.
Qed.

Lemma profile_rows_exist (db : database) (player_id : Z) p :
  p ∈ players db -> p_player_id p = player_id ->
  profile_rows db player_id <> [].
Proof.
  intros Hp Hid Hnil. unfold profile_rows in Hnil.
  match type of Hnil with
  | List.filter _ (left_join ?on2 (left_join ?on1 _ _) _) = _ =>
      destruct (left_join_keeps on1 _ (match_participants db) p Hp) as [mp Hmp];
      destruct (left_join_keeps on2 _ (matches db) (p, mp) Hmp) as [m Hm]
  end.
  assert (Hrow : In (p, mp, m) []).
  { rewrite <- Hnil. apply filter_In. split; [apply list_elem_of_In, Hm|].
    apply Z.eqb_eq, Hid. }
  exact Hrow.
Qed.

Lemma profile_rows_no_match (db : database) (player_id : Z) p mp m :
  completed_matches db player_id = [] ->
  (p, mp, m) ∈ profile_rows db player_id -> m = None.
Proof.
  intros Hnone H. destruct m as [mm|]; [exfalso|reflexivity].
  unfold profile_rows in H.
  apply list_elem_of_In, filter_In in H as [H Hk]. apply Z.eqb_eq in Hk.
  rewrite <- list_elem_of_In in H.
  apply left_join_partner in H as (Hx & Hmm & Hon).
  destruct mp as [mpp|]; [|discriminate].
  apply andb_true_iff in Hon as [Hid Hst].
  apply left_join_partner in Hx as (_ & Hmpp & Hon1).
  assert (Hc : In mm (completed_matches db player_id)).
  { apply filter_In. split; [apply list_elem_of_In, Hmm|].
    rewrite Hst. cbn [andb]. apply existsb_exists. exists mpp.
    split; [apply list_elem_of_In, Hmpp|].
    apply Z.eqb_eq in Hon1. rewrite <- Hon1, Hk, Z.eqb_refl, Hid. reflexivity. }
  rewrite Hnone in Hc. exact Hc.
Qed.

Lemma get_player_profile_unknown (db : database) (player_id : Z) :
  (forall p, p ∈ players db -> p_player_id p <> player_id) ->
  get_player_profile db player_id = ∅.
Proof.
  intros H. unfold get_player_profile, player_profile_query.
  destruct (profile_rows db player_id) as [|[[p mp] m] rest] eqn:E; [reflexivity|].
  exfalso. destruct (profile_rows_player db player_id p mp m) as [Hp Hid].
  { rewrite E. left. }
  exact (H p Hp Hid).
Qed.

Lemma get_player_profile_known (db : database) (player_id : Z) p :
  p ∈ players db -> p_player_id p = player_id ->
  get_player_profile db player_id !! "player_id" = Some (VInt player_id)
  /\ exists n, get_player_profile db player_id !! "total_matches" = Some (VInt n).
Proof.
  intros Hp Hid. pose proof (profile_rows_exist db player_id p Hp Hid) as Hne.
  unfold get_player_profile, player_profile_query.
  destruct (profile_rows db player_id) as [|[[p' mp] m] rest] eqn:E; [congruence|].
  destruct (profile_rows_player db player_id p' mp m) as [_ Hid'].
  { rewrite E. left. }
  cbn [first_or_empty]. split.
  - rewrite lookup_union_r by (by simplify_map_eq).
    unfold player_columns. rewrite Hid'. by simplify_map_eq.
  - eexists. apply lookup_union_Some_l. unfold count_distinct. by simplify_map_eq.
Qed.

Lemma get_player_profile_no_match (db : database) (player_id : Z) p :
  p ∈ players db -> p_player_id p = player_id ->
  completed_matches db player_id = [] ->
  get_player_profile db player_id !! "total_matches" = Some (VInt 0)
  /\ get_player_profile db player_id !! "tournaments_played" = Some (VInt 0)
  /\ get_player_profile db player_id !! "avg_match_duration" = Some VNone
  /\ get_player_profile db player_id !! "last_match_date" = Some VNone.
Proof.
  intros Hp Hid Hnone. pose proof (profile_rows_exist db player_id p Hp Hid) as Hne.
  pose proof (fun p mp m => profile_rows_no_match db player_id p mp m Hnone) as Hm.
  unfold get_player_profile, player_profile_query.
  destruct (profile_rows db player_id) as [|[[p' mp'] m'] rest] eqn:E; [congruence|].
  cbn [first_or_empty].
  match goal with
  | |- context [fmap m_match_id <$> ?l] => set (ms := l)
  end.
  assert (Hms : forall o, o ∈ ms -> o = None).
  { intros o Ho. apply list_elem_of_fmap in Ho as ([[p1 mp1] m1] & -> & Hr).
    exact (Hm _ _ _ Hr). }
  assert (Hall : forall {A} (f : match_row -> A) (x : option A),
            x ∈ (fmap (M:=option) f <$> ms) -> x = None).
  { intros A f x Hx. apply list_elem_of_fmap in Hx as (o & -> & Ho).
    rewrite (Hms _ Ho). reflexivity. }
  assert (Hdur : forall x : option Q,
            x ∈ (fun m => to_real (m_duration_minutes <$> m)) <$> ms -> x = None).
  { intros x Hx. apply list_elem_of_fmap in Hx as (o & -> & Ho).
    rewrite (Hms _ Ho). reflexivity. }
  repeat split; apply lookup_union_Some_l.
  - unfold count_distinct. rewrite (non_null_all_None _ (Hall _ m_match_id)).
    by simplify_map_eq.
  - unfold count_distinct. rewrite (non_null_all_None _ (Hall _ m_tournament_id)).
    by simplify_map_eq.
  - unfold avg. rewrite (non_null_all_None _ Hdur). by simplify_map_eq.
  - unfold max_text. rewrite (non_null_all_None _ (Hall _ m_match_date)).
    by simplify_map_eq.
Qed.

(** ** The scouting report *)

Lemma summary_lookup (db : database) (player_id : Z) :
  get (get_player_statistics_summary db player_id) "winner_to_error_ratio" (VInt 0)
  = real (avg_ratio ms_winners ms_unforced_errors (statistics_of db player_id))
  /\ get (get_player_statistics_summary db player_id) "ace_percentage" (VInt 0)
     = real (times100 (avg_ratio ms_service_aces ms_total_serves
                         (statistics_of db player_id))).
Proof.
  unfold get, get_player_statistics_summary, player_statistics_summary_query.
  cbn [first_or_empty]. split.
  - erewrite lookup_union_Some_l; [reflexivity|]. by simplify_map_eq.
  - erewrite lookup_union_Some_l; [reflexivity|]. by simplify_map_eq.
Qed.

Lemma to_float_real (o : option Q) :
  to_float (real o) = (fun q => Fin (Qred q)) <$> o.
Proof. destruct o; reflexivity. Qed.

Lemma get_shot_smash (db : database) (player_id : Z) (row : dict) :
  get (shot_distribution db player_id ∪ row) "smash_percentage" (VInt 0)
  = percentage (total ms_smashes db player_id) (total_shots db player_id).
Proof.
  unfold get. erewrite lookup_union_Some_l; [reflexivity|].
  unfold shot_distribution. by simplify_map_eq.
Qed.

Lemma get_rally_rates (db : database) (player_id : Z) (row : dict) :
  get (rally_analysis db player_id ∪ row) "long_rally_win_rate" (VInt 0)
  = percentage (total ms_long_rallies_won db player_id)
      (total ms_long_rallies_played db player_id)
  /\ get (rally_analysis db player_id ∪ row) "short_rally_win_rate" (VInt 0)
     = percentage (total ms_short_rallies_won db player_id)
         (total ms_short_rallies_played db player_id).
Proof.
  unfold get, rally_analysis. split.
  - erewrite lookup_union_Some_l; [reflexivity|]. by simplify_map_eq.
  - erewrite lookup_union_Some_l; [reflexivity|]. by simplify_map_eq.
Qed.

(** The report raises for a player without statistics rows: the rally
    analysis it calls does. *)
Lemma generate_scouting_report_no_rows (db : database) (player_id : Z) :
  statistics_of db player_id = [] ->
  generate_scouting_report db player_id = Raise TypeError.
Proof.
  intros Hrows. unfold generate_scouting_report.
  destruct (get_shot_distribution_analysis_no_rows db player_id Hrows)
    as (row & _ & -> & _).
  rewrite bind_Ok, (get_rally_length_analysis_no_rows db player_id Hrows).
  reflexivity.
Qed.

Lemma bind_Ok_inv {A B} (m : Py.result A) (f : A -> Py.result B) (b : B) :
  m ≫= f = Ok b -> exists a, m = Ok a /\ f a = Ok b.
Proof. destruct m as [a|e]; [eauto|discriminate]. Qed.

(** A report that is produced: what went into it. *)
Lemma generate_scouting_report_Ok (db : database) (player_id : Z)
    (report : scouting_report) :
  generate_scouting_report db player_id = Ok report ->
  statistics_of db player_id <> []
  /\ exists shot_row rally_row : dict,
      style_shot_distribution (report_playing_style report)
      = shot_distribution db player_id ∪ shot_row
      /\ style_rally_preference (report_playing_style report)
         = rally_analysis db player_id ∪ rally_row
      /\ classify (get_player_statistics_summary db player_id)
           (shot_distribution db player_id ∪ shot_row)
           (rally_analysis db player_id ∪ rally_row)
         = Ok (style_strengths (report_playing_style report),
               style_weaknesses (report_playing_style report)).
Proof.
  intros H.
  assert (Hne : statistics_of db player_id <> []).
  { intros E. rewrite (generate_scouting_report_no_rows db player_id E) in H.
    discriminate. }
  split; [exact Hne|].
  destruct (get_shot_distribution_analysis_rows db player_id Hne) as (srow & _ & Hs).
  destruct (get_rally_length_analysis_rows db player_id Hne) as (rrow & _ & Hr).
  exists srow, rrow. unfold generate_scouting_report in H.
  rewrite Hs, bind_Ok, Hr, bind_Ok in H.
  apply bind_Ok_inv in H as ([st wk] & Hc & H).
  apply bind_Ok_inv in H as (form & _ & H).
  injection H as <-. repeat split; [reflexivity..|exact Hc].
Qed.

Lemma recent_form_total (recent_matches : list dict) :
  exists form, _calculate_recent_form recent_matches = Ok form.
Proof.
  destruct recent_matches as [|m l]; [eexists; reflexivity|].
  eexists. apply recent_form_eval. discriminate.
Qed.

(** [classify] on numbers: no comparison raises. *)
Lemma classify_numbers (stats_summary shot_analysis rally_analysis : dict) :
  is_Some (to_float (get stats_summary "winner_to_error_ratio" (VInt 0))) ->
  is_Some (to_float (get stats_summary "ace_percentage" (VInt 0))) ->
  is_Some (to_float (get shot_analysis "smash_percentage" (VInt 0))) ->
  is_Some (to_float (get rally_analysis "long_rally_win_rate" (VInt 0))) ->
  is_Some (to_float (get rally_analysis "short_rally_win_rate" (VInt 0))) ->
  exists strengths weaknesses,
    classify stats_summary shot_analysis rally_analysis = Ok (strengths, weaknesses).
Proof.
  intros [w Hw] [a Ha] [s Hs] [l Hl] [sh Hsh]. unfold classify.
  rewrite (py_gt_numbers _ (VFloat (Fin (3 # 2))) _ _ Hw eq_refl).
  rewrite (py_lt_numbers _ (VFloat (Fin (4 # 5))) _ _ Hw eq_refl).
  rewrite (py_gt_numbers _ (VInt 8) _ _ Ha eq_refl).
  rewrite (py_lt_numbers _ (VInt 3) _ _ Ha eq_refl).
  rewrite (py_gt_numbers _ (VInt 25) _ _ Hs eq_refl).
  rewrite (py_gt_numbers _ _ _ _ Hl Hsh).
  repeat match goal with
         | |- context [float_ltb ?x ?y] => destruct (float_ltb x y)
         end; cbn; eauto.
Qed.

(** [classify] on a [None] ratio or ace percentage: the comparison with the
    threshold raises. *)
Lemma classify_None (stats_summary shot_analysis rally_analysis : dict) :
  get stats_summary "winner_to_error_ratio" (VInt 0) = VNone
  \/ (is_Some (to_float (get stats_summary "winner_to_error_ratio" (VInt 0)))
      /\ get stats_summary "ace_percentage" (VInt 0) = VNone) ->
  classify stats_summary shot_analysis rally_analysis = Raise TypeError.
Proof.
  unfold classify. intros [-> | [[w Hw] ->]]; [reflexivity|].
  rewrite (py_gt_numbers _ (VFloat (Fin (3 # 2))) _ _ Hw eq_refl).
  rewrite (py_lt_numbers _ (VFloat (Fin (4 # 5))) _ _ Hw eq_refl).
  repeat match goal with
         | |- context [float_ltb ?x ?y] => destruct (float_ltb x y)
         end; reflexivity.
Qed.

(** The report is produced exactly for a player with statistics rows whose
    winner/error ratio and ace percentage are not NULL, that is, with a row
    of non-zero unforced errors and a row of non-zero serves; otherwise it
    raises [TypeError]. *)
Lemma generate_scouting_report_produced (db : database) (player_id : Z) :
  statistics_of db player_id <> [] ->
  avg_ratio ms_winners ms_unforced_errors (statistics_of db player_id) <> None ->
  avg_ratio ms_service_aces ms_total_serves (statistics_of db player_id) <> None ->
  exists report, generate_scouting_report db player_id = Ok report.
Proof.
  intros Hne Hw Ha. unfold generate_scouting_report.
  destruct (get_shot_distribution_analysis_rows db player_id Hne) as (srow & _ & ->).
  destruct (get_rally_length_analysis_rows db player_id Hne) as (rrow & _ & ->).
  rewrite !bind_Ok.
  destruct (classify_numbers (get_player_statistics_summary db player_id)
              (shot_distribution db player_id ∪ srow)
              (rally_analysis db player_id ∪ rrow)) as (st & wk & ->).
  - rewrite (proj1 (summary_lookup db player_id)), to_float_real.
    destruct (avg_ratio ms_winners _ _); [eexists; reflexivity|congruence].
  - rewrite (proj2 (summary_lookup db player_id)), to_float_real.
    destruct (avg_ratio ms_service_aces _ _); [eexists; reflexivity|congruence].
  - rewrite get_shot_smash, to_float_percentage. eexists; reflexivity.
  - rewrite (proj1 (get_rally_rates db player_id rrow)), to_float_percentage.
    eexists; reflexivity.
  - rewrite (proj2 (get_rally_rates db player_id rrow)), to_float_percentage.
    eexists; reflexivity.
  - rewrite bind_Ok.
    destruct (recent_form_total (get_recent_matches db player_id 5)) as [form ->].
    rewrite bind_Ok. eexists; reflexivity.
Qed.

Lemma generate_scouting_report_null (db : database) (player_id : Z) :
  statistics_of db player_id <> [] ->
  avg_ratio ms_winners ms_unforced_errors (statistics_of db player_id) = None
  \/ avg_ratio ms_service_aces ms_total_serves (statistics_of db player_id) = None ->
  generate_scouting_report db player_id = Raise TypeError.
Proof.
  intros Hne Hnull. unfold generate_scouting_report.
  destruct (get_shot_distribution_analysis_rows db player_id Hne) as (srow & _ & ->).
  destruct (get_rally_length_analysis_rows db player_id Hne) as (rrow & _ & ->).
  rewrite !bind_Ok, classify_None; [reflexivity|].
  rewrite (proj1 (summary_lookup db player_id)), (proj2 (summary_lookup db player_id)).
  destruct (avg_ratio ms_winners _ _) as [w|]; [right|left; reflexivity].
  destruct Hnull as [|Ha]; [discriminate|]. rewrite Ha.
  split; [eexists; reflexivity|reflexivity].
Qed.

(** ** Comparison of players *)

Lemma compare_players_insufficient (db : database) (player_ids : list Z) :
  (length player_ids < 2)%nat ->
  compare_players db player_ids = Raise ValueError.
Proof.
  intros H. unfold compare_players.
  apply Nat.ltb_lt in H. rewrite H. reflexivity.
Qed.

Lemma compare_players_pair_no_rows (db : database) (x y : Z) :
  statistics_of db y = [] ->
  compare_players db [x; y] = Raise TypeError.
Proof.
  intros Hy. unfold compare_players. cbn [length Nat.ltb Nat.leb foldl].
  rewrite bind_Ok.
  destruct (statistics_of db x) as [|ms rows] eqn:Ex.
  - destruct (get_shot_distribution_analysis_no_rows db x Ex) as (row & _ & -> & _).
    rewrite bind_Ok, (get_rally_length_analysis_no_rows db x Ex). reflexivity.
  - assert (Hne : statistics_of db x <> []) by (rewrite Ex; discriminate).
    destruct (get_shot_distribution_analysis_rows db x Hne) as (srow & _ & ->).
    destruct (get_rally_length_analysis_rows db x Hne) as (rrow & _ & ->).
    rewrite !bind_Ok.
    destruct (get_shot_distribution_analysis_no_rows db y Hy) as (row & _ & -> & _).
    rewrite bind_Ok, (get_rally_length_analysis_no_rows db y Hy). reflexivity.
Qed.

Lemma compare_players_pair_keys (db : database) (x y : Z) :
  statistics_of db x <> [] -> statistics_of db y <> [] ->
  exists comparisons,
    compare_players db [x; y] = Ok comparisons /\ dom comparisons = {[x; y]}.
Proof.
  intros Hx Hy. unfold compare_players. cbn [length Nat.ltb Nat.leb foldl].
  destruct (get_shot_distribution_analysis_rows db x Hx) as (sx & _ & ->).
  destruct (get_rally_length_analysis_rows db x Hx) as (rx & _ & ->).
  destruct (get_shot_distribution_analysis_rows db y Hy) as (sy & _ & ->).
  destruct (get_rally_length_analysis_rows db y Hy) as (ry & _ & ->).
  rewrite !bind_Ok. eexists. split; [reflexivity|].
  rewrite !dom_insert_L, dom_empty_L, (right_id_L ∅ (∪)).
  apply (comm_L (∪)).
Qed.

(** ** The statements of the specification *)

(** C1. The claim that no core lookup raises for an id without statistics
    rows fails: for every store and every id without statistics rows, a
    non-existent id included, the rally-length analysis raises [TypeError]
    at [result['total_short_rallies'] > 0], and so does the scouting report,
    which calls it. *)
Theorem lookups_without_statistics_raise (db : database) (player_id : Z) :
  statistics_of db player_id = [] ->
  get_rally_length_analysis db player_id = Raise TypeError
  /\ generate_scouting_report db player_id = Raise TypeError.
Proof.
  intros Hrows. split.
  - apply get_rally_length_analysis_no_rows, Hrows.
  - apply generate_scouting_report_no_rows, Hrows.
Qed.

Lemma lookups_without_statistics_raise_witness :
  statistics_of example_db 3 = []
  /\ get_rally_length_analysis example_db 3 = Raise TypeError
  /\ generate_scouting_report example_db 3 = Raise TypeError.
Proof.
  split; [reflexivity|].
  apply (lookups_without_statistics_raise example_db 3). reflexivity.
Defined.

(** C2, as stated, fails: player 3 of the example store exists and has no
    completed match, and the profile is not the empty record. *)
Lemma profile_without_matches_not_empty :
  (exists p, p ∈ players example_db /\ p_player_id p = 3%Z)
  /\ completed_matches example_db 3 = []
  /\ get_player_profile example_db 3 <> ∅.
Proof.
  split; [|split].
  - exists (example_player 3 "Anders" "Antonsen"). split; [|reflexivity].
    unfold example_db. cbn [players]. do 2 right. left.
  - reflexivity.
  - intros H.
    assert (E : get_player_profile example_db 3 !! "player_id" = Some (VInt 3))
      by (vm_compute; reflexivity).
    rewrite H, lookup_empty in E. discriminate.
Qed.

(** The columns of the player's row pass into the profile: no aggregate of
    the query carries the name of a column of [players]. *)
Lemma profile_row_columns (c w wp d l t : value) (p : player) (column : string)
    (v : value) :
  player_columns p !! column = Some v ->
  (({[ "total_matches" := c; "matches_won" := w; "win_percentage" := wp;
       "avg_match_duration" := d; "last_match_date" := l;
       "tournaments_played" := t ]} : dict) ∪ player_columns p) !! column
  = Some v.
Proof.
  intros H. apply lookup_union_Some_raw. right. split; [|exact H].
  apply elem_of_dom_2 in H. unfold player_columns in H.
  rewrite !dom_insert_L, dom_singleton_L in H.
  rewrite !elem_of_union, !elem_of_singleton in H.
  repeat (destruct H as [H|H]; [subst column; by simplify_map_eq|]).
  subst column. by simplify_map_eq.
Qed.

Lemma get_player_profile_columns (db : database) (player_id : Z) (p : player) :
  p ∈ players db -> p_player_id p = player_id ->
  exists row,
    row ∈ players db /\ p_player_id row = player_id
    /\ forall column v,
         player_columns row !! column = Some v ->
         get_player_profile db player_id !! column = Some v.
Proof.
  intros Hp Hid. pose proof (profile_rows_exist db player_id p Hp Hid) as Hne.
  unfold get_player_profile, player_profile_query.
  destruct (profile_rows db player_id) as [|[[row mp] m] rest] eqn:E; [congruence|].
  destruct (profile_rows_player db player_id row mp m) as [Hrow Hrid].
  { rewrite E. left. }
  exists row. split; [exact Hrow|]. split; [exact Hrid|].
  intros column v H. cbn [first_or_empty]. apply profile_row_columns. exact H.
Qed.

(** C2, amended. For every player that exists in the store and has no
    completed match, the profile is a non-empty record: it carries the
    columns of a row of [players] with the id (of the player's row, the ids
    being unique), [total_matches] and [tournaments_played] are 0, and
    [avg_match_duration] and [last_match_date] are NULL. (The operation is a
    total function: it raises nothing.) *)
Theorem profile_without_matches (db : database) (player_id : Z) (p : player) :
  p ∈ players db -> p_player_id p = player_id ->
  completed_matches db player_id = [] ->
  get_player_profile db player_id <> ∅
  /\ get_player_profile db player_id !! "player_id" = Some (VInt player_id)
  /\ get_player_profile db player_id !! "total_matches" = Some (VInt 0)
  /\ get_player_profile db player_id !! "tournaments_played" = Some (VInt 0)
  /\ get_player_profile db player_id !! "avg_match_duration" = Some VNone
  /\ get_player_profile db player_id !! "last_match_date" = Some VNone
  /\ exists row,
       row ∈ players db /\ p_player_id row = player_id
       /\ forall column v,
            player_columns row !! column = Some v ->
            get_player_profile db player_id !! column = Some v.
Proof.
  intros Hp Hid Hnone.
  destruct (get_player_profile_known db player_id p Hp Hid) as [Hk _].
  destruct (get_player_profile_no_match db player_id p Hp Hid Hnone)
    as (H1 & H2 & H3 & H4).
  split; [|split; [exact Hk|]].
  - intros H. rewrite H, lookup_empty in Hk. discriminate.
  - split; [exact H1|]. split; [exact H2|]. split; [exact H3|].
    split; [exact H4|]. exact (get_player_profile_columns db player_id p Hp Hid).
Qed.

Lemma profile_without_matches_witness :
  get_player_profile example_db 3 !! "total_matches" = Some (VInt 0)
  /\ get_player_profile example_db 3 !! "last_name" = Some (VStr "Antonsen").
Proof.
  destruct (profile_without_matches example_db 3
              (example_player 3 "Anders" "Antonsen"))
    as (_ & _ & Ht & _ & _ & _ & row & Hrow & Hid & Hcol).
  - unfold example_db. cbn [players]. do 2 right. left.
  - reflexivity.
  - reflexivity.
  - split; [exact Ht|]. apply Hcol.
    unfold example_db in Hrow. cbn [players] in Hrow.
    repeat (apply elem_of_cons in Hrow as [->|Hrow]; [try discriminate Hid|]).
    + reflexivity.
    + inversion Hrow.
Defined.

(** The fields of the shot-distribution result of a player with statistics
    rows. *)
Lemma shot_distribution_lookup (db : database) (player_id : Z) (row : dict) :
  let r := shot_distribution db player_id ∪ row in
  let share f := percentage (total f db player_id) (total_shots db player_id) in
  r !! "total_shots" = Some (VInt (total_shots db player_id))
  /\ r !! "winner_to_error_ratio"
     = Some (ratio (total ms_winners db player_id)
               (total ms_unforced_errors db player_id))
  /\ r !! "smash_percentage" = Some (share ms_smashes)
  /\ r !! "clear_percentage" = Some (share ms_clears)
  /\ r !! "drop_percentage" = Some (share ms_drops)
  /\ r !! "drive_percentage" = Some (share ms_drives)
  /\ r !! "net_shot_percentage" = Some (share ms_net_shots)
  /\ r !! "lob_percentage" = Some (share ms_lobs)
  /\ r !! "kill_percentage" = Some (share ms_kills).
Proof.
  intros r share. subst r share. unfold shot_distribution.
  repeat split; apply lookup_union_Some_l; by simplify_map_eq.
Qed.

Lemma ratio_infinite (w e : Z) : (0 <= e)%Z -> ratio w e = VFloat PInf <-> e = 0%Z.
Proof.
  intros He. unfold ratio. destruct (0 <? e)%Z eqn:E.
  - apply Z.ltb_lt in E. split; [discriminate|lia].
  - apply Z.ltb_ge in E. split; [lia|reflexivity].
Qed.

Lemma inject_Z_nonneg (z : Z) : (0 <= z)%Z -> (0 <= inject_Z z)%Q.
Proof. intros H. change 0%Q with (inject_Z 0). rewrite <- Zle_Qle. exact H. Qed.

Lemma Qdiv_nonneg (w e : Z) : (0 <= w)%Z -> (0 < e)%Z -> (0 <= inject_Z w / inject_Z e)%Q.
Proof.
  intros Hw He. apply Qle_shift_div_l.
  - change 0%Q with (inject_Z 0). rewrite <- Zlt_Qlt. exact He.
  - rewrite Qmult_0_l. apply inject_Z_nonneg, Hw.
Qed.

(** C3, as stated, fails: player 2 of the example store has one statistics
    row, no winners and no unforced errors, and the ratio is [+infinity], not
    a finite number. *)
Lemma ratio_without_winners_and_errors :
  total ms_winners example_db 2 = 0%Z
  /\ total ms_unforced_errors example_db 2 = 0%Z
  /\ exists r,
      get_shot_distribution_analysis example_db 2 = Ok r
      /\ r !! "winner_to_error_ratio" = Some (VFloat PInf).
Proof.
  split; [reflexivity|]. split; [reflexivity|].
  destruct (get_shot_distribution_analysis_rows example_db 2) as (row & _ & Hr);
    [discriminate|].
  exists (shot_distribution example_db 2 ∪ row). split; [exact Hr|].
  exact (proj1 (proj2 (shot_distribution_lookup example_db 2 row))).
Qed.

(** Rounding to two decimals, exact here, is within [near2]. *)
Lemma near2_Qround2 (x : Q) : (0 <= x)%Q -> near2 (Qround2 x) x.
Proof.
  intros Hx. unfold near2. destruct (Qround2_near x) as [H1 H2].
  set (q := Qround2 x) in *. clearbody q. split; lra.
Qed.

Lemma sums_fit_example :
  shot_sums_fit example_db 1 /\ rally_sums_fit example_db 1
  /\ shot_sums_fit example_db 2 /\ rally_sums_fit example_db 2
  /\ shot_sums_fit example_db 3.
Proof.
  unfold shot_sums_fit, rally_sums_fit, fits.
  split; [|split; [|split; [|split]]]; decide_closed.
Qed.

(** C3, amended. For every player with at least one statistics row, whose
    sums fit, the shot-distribution result has a [winner_to_error_ratio],
    which is [+infinity] exactly when the summed unforced errors are 0,
    winners or not, and is otherwise a finite, non-negative number: winners
    divided by unforced errors, rounded to two decimals. *)
Theorem winner_to_error_ratio_sentinel (db : database) (player_id : Z) :
  statistics_of db player_id <> [] ->
  shot_sums_fit db player_id ->
  exists r v,
    get_shot_distribution_analysis db player_id = Ok r
    /\ r !! "winner_to_error_ratio" = Some v
    /\ (v = VFloat PInf <-> total ms_unforced_errors db player_id = 0%Z)
    /\ ((0 < total ms_unforced_errors db player_id)%Z ->
        exists q,
          v = VFloat (Fin q) /\ (0 <= q)%Q
          /\ near2 q (inject_Z (total ms_winners db player_id)
                      / inject_Z (total ms_unforced_errors db player_id))).
Proof.
  intros Hrows _.
  destruct (get_shot_distribution_analysis_rows db player_id Hrows)
    as (row & _ & Hr).
  exists (shot_distribution db player_id ∪ row),
    (ratio (total ms_winners db player_id) (total ms_unforced_errors db player_id)).
  split; [exact Hr|]. split; [|split].
  - exact (proj1 (proj2 (shot_distribution_lookup db player_id row))).
  - apply ratio_infinite, total_nonneg.
  - intros He.
    pose proof (Qdiv_nonneg _ _ (total_nonneg ms_winners db player_id) He) as Hq.
    eexists. split; [|split].
    + unfold ratio. apply Z.ltb_lt in He. rewrite He. reflexivity.
    + apply Qround2_nonneg. exact Hq.
    + apply near2_Qround2. exact Hq.
Qed.

Lemma winner_to_error_ratio_sentinel_witness :
  exists r q,
    get_shot_distribution_analysis example_db 1 = Ok r
    /\ r !! "winner_to_error_ratio" = Some (VFloat (Fin q))
    /\ near2 q (inject_Z 20 / inject_Z 10).
Proof.
  destruct (winner_to_error_ratio_sentinel example_db 1)
    as (r & v & Hr & Hv & _ & Hq); [discriminate|apply sums_fit_example|].
  destruct Hq as (q & -> & _ & Hn); [reflexivity|].
  exists r, q. split; [exact Hr|]. split; [exact Hv|]. exact Hn.
Defined.

(** The percentages of a positive total add up to 100 within the rounding
    of seven summands. *)
Lemma rates_sum (a b c d e f g : Z) :
  (0 < a + b + c + d + e + f + g)%Z ->
  let t := (a + b + c + d + e + f + g)%Z in
  (100 - (1 # 10)
   <= rate a t + rate b t + rate c t + rate d t + rate e t + rate f t + rate g t
   <= 100 + (1 # 10))%Q.
Proof.
  intros Ht t. unfold rate. apply Z.ltb_lt in Ht. fold t in Ht. rewrite Ht.
  apply Z.ltb_lt in Ht.
  assert (Hq : (0 < inject_Z t)%Q)
    by (change 0%Q with (inject_Z 0); rewrite <- Zlt_Qlt; exact Ht).
  assert (Hsum : (inject_Z a / inject_Z t * 100 + inject_Z b / inject_Z t * 100
                  + inject_Z c / inject_Z t * 100 + inject_Z d / inject_Z t * 100
                  + inject_Z e / inject_Z t * 100 + inject_Z f / inject_Z t * 100
                  + inject_Z g / inject_Z t * 100 == 100)%Q).
  { assert (Et : (inject_Z t == inject_Z a + inject_Z b + inject_Z c + inject_Z d
                              + inject_Z e + inject_Z f + inject_Z g)%Q).
    { unfold t. rewrite !inject_Z_plus. reflexivity. }
    assert (Hne : ~ (inject_Z t == 0)%Q) by lra.
    transitivity ((inject_Z a + inject_Z b + inject_Z c + inject_Z d
                   + inject_Z e + inject_Z f + inject_Z g) / inject_Z t * 100)%Q.
    - field. exact Hne.
    - rewrite <- Et. field. exact Hne. }
  pose proof (Qround2_near (inject_Z a / inject_Z t * 100)) as [? ?].
  pose proof (Qround2_near (inject_Z b / inject_Z t * 100)) as [? ?].
  pose proof (Qround2_near (inject_Z c / inject_Z t * 100)) as [? ?].
  pose proof (Qround2_near (inject_Z d / inject_Z t * 100)) as [? ?].
  pose proof (Qround2_near (inject_Z e / inject_Z t * 100)) as [? ?].
  pose proof (Qround2_near (inject_Z f / inject_Z t * 100)) as [? ?].
  pose proof (Qround2_near (inject_Z g / inject_Z t * 100)) as [? ?].
  set (ra := Qround2 (inject_Z a / inject_Z t * 100)) in *.
  set (rb := Qround2 (inject_Z b / inject_Z t * 100)) in *.
  set (rc := Qround2 (inject_Z c / inject_Z t * 100)) in *.
  set (rd := Qround2 (inject_Z d / inject_Z t * 100)) in *.
  set (re := Qround2 (inject_Z e / inject_Z t * 100)) in *.
  set (rf := Qround2 (inject_Z f / inject_Z t * 100)) in *.
  set (rg := Qround2 (inject_Z g / inject_Z t * 100)) in *.
  clearbody ra rb rc rd re rf rg.
  set (xa := (inject_Z a / inject_Z t * 100)%Q) in *.
  set (xb := (inject_Z b / inject_Z t * 100)%Q) in *.
  set (xc := (inject_Z c / inject_Z t * 100)%Q) in *.
  set (xd := (inject_Z d / inject_Z t * 100)%Q) in *.
  set (xe := (inject_Z e / inject_Z t * 100)%Q) in *.
  set (xf := (inject_Z f / inject_Z t * 100)%Q) in *.
  set (xg := (inject_Z g / inject_Z t * 100)%Q) in *.
  clearbody xa xb xc xd xe xf xg.
  split; lra.
Qed.

(** C4, as stated for every player, fails: player 3 of the example store
    has no statistics rows, and the result has neither a [total_shots] nor a
    percentage. *)
Lemma distribution_without_statistics :
  statistics_of example_db 3 = []
  /\ exists r,
      get_shot_distribution_analysis example_db 3 = Ok r
      /\ r !! "total_shots" = None
      /\ r !! "smash_percentage" = None.
Proof.
  split; [reflexivity|].
  destruct (get_shot_distribution_analysis_no_rows example_db 3)
    as (row & _ & Hr & Ht & Hs & _); [reflexivity|].
  exists row. auto.
Qed.

(** C4, amended. For every player with at least one statistics row, whose
    sums fit, [total_shots] is the sum of the seven shot-type sums. With
    [total_shots > 0] each percentage is a float, the share of its shot type
    in [total_shots] times 100, rounded to two decimals, and the seven add
    up to 100 within 0.1; with [total_shots = 0] each is the int [0]. *)
Theorem shot_percentages (db : database) (player_id : Z) :
  statistics_of db player_id <> [] ->
  shot_sums_fit db player_id ->
  let t := total_shots db player_id in
  exists r,
    get_shot_distribution_analysis db player_id = Ok r
    /\ r !! "total_shots" = Some (VInt t)
    /\ t = (total ms_smashes db player_id + total ms_clears db player_id
            + total ms_drops db player_id + total ms_drives db player_id
            + total ms_net_shots db player_id + total ms_lobs db player_id
            + total ms_kills db player_id)%Z
    /\ ((0 < t)%Z ->
        exists shares : list Q,
          Forall2 (fun '(key, f) q =>
                     r !! key = Some (VFloat (Fin q))
                     /\ near2 q (inject_Z (total f db player_id) / inject_Z t * 100))
            shot_shares shares
          /\ (100 - (1 # 10) <= Qsum shares <= 100 + (1 # 10))%Q)
    /\ (t = 0%Z ->
        Forall (fun '(key, _) => r !! key = Some (VInt 0)) shot_shares).
Proof.
  intros Hrows _ t.
  destruct (get_shot_distribution_analysis_rows db player_id Hrows)
    as (row & _ & Hr).
  exists (shot_distribution db player_id ∪ row).
  pose proof (shot_distribution_lookup db player_id row)
    as (Hts & _ & H1 & H2 & H3 & H4 & H5 & H6 & H7).
  cbv zeta in H1, H2, H3, H4, H5, H6, H7. fold t in H1, H2, H3, H4, H5, H6, H7.
  split; [exact Hr|]. split; [exact Hts|]. split; [reflexivity|]. split.
  - intros Ht.
    assert (forall f, percentage (total f db player_id) t
                      = VFloat (Fin (rate (total f db player_id) t))) as Hp.
    { intros f. unfold percentage. apply Z.ltb_lt in Ht. rewrite Ht. reflexivity. }
    assert (forall f, near2 (rate (total f db player_id) t)
                        (inject_Z (total f db player_id) / inject_Z t * 100)) as Hn.
    { intros f. unfold rate. pose proof Ht as Ht'. apply Z.ltb_lt in Ht'.
      rewrite Ht'. apply near2_Qround2.
      pose proof (Qdiv_nonneg _ _ (total_nonneg f db player_id) Ht). lra. }
    rewrite !Hp in H1, H2, H3, H4, H5, H6, H7.
    exists [ rate (total ms_smashes db player_id) t;
             rate (total ms_clears db player_id) t;
             rate (total ms_drops db player_id) t;
             rate (total ms_drives db player_id) t;
             rate (total ms_net_shots db player_id) t;
             rate (total ms_lobs db player_id) t;
             rate (total ms_kills db player_id) t ].
    split.
    + unfold shot_shares. repeat (constructor; [split; [assumption|apply Hn]|]).
      constructor.
    + pose proof (rates_sum _ _ _ _ _ _ _ Ht) as Hs. cbv zeta in Hs.
      fold (total_shots db player_id) in Hs. fold t in Hs.
      unfold Qsum. cbn [foldr]. lra.
  - intros Ht.
    assert (forall f, percentage (total f db player_id) t = VInt 0) as Hp.
    { intros f. rewrite Ht. reflexivity. }
    rewrite !Hp in H1, H2, H3, H4, H5, H6, H7.
    unfold shot_shares. repeat (constructor; [assumption|]). constructor.
Qed.

Lemma shot_percentages_witness :
  exists r,
    get_shot_distribution_analysis example_db 1 = Ok r
    /\ r !! "total_shots" = Some (VInt 100).
Proof.
  destruct (shot_percentages example_db 1) as (r & Hr & Ht & _).
  - discriminate.
  - apply sums_fit_example.
  - exists r. split; [exact Hr|exact Ht].
Defined.

(** The fields that the rally-length analysis adds. *)
Lemma rally_analysis_lookup (db : database) (player_id : Z) (row : dict) :
  let r := rally_analysis db player_id ∪ row in
  r !! "short_rally_win_rate"
  = Some (percentage (total ms_short_rallies_won db player_id)
            (total ms_short_rallies_played db player_id))
  /\ r !! "medium_rally_win_rate"
     = Some (percentage (total ms_medium_rallies_won db player_id)
               (total ms_medium_rallies_played db player_id))
  /\ r !! "long_rally_win_rate"
     = Some (percentage (total ms_long_rallies_won db player_id)
               (total ms_long_rallies_played db player_id))
  /\ r !! "preferred_rally_length"
     = Some (VStr (preferred_rally_length db player_id)).
Proof.
  intros r. subst r. unfold rally_analysis.
  repeat split; apply lookup_union_Some_l; by simplify_map_eq.
Qed.

Lemma Qltb_ge (x y : Q) : Qltb x y = false -> (y <= x)%Q.
Proof.
  intros H. apply Qnot_lt_le. intros Hlt. apply Qltb_lt in Hlt. congruence.
Qed.


Lemma get_rally_length_analysis_Ok (db : database) (player_id : Z) (r : dict) :
  get_rally_length_analysis db player_id = Ok r ->
  statistics_of db player_id <> []
  /\ exists row : dict, r = rally_analysis db player_id ∪ row.
Proof.
  intros H.
  assert (Hne : statistics_of db player_id <> []).
  { intros E. rewrite (get_rally_length_analysis_no_rows db player_id E) in H.
    discriminate. }
  split; [exact Hne|].
  destruct (get_rally_length_analysis_rows db player_id Hne) as (row & _ & Hr).
  exists row. rewrite Hr in H. injection H as <-. reflexivity.
Qed.




(** C6. The claim that every pair of distinct ids yields a mapping with
    exactly these keys fails: for every store and every pair whose second id
    has no statistics rows, [compare_players] raises [TypeError], because the
    rally-length analysis it calls does. *)
Theorem comparison_without_statistics_raises (db : database) (x y : Z) :
  statistics_of db y = [] ->
  compare_players db [x; y] = Raise TypeError.
Proof. apply compare_players_pair_no_rows. Qed.

Lemma comparison_without_statistics_raises_witness :
  1%Z <> 3%Z
  /\ statistics_of example_db 3 = []
  /\ compare_players example_db [1; 3]%Z = Raise TypeError.
Proof.
  split; [discriminate|]. split; [reflexivity|].
  apply (comparison_without_statistics_raises example_db 1 3). reflexivity.
Defined.

(** C7. In every scouting report that is produced, the strengths hold
    exactly one of the two rally strings: the endurance string when the
    long-rally win rate exceeds the short-rally win rate, the quick-finishing
    string otherwise. The two rates are the numbers that the report's rally
    preference carries. *)
Theorem scouting_report_rally_strength (db : database) (player_id : Z)
    (report : scouting_report) :
  generate_scouting_report db player_id = Ok report ->
  let style := report_playing_style report in
  exists long short : Q,
    to_float (get (style_rally_preference style) "long_rally_win_rate" (VInt 0))
    = Some (Fin long)
    /\ to_float (get (style_rally_preference style) "short_rally_win_rate" (VInt 0))
       = Some (Fin short)
    /\ length (filter (fun s => s = endurance_strength \/ s = quick_finishing_strength)
                 (style_strengths style)) = 1%nat
    /\ (endurance_strength ∈ style_strengths style <-> (short < long)%Q)
    /\ (quick_finishing_strength ∈ style_strengths style <-> ~ (short < long)%Q).
Proof.
  intros H style. subst style.
  apply generate_scouting_report_Ok in H as (_ & srow & rrow & _ & -> & Hc).
  apply classify_Ok in Hc
    as (accurate & attacking & enduring & _ & _ & He & _ & _ & _ & Hend & Hquick & Hone).
  destruct (get_rally_rates db player_id rrow) as [Hl Hs].
  exists (long_rate db player_id), (short_rate db player_id).
  rewrite Hl, Hs in He |- *. rewrite py_gt_percentage in He.
  injection He as He. rewrite !to_float_percentage.
  fold (short_rate db player_id) (long_rate db player_id) in He |- *.
  split; [reflexivity|]. split; [reflexivity|]. split; [exact Hone|].
  rewrite Hend, Hquick, <- He, <- Qltb_lt.
  split; [reflexivity|]. destruct (Qltb _ _); split; congruence.
Qed.

Lemma scouting_report_rally_strength_witness :
  exists report,
    generate_scouting_report example_db 1 = Ok report
    /\ quick_finishing_strength ∈ style_strengths (report_playing_style report).
Proof.
  destruct (generate_scouting_report_produced example_db 1) as [report Hr];
    [discriminate..|].
  exists report. split; [exact Hr|].
  destruct (generate_scouting_report_Ok example_db 1 report Hr)
    as (_ & srow & rrow & _ & Hrp & _).
  destruct (scouting_report_rally_strength example_db 1 report Hr)
    as (l & s & Hl & Hs & _ & _ & Hq).
  apply Hq. rewrite Hrp in Hl, Hs.
  rewrite (proj1 (get_rally_rates example_db 1 rrow)), to_float_percentage in Hl.
  rewrite (proj2 (get_rally_rates example_db 1 rrow)), to_float_percentage in Hs.
  injection Hl as <-. injection Hs as <-. vm_compute. discriminate.
Defined.

(** C8. The recent-form classifier answers "No recent data" on the empty
    list; on a non-empty list with win rate [w = wins / total * 100] it
    answers "Excellent" for [w >= 80], "Good" for [80 > w >= 60], "Average"
    for [60 > w >= 40] and "Poor" below; hence a higher win rate never gets
    a lower band in the order Poor < Average < Good < Excellent. *)
Theorem recent_form_bands :
  _calculate_recent_form [] = Ok "No recent data"
  /\ (forall recent_matches : list dict,
        recent_matches <> [] ->
        exists form,
          _calculate_recent_form recent_matches = Ok form
          /\ ((80 <= win_rate recent_matches)%Q -> form = "Excellent")
          /\ ((60 <= win_rate recent_matches)%Q ->
              (win_rate recent_matches < 80)%Q -> form = "Good")
          /\ ((40 <= win_rate recent_matches)%Q ->
              (win_rate recent_matches < 60)%Q -> form = "Average")
          /\ ((win_rate recent_matches < 40)%Q -> form = "Poor"))
  /\ (forall (l1 l2 : list dict) (form1 form2 : string),
        l1 <> [] -> l2 <> [] ->
        _calculate_recent_form l1 = Ok form1 ->
        _calculate_recent_form l2 = Ok form2 ->
        (win_rate l1 <= win_rate l2)%Q ->
        (band_rank form1 <= band_rank form2)%nat).
Proof.
  split; [reflexivity|]. split.
  - intros l Hl. exists (band (win_rate l)).
    split; [apply recent_form_eval, Hl|]. apply band_cases.
  - intros l1 l2 f1 f2 H1 H2 E1 E2 Hle.
    rewrite (recent_form_eval l1 H1) in E1. rewrite (recent_form_eval l2 H2) in E2.
    injection E1 as <-. injection E2 as <-. apply band_monotone, Hle.
Qed.

Lemma recent_form_bands_witness :
  (band_rank "Average" <= band_rank "Good")%nat.
Proof.
  refine (proj2 (proj2 recent_form_bands)
            [won_match; lost_match] [won_match; won_match; lost_match]
            "Average" "Good" _ _ _ _ _).
  - discriminate.
  - discriminate.
  - reflexivity.
  - reflexivity.
  - vm_compute. discriminate.
Defined.

Lemma total_single (f : statistics -> N) (db : database) (player_id : Z)
    (row : statistics) :
  statistics_of db player_id = [row] -> total f db player_id = Z.of_N (f row).
Proof. intros H. unfold total. rewrite H. cbn. lia. Qed.

(** C9, as stated, fails: for the row of the example the seven shot-type
    sums add up to 100, not 90, and the smash percentage is 30.0, not 33.33. *)
Lemma end_to_end_example_total :
  statistics_of example_db 1 = [example_row]
  /\ exists r,
      get_shot_distribution_analysis example_db 1 = Ok r
      /\ r !! "total_shots" = Some (VInt 100)
      /\ r !! "total_shots" <> Some (VInt 90)
      /\ r !! "smash_percentage" = Some (VFloat (Fin 30))
      /\ r !! "smash_percentage" <> Some (VFloat (Fin (3333 # 100))).
Proof.
  split; [reflexivity|].
  destruct (get_shot_distribution_analysis_rows example_db 1) as (row & _ & Hr);
    [discriminate|].
  exists (shot_distribution example_db 1 ∪ row). split; [exact Hr|].
  pose proof (shot_distribution_lookup example_db 1 row) as (Ht & _ & Hs & _).
  rewrite Ht, Hs. split; [reflexivity|]. split; [vm_compute; discriminate|].
  split; [reflexivity|]. vm_compute. discriminate.
Qed.

(** C9, amended. For a player whose only statistics row has winners=20,
    unforced_errors=10, smashes=30, clears=20, drops=10, drives=10,
    net_shots=10, lobs=10, kills=10, the shot distribution has
    total_shots=100, smash_percentage=30.0 and winner_to_error_ratio=2.0; a
    scouting report is produced when the row's total_serves is not 0, and
    every report produced has the accuracy and the attacking strength and
    not the errors weakness. *)
Theorem end_to_end_example (db : database) (player_id : Z) (row : statistics) :
  statistics_of db player_id = [row] ->
  ms_winners row = 20%N -> ms_unforced_errors row = 10%N ->
  ms_smashes row = 30%N -> ms_clears row = 20%N -> ms_drops row = 10%N ->
  ms_drives row = 10%N -> ms_net_shots row = 10%N -> ms_lobs row = 10%N ->
  ms_kills row = 10%N ->
  (exists r,
      get_shot_distribution_analysis db player_id = Ok r
      /\ r !! "total_shots" = Some (VInt 100)
      /\ r !! "smash_percentage" = Some (VFloat (Fin 30))
      /\ r !! "winner_to_error_ratio" = Some (VFloat (Fin 2)))
  /\ (ms_total_serves row <> 0%N ->
      exists report, generate_scouting_report db player_id = Ok report)
  /\ (forall report,
        generate_scouting_report db player_id = Ok report ->
        accuracy_strength ∈ style_strengths (report_playing_style report)
        /\ attacking_strength ∈ style_strengths (report_playing_style report)
        /\ errors_weakness ∉ style_weaknesses (report_playing_style report)).
Proof.
  intros Hrows Hw He Hsm Hcl Hdr Hdv Hns Hlo Hki.
  assert (Hne : statistics_of db player_id <> []) by (rewrite Hrows; discriminate).
  assert (Htot : total_shots db player_id = 100%Z).
  { unfold total_shots. rewrite !(total_single _ _ _ _ Hrows).
    rewrite Hsm, Hcl, Hdr, Hdv, Hns, Hlo, Hki. reflexivity. }
  assert (Hsmash : total ms_smashes db player_id = 30%Z).
  { rewrite (total_single _ _ _ _ Hrows), Hsm. reflexivity. }
  assert (Hwin : total ms_winners db player_id = 20%Z).
  { rewrite (total_single _ _ _ _ Hrows), Hw. reflexivity. }
  assert (Herr : total ms_unforced_errors db player_id = 10%Z).
  { rewrite (total_single _ _ _ _ Hrows), He. reflexivity. }
  assert (Hratio : avg_ratio ms_winners ms_unforced_errors
                     (statistics_of db player_id) = Some (20 / 10 / 1)%Q).
  { rewrite Hrows. unfold avg_ratio. cbn [fmap list_fmap]. rewrite Hw, He.
    reflexivity. }
  split; [|split].
  - destruct (get_shot_distribution_analysis_rows db player_id Hne)
      as (srow & _ & Hr).
    exists (shot_distribution db player_id ∪ srow). split; [exact Hr|].
    pose proof (shot_distribution_lookup db player_id srow) as (Ht & Hq & Hs & _).
    rewrite Ht, Hq, Hs, Htot, Hsmash, Hwin, Herr. repeat split; reflexivity.
  - intros Hserves. apply generate_scouting_report_produced; [exact Hne|..].
    + rewrite Hratio. discriminate.
    + rewrite Hrows. unfold avg_ratio, avg, non_null, real_div, nullif, counter.
      cbn [fmap list_fmap mbind option_bind omap list_omap id].
      destruct (Z.of_N (ms_total_serves row) =? 0)%Z eqn:E.
      * apply Z.eqb_eq in E. lia.
      * cbn. rewrite E. discriminate.
  - intros report H.
    apply generate_scouting_report_Ok in H as (_ & srow & rrow & _ & _ & Hc).
    apply classify_Ok in Hc
      as (accurate & attacking & enduring & Ha & Hat & _ & Hacc & Herrs & Hatt & _).
    rewrite (proj1 (summary_lookup db player_id)), Hratio in Ha.
    rewrite get_shot_smash, Htot, Hsmash in Hat.
    assert (accurate = true) as -> by (vm_compute in Ha; congruence).
    assert (attacking = true) as -> by (vm_compute in Hat; congruence).
    split; [apply Hacc; reflexivity|].
    split; [apply Hatt; reflexivity|apply Herrs; reflexivity].
Qed.

Lemma end_to_end_example_witness :
  exists report, generate_scouting_report example_db 1 = Ok report.
Proof.
  refine (proj1 (proj2
    (end_to_end_example example_db 1 example_row _ _ _ _ _ _ _ _ _ _)) _);
    solve [reflexivity | discriminate].
Defined.

(** C10. The head-to-head lookup does not depend on the order of its two
    ids: both are replaced by their minimum and maximum before the query. *)
Theorem get_head_to_head_symmetric (db : database) (a b : Z) :
  get_head_to_head db a b = get_head_to_head db b a.
Proof.
  unfold get_head_to_head. rewrite (Z.min_comm b a), (Z.max_comm b a).
  reflexivity.
Qed.

(** * Further properties of the analyzer *)

(** ** ORDER BY and LIMIT *)

Lemma insert_by_Permutation {A} (before : A -> A -> bool) (a : A) (l : list A) :
  insert_by before a l ≡ₚ a :: l.
Proof.
  induction l as [|b l IH]; [reflexivity|].
  cbn [insert_by]. destruct (before a b); [reflexivity|].
  fold (insert_by before a l). rewrite IH. apply Permutation_swap.
Qed.

Lemma order_by_Permutation {A} (before : A -> A -> bool) (l : list A) :
  order_by before l ≡ₚ l.
Proof.
  induction l as [|a l IH]; [reflexivity|].
  unfold order_by. cbn [foldr]. fold (order_by before l).
  rewrite insert_by_Permutation, IH. reflexivity.
Qed.

Lemma limit_subseteq {A} (n : Z) (l : list A) : limit n l ⊆ l.
Proof. unfold limit. destruct (n <? 0)%Z; [reflexivity|apply subseteq_take]. Qed.

Lemma limit_length {A} (n : Z) (l : list A) :
  (0 <= n)%Z -> (Z.of_nat (length (limit n l)) <= n)%Z.
Proof.
  intros Hn. unfold limit. destruct (Z.ltb_spec n 0); [lia|].
  rewrite length_take. lia.
Qed.

Lemma limit_lookup {A} (n : Z) (l : list A) (i : nat) (x : A) :
  limit n l !! i = Some x -> l !! i = Some x.
Proof.
  unfold limit. destruct (n <? 0)%Z; [auto|].
  intros H. apply lookup_take_Some in H as [H _]. exact H.
Qed.


Lemma StronglySorted_lookup {A} (R : relation A) (l : list A) (i j : nat) (x y : A) :
  StronglySorted R l -> (i < j)%nat -> l !! i = Some x -> l !! j = Some y -> R x y.
Proof.
  intros Hl. revert i j. induction Hl as [|a l Hl IH Ha]; intros i j Hij Hi Hj.
  - discriminate.
  - destruct j as [|j]; [lia|]. cbn in Hj. destruct i as [|i].
    + injection Hi as <-. rewrite Forall_forall in Ha. apply Ha.
      eapply list_elem_of_lookup_2. exact Hj.
    + cbn in Hi. apply (IH i j); [lia|assumption..].
Qed.

Section order_by_sorted.
Context {A : Type} (before : A -> A -> bool).
Hypothesis before_asym : forall a b, before a b = true -> before b a = false.
Hypothesis before_trans :
  forall a b c, before b a = false -> before c b = false -> before c a = false.

Lemma insert_by_sorted (a : A) (l : list A) :
  StronglySorted (fun x y => before y x = false) l ->
  StronglySorted (fun x y => before y x = false) (insert_by before a l).
Proof.
  induction 1 as [|b l Hl IH Hb]; cbn [insert_by].
  - constructor; constructor.
  - destruct (before a b) eqn:E.
    + constructor; [constructor; assumption|].
      constructor; [apply before_asym; exact E|].
      rewrite Forall_forall in Hb |- *. intros x Hx.
      apply (before_trans a b x); [apply before_asym; exact E|apply Hb; exact Hx].
    + fold (insert_by before a l). constructor; [exact IH|].
      rewrite Forall_forall in Hb |- *. intros x Hx.
      rewrite insert_by_Permutation in Hx.
      apply elem_of_cons in Hx as [->|Hx]; [exact E|].
      apply Hb. exact Hx.
Qed.

Lemma order_by_sorted (l : list A) :
  StronglySorted (fun x y => before y x = false) (order_by before l).
Proof.
  induction l as [|a l IH]; [constructor|].
  unfold order_by. cbn [foldr]. apply insert_by_sorted. exact IH.
Qed.

Lemma order_by_lookup (l : list A) (i j : nat) (x y : A) :
  (i < j)%nat -> order_by before l !! i = Some x ->
  order_by before l !! j = Some y -> before y x = false.
Proof.
  intros Hij Hi Hj.
  exact (StronglySorted_lookup _ _ i j x y (order_by_sorted l) Hij Hi Hj).
Qed.
End order_by_sorted.


Lemma elem_of_filter {A} (f : A -> bool) (l : list A) (x : A) :
  x ∈ List.filter f l <-> x ∈ l /\ f x = true.
Proof. rewrite !list_elem_of_In. apply filter_In. Qed.

(** ** Top performers *)

Lemma null_ltb_asym (a b : option Q) : null_ltb a b = true -> null_ltb b a = false.
Proof.
  destruct a as [x|], b as [y|]; cbn; try congruence.
  intros H. apply Qltb_lt in H. apply not_true_is_false. intros H'.
  apply Qltb_lt in H'. lra.
Qed.

Lemma null_ltb_trans (a b c : option Q) :
  null_ltb a b = false -> null_ltb b c = false -> null_ltb a c = false.
Proof.
  destruct a as [x|], b as [y|], c as [z|]; cbn; try congruence.
  intros H1 H2. apply Qltb_ge in H1, H2. apply not_true_is_false. intros H'.
  apply Qltb_lt in H'. lra.
Qed.

Lemma null_ltb_not_above (a b : option Q) :
  null_ltb a b = false -> not_above (real a) (real b).
Proof.
  destruct a as [x|], b as [y|]; cbn; try congruence; intros H.
  - right. exists (Qred x), (Qred y). split; [reflexivity|]. split; [reflexivity|].
    apply Qltb_ge in H. rewrite !Qred_correct. exact H.
  - left. reflexivity.
  - left. reflexivity.
Qed.

Lemma valid_metrics_names (metric : string) :
  is_Some (valid_metrics !! metric)
  <-> metric ∈ ["win_percentage"; "total_matches"; "avg_points_won";
                "winner_ratio"; "ace_percentage"].
Proof.
  unfold valid_metrics. rewrite !lookup_insert_is_Some, lookup_singleton_is_Some.
  rewrite !elem_of_cons, elem_of_nil. intuition congruence.
Qed.

Lemma performer_columns_lookup expr k g :
  performer_columns expr (k, g) !! "total_matches" = Some (VInt (Z.of_nat (matches_in g)))
  /\ performer_columns expr (k, g) !! "metric_value" = Some (real (round2 (expr g)))
  /\ performer_columns expr (k, g) !! "player_id" = Some (VInt (k.1.1.1.1.1)).
Proof.
  destruct k as [[[[[id first] last] nationality] gender] ranking].
  unfold performer_columns. split; [|split]; by simplify_map_eq.
Qed.

Lemma top_groups_elem db expr min_matches lim k g :
  (k, g) ∈ top_groups db expr min_matches lim ->
  (min_matches <= Z.of_nat (matches_in g))%Z
  /\ g = List.filter (fun '(p, _, _, _) => bool_decide (key_of p = k)) (performer_rows db)
  /\ exists p mp m ms, (p, mp, m, ms) ∈ performer_rows db /\ key_of p = k.
Proof.
  unfold top_groups. intros H. apply limit_subseteq in H.
  rewrite order_by_Permutation in H.
  apply elem_of_filter in H as [H Hmin]. apply Z.leb_le in Hmin.
  apply list_elem_of_fmap in H as (k' & [= <- ->] & Hk).
  split; [exact Hmin|]. split; [reflexivity|].
  apply elem_of_remove_dups, list_elem_of_fmap in Hk as ([[[p mp] m] ms] & -> & Hr).
  eauto 10.
Qed.

Lemma matches_in_pos (g : list performer_row) : g <> [] -> (1 <= matches_in g)%nat.
Proof.
  intros Hg. unfold matches_in. destruct g as [|[[[p mp] m] ms] g]; [congruence|].
  set (l := _ <$> _).
  assert (m_match_id m ∈ remove_dups l) as H.
  { apply elem_of_remove_dups. subst l. cbn. left. }
  destruct (remove_dups l); [inversion H|cbn; lia].
Qed.

(** The byte order of strings, behind [ORDER BY m.match_date DESC,
    m.match_time DESC]. *)
Lemma ascii_compare_N (a b : Ascii.ascii) :
  Ascii.compare a b = (Ascii.N_of_ascii a ?= Ascii.N_of_ascii b)%N.
Proof. reflexivity. Qed.

Lemma string_compare_trans (a b c : string) :
  String.compare a b = Lt -> String.compare b c = Lt -> String.compare a c = Lt.
Proof.
  revert b c. induction a as [|x a IH]; intros [|y b] [|z c]; cbn; try congruence.
  rewrite !ascii_compare_N.
  destruct (N.compare_spec (Ascii.N_of_ascii x) (Ascii.N_of_ascii y)) as [Exy|Hxy|Hxy];
    try congruence;
    destruct (N.compare_spec (Ascii.N_of_ascii y) (Ascii.N_of_ascii z)) as [Eyz|Hyz|Hyz];
    try congruence; intros H1 H2.
  - rewrite Exy, Eyz, N.compare_refl. eauto.
  - rewrite Exy. apply N.compare_lt_iff in Hyz. rewrite Hyz. reflexivity.
  - rewrite <- Eyz. apply N.compare_lt_iff in Hxy. rewrite Hxy. reflexivity.
  - assert (Ascii.N_of_ascii x < Ascii.N_of_ascii z)%N as H by lia.
    apply N.compare_lt_iff in H. rewrite H. reflexivity.
Qed.

Lemma string_ltb_lt (a b : string) : String.ltb a b = true <-> String.compare a b = Lt.
Proof. unfold String.ltb. destruct (String.compare a b); split; congruence. Qed.

Lemma string_ltb_asym (a b : string) : String.ltb a b = true -> String.ltb b a = false.
Proof.
  unfold String.ltb. rewrite (String.compare_antisym a b).
  destruct (String.compare b a); cbn; congruence.
Qed.

Lemma string_ltb_irrefl (a : string) : String.ltb a a = false.
Proof.
  destruct (String.ltb a a) eqn:E; [|reflexivity].
  pose proof (string_ltb_asym a a E). congruence.
Qed.

Lemma string_ltb_trans (a b c : string) :
  String.ltb a b = true -> String.ltb b c = true -> String.ltb a c = true.
Proof. rewrite !string_ltb_lt. apply string_compare_trans. Qed.

Lemma string_ltb_total (a b : string) :
  String.ltb a b = false -> String.ltb b a = false -> a = b.
Proof.
  unfold String.ltb. rewrite (String.compare_antisym a b).
  destruct (String.compare b a) eqn:E; cbn; try congruence.
  intros _ _. apply String.compare_eq_iff in E. congruence.
Qed.

Lemma later_than_asym d1 t1 d2 t2 :
  later_than d1 t1 d2 t2 = true -> later_than d2 t2 d1 t1 = false.
Proof.
  unfold later_than. intros H.
  apply orb_true_iff in H as [H|H].
  - apply orb_false_iff. split; [apply string_ltb_asym; exact H|].
    apply andb_false_iff. left. apply String.eqb_neq. intros ->.
    rewrite string_ltb_irrefl in H. discriminate.
  - apply andb_true_iff in H as [E H]. apply String.eqb_eq in E. subst d2.
    rewrite string_ltb_irrefl, String.eqb_refl. cbn.
    apply string_ltb_asym. exact H.
Qed.

Lemma later_than_false d1 t1 d2 t2 :
  later_than d1 t1 d2 t2 = false
  <-> String.ltb d2 d1 = false /\ (d1 = d2 -> String.ltb t2 t1 = false).
Proof.
  unfold later_than. rewrite orb_false_iff, andb_false_iff, String.eqb_neq.
  split; intros [H1 H2]; (split; [exact H1|]).
  - intros E. destruct H2; [contradiction|assumption].
  - destruct (String.eqb_spec d1 d2); [right; auto|left; assumption].
Qed.

Lemma string_ltb_neg_trans (a b c : string) :
  String.ltb a b = false -> String.ltb b c = false -> String.ltb a c = false.
Proof.
  intros H1 H2. destruct (String.ltb a c) eqn:E; [|reflexivity].
  destruct (String.ltb b a) eqn:Eba.
  - rewrite (string_ltb_trans b a c Eba E) in H2. discriminate.
  - pose proof (string_ltb_total _ _ H1 Eba) as ->. congruence.
Qed.

Lemma later_than_trans d1 t1 d2 t2 d3 t3 :
  later_than d2 t2 d1 t1 = false -> later_than d3 t3 d2 t2 = false ->
  later_than d3 t3 d1 t1 = false.
Proof.
  rewrite !later_than_false. intros [H1 H1'] [H2 H2']. split.
  - apply (string_ltb_neg_trans d1 d2 d3); assumption.
  - intros ->.
    assert (d2 = d1) as -> by (apply string_ltb_total; assumption).
    apply (string_ltb_neg_trans t1 t2 t3); auto.
Qed.

Lemma join_elem {A B} (on : A -> B -> bool) (l : list A) (r : list B) (a : A) (b : B) :
  (a, b) ∈ join on l r <-> a ∈ l /\ b ∈ r /\ on a b = true.
Proof.
  unfold join. rewrite list_elem_of_bind. split.
  - intros (a' & H & Ha). apply list_elem_of_bind in H as (b' & H & Hb).
    apply list_elem_of_singleton in H. injection H as <- <-.
    apply elem_of_filter in Hb as [Hb Hon]. auto.
  - intros (Ha & Hb & Hon). exists a. split; [|exact Ha].
    apply list_elem_of_bind. exists b. split; [left|].
    apply elem_of_filter. auto.
Qed.

Lemma left_join_elem {A B} (on : A -> B -> bool) (l : list A) (r : list B)
    (a : A) (b : option B) :
  (a, b) ∈ left_join on l r -> a ∈ l.
Proof.
  unfold left_join. intros H. apply list_elem_of_bind in H as (a' & H & Ha').
  destruct (List.filter (on a') r) as [|b' bs].
  - apply list_elem_of_singleton in H. congruence.
  - apply list_elem_of_fmap in H as (? & H & _). congruence.
Qed.

Lemma recent_row_lookup (m : match_row) (tn on_ onat w pw pp wi ue : value) :
  let row : dict :=
    {[ "tournament_name" := tn; "opponent_name" := on_;
       "opponent_nationality" := onat; "is_winner" := w; "points_won" := pw;
       "points_played" := pp; "winners" := wi; "unforced_errors" := ue ]}
    ∪ match_columns m in
  row !! "match_id" = Some (VInt (m_match_id m))
  /\ row !! "status" = Some (VStr (m_status m))
  /\ row !! "match_date" = Some (VStr (m_match_date m))
  /\ row !! "match_time" = Some (VStr (m_match_time m))
  /\ row !! "is_winner" = Some w.
Proof.
  cbv zeta. unfold match_columns.
  split; [|split; [|split; [|split]]].
  1-4: rewrite lookup_union_r by (by simplify_map_eq); by simplify_map_eq.
  apply lookup_union_Some_l. by simplify_map_eq.
Qed.

(** The shape of the result of [get_recent_matches]. *)
Lemma get_recent_matches_rows (db : database) (player_id lim : Z) :
  exists (rows : list recent_row) (columns : recent_row -> dict),
    get_recent_matches db player_id lim
    = columns
      <$> limit lim
            (order_by
               (fun '(m1, _, _, _, _, _) '(m2, _, _, _, _, _) =>
                  later_than (m_match_date m1) (m_match_time m1)
                    (m_match_date m2) (m_match_time m2))
               rows)
    /\ (forall m mp opp p t ms,
          (m, mp, opp, p, t, ms) ∈ rows ->
          m ∈ matches db /\ mp ∈ match_participants db
          /\ mp_match_id mp = m_match_id m /\ mp_player_id mp = player_id
          /\ m_status m = "COMPLETED")
    /\ (forall m mp opp p t ms,
          let row := columns (m, mp, opp, p, t, ms) in
          row !! "match_id" = Some (VInt (m_match_id m))
          /\ row !! "status" = Some (VStr (m_status m))
          /\ row !! "match_date" = Some (VStr (m_match_date m))
          /\ row !! "match_time" = Some (VStr (m_match_time m))
          /\ row !! "is_winner" = Some (VInt (mp_is_winner mp))).
Proof.
  unfold get_recent_matches, recent_matches_query.
  eexists _, _. split; [reflexivity|]. split.
  - intros m mp opp p t ms H.
    apply elem_of_filter in H as [H Hc].
    apply andb_true_iff in Hc as [Hid Hst].
    apply Z.eqb_eq in Hid. apply String.eqb_eq in Hst.
    apply left_join_elem in H.
    apply join_elem in H as (H & _ & _).
    apply join_elem in H as (H & _ & _).
    apply join_elem in H as (H & _ & _).
    apply join_elem in H as (Hm & Hmp & Hon). apply Z.eqb_eq in Hon.
    auto.
  - intros m mp opp p t ms. apply recent_row_lookup.
Qed.

Lemma get_top_performers_Ok db metric lim min_matches rows :
  get_top_performers db metric lim min_matches = Ok rows ->
  exists expr,
    valid_metrics !! metric = Some expr
    /\ rows = performer_columns expr <$> top_groups db expr min_matches lim.
Proof.
  unfold get_top_performers. destruct (valid_metrics !! metric) as [expr|]; [|discriminate].
  intros [= <-]. exists expr. split; reflexivity.
Qed.


(** X1. [get_top_performers] raises [ValueError] exactly for a metric that is
    not one of the five names of [valid_metrics], whatever the store, the
    limit and the minimum; for each of the five names it returns a list. *)
Theorem get_top_performers_metric (db : database) (metric : string)
    (lim min_matches : Z) :
  (get_top_performers db metric lim min_matches = Raise ValueError
   <-> metric ∉ ["win_percentage"; "total_matches"; "avg_points_won";
                 "winner_ratio"; "ace_percentage"])
  /\ ((exists rows, get_top_performers db metric lim min_matches = Ok rows)
      <-> metric ∈ ["win_percentage"; "total_matches"; "avg_points_won";
                    "winner_ratio"; "ace_percentage"]).
Proof.
  rewrite <- valid_metrics_names. unfold get_top_performers.
  destruct (valid_metrics !! metric) as [expr|].
  - split; split.
    + discriminate.
    + intros H. destruct H. eauto.
    + eauto.
    + eauto.
  - split; split.
    + intros _ [? ?]. discriminate.
    + reflexivity.
    + intros [? ?]. discriminate.
    + intros [? ?]. discriminate.
Qed.

Lemma get_top_performers_metric_witness :
  get_top_performers example_db "smash_speed" 10 5 = Raise ValueError
  /\ exists rows, get_top_performers example_db "winner_ratio" 10 5 = Ok rows.
Proof.
  destruct (get_top_performers_metric example_db "smash_speed" 10 5) as [H _].
  destruct (get_top_performers_metric example_db "winner_ratio" 10 5) as [_ H'].
  split.
  - apply H. intros Hin.
    repeat (apply elem_of_cons in Hin as [Hin|Hin]; [discriminate|]).
    inversion Hin.
  - apply H'. right. right. right. left.
Defined.

(** X2. With a limit that is not negative, [get_top_performers] returns at
    most [limit] rows. *)
Theorem get_top_performers_limit (db : database) (metric : string)
    (lim min_matches : Z) (rows : list dict) :
  get_top_performers db metric lim min_matches = Ok rows ->
  (0 <= lim)%Z ->
  (Z.of_nat (length rows) <= lim)%Z.
Proof.
  intros H Hlim. apply get_top_performers_Ok in H as (expr & _ & ->).
  rewrite length_fmap. unfold top_groups. apply limit_length. exact Hlim.
Qed.

Lemma get_top_performers_limit_witness :
  exists rows,
    get_top_performers example_db "win_percentage" 1 1 = Ok rows
    /\ (0 <= 1)%Z
    /\ (Z.of_nat (length rows) <= 1)%Z.
Proof.
  exists (top_performers_query example_db win_share 1 1).
  split; [reflexivity|]. split; [lia|].
  apply (get_top_performers_limit example_db "win_percentage" 1 1);
    [reflexivity|lia].
Defined.

(** X3. Every row that [get_top_performers] returns has a [total_matches]
    that is at least [min_matches] and at least 1: a player without a
    completed match is never listed, also with [min_matches = 0]. *)
Theorem get_top_performers_min_matches (db : database) (metric : string)
    (lim min_matches : Z) (rows : list dict) (row : dict) :
  get_top_performers db metric lim min_matches = Ok rows ->
  row ∈ rows ->
  exists n,
    row !! "total_matches" = Some (VInt n)
    /\ (min_matches <= n)%Z /\ (1 <= n)%Z.
Proof.
  intros H Hrow. apply get_top_performers_Ok in H as (expr & _ & ->).
  apply list_elem_of_fmap in Hrow as ([k g] & -> & Hg).
  apply top_groups_elem in Hg as (Hmin & Hg & p & mp & m & ms & Hr & Hk).
  exists (Z.of_nat (matches_in g)).
  split; [apply performer_columns_lookup|]. split; [exact Hmin|].
  assert (g <> []) as Hne.
  { intros Hnil. assert ((p, mp, m, ms) ∈ g) as Hin.
    { rewrite Hg. apply elem_of_filter. split; [exact Hr|].
      apply bool_decide_eq_true. exact Hk. }
    rewrite Hnil in Hin. inversion Hin. }
  apply matches_in_pos in Hne. lia.
Qed.

Lemma get_top_performers_min_matches_witness :
  exists rows row n,
    get_top_performers example_db "win_percentage" 10 0 = Ok rows
    /\ row ∈ rows
    /\ row !! "total_matches" = Some (VInt n)
    /\ (0 <= n)%Z /\ (1 <= n)%Z.
Proof.
  assert (exists row l, top_performers_query example_db win_share 0 10 = row :: l)
    as (row & l & E).
  { assert (length (top_performers_query example_db win_share 0 10) = 2%nat) as H
      by (vm_compute; reflexivity).
    destruct (top_performers_query example_db win_share 0 10) as [|row l];
      [discriminate|eauto]. }
  destruct (get_top_performers_min_matches example_db "win_percentage" 10 0
              (top_performers_query example_db win_share 0 10) row eq_refl)
    as (n & Hn); [rewrite E; left|].
  exists (top_performers_query example_db win_share 0 10), row, n.
  split; [reflexivity|]. split; [rewrite E; left|]. exact Hn.
Defined.

(** X4. The rows that [get_top_performers] returns are in descending order of
    [metric_value]: a later row has a NULL value, or both values are numbers
    and the later one is not greater. *)
Theorem get_top_performers_descending (db : database) (metric : string)
    (lim min_matches : Z) (rows : list dict) (i j : nat) (a b : dict) :
  get_top_performers db metric lim min_matches = Ok rows ->
  (i < j)%nat -> rows !! i = Some a -> rows !! j = Some b ->
  exists x y,
    a !! "metric_value" = Some x /\ b !! "metric_value" = Some y
    /\ not_above x y.
Proof.
  intros H Hij Ha Hb. apply get_top_performers_Ok in H as (expr & _ & ->).
  apply list_lookup_fmap_Some in Ha as ([ka ga] & -> & Ha).
  apply list_lookup_fmap_Some in Hb as ([kb gb] & -> & Hb).
  unfold top_groups in Ha, Hb. apply limit_lookup in Ha, Hb.
  exists (real (round2 (expr ga))), (real (round2 (expr gb))).
  split; [apply performer_columns_lookup|].
  split; [apply performer_columns_lookup|].
  apply null_ltb_not_above.
  refine (order_by_lookup _ _ _ _ i j (ka, ga) (kb, gb) Hij Ha Hb).
  - intros [? ?] [? ?]. apply null_ltb_asym.
  - intros [? ?] [? ?] [? ?]. apply null_ltb_trans.
Qed.

Lemma get_top_performers_descending_witness :
  exists rows a b x y,
    get_top_performers example_db "win_percentage" 10 1 = Ok rows
    /\ (0 < 1)%nat /\ rows !! 0%nat = Some a /\ rows !! 1%nat = Some b
    /\ a !! "metric_value" = Some x /\ b !! "metric_value" = Some y
    /\ not_above x y.
Proof.
  assert (exists a b l, top_performers_query example_db win_share 1 10 = a :: b :: l)
    as (a & b & l & E).
  { assert (length (top_performers_query example_db win_share 1 10) = 2%nat) as H
      by (vm_compute; reflexivity).
    destruct (top_performers_query example_db win_share 1 10) as [|a [|b l]];
      [discriminate..|eauto]. }
  destruct (get_top_performers_descending example_db "win_percentage" 10 1
              (top_performers_query example_db win_share 1 10) 0 1 a b eq_refl)
    as (x & y & H); [lia|rewrite E; reflexivity|rewrite E; reflexivity|].
  exists (top_performers_query example_db win_share 1 10), a, b, x, y.
  split; [reflexivity|]. split; [lia|].
  split; [rewrite E; reflexivity|]. split; [rewrite E; reflexivity|]. exact H.
Defined.

(** ** Counting the completed matches of a player *)

Lemma remove_dups_length_ext `{EqDecision A} (l1 l2 : list A) :
  (forall x, x ∈ l1 <-> x ∈ l2) ->
  length (remove_dups l1) = length (remove_dups l2).
Proof.
  intros H. apply Permutation_length. apply NoDup_Permutation.
  - apply NoDup_remove_dups.
  - apply NoDup_remove_dups.
  - intros x. rewrite !elem_of_remove_dups. apply H.
Qed.

Lemma left_join_elem_Some {A B} (on : A -> B -> bool) (l : list A) (r : list B)
    (a : A) (b : B) :
  a ∈ l -> b ∈ r -> on a b = true -> (a, Some b) ∈ left_join on l r.
Proof.
  intros Ha Hb Hon. unfold left_join. apply list_elem_of_bind. exists a.
  split; [|exact Ha].
  assert (b ∈ List.filter (on a) r) as Hin by (apply elem_of_filter; auto).
  destruct (List.filter (on a) r) as [|b' bs]; [inversion Hin|].
  apply (list_elem_of_fmap_2 (fun b => (a, Some b))). exact Hin.
Qed.

Lemma completed_matches_elem (db : database) (player_id : Z) (m : match_row) :
  m ∈ completed_matches db player_id
  <-> m ∈ matches db /\ m_status m = "COMPLETED"
      /\ exists mp, mp ∈ match_participants db
                    /\ mp_player_id mp = player_id
                    /\ mp_match_id mp = m_match_id m.
Proof.
  unfold completed_matches. rewrite elem_of_filter, andb_true_iff, String.eqb_eq.
  rewrite existsb_exists. split.
  - intros (Hm & Hs & mp & Hmp & Hc). apply andb_true_iff in Hc as [H1 H2].
    apply Z.eqb_eq in H1, H2. apply list_elem_of_In in Hmp. eauto 10.
  - intros (Hm & Hs & mp & Hmp & H1 & H2). split; [exact Hm|]. split; [exact Hs|].
    exists mp. split; [apply list_elem_of_In; exact Hmp|].
    apply andb_true_iff. split; apply Z.eqb_eq; assumption.
Qed.

(** The rows of the query of [get_top_performers]. *)
Lemma performer_rows_elem (db : database) p mp m ms :
  (p, mp, m, ms) ∈ performer_rows db ->
  p ∈ players db /\ mp ∈ match_participants db /\ m ∈ matches db
  /\ p_player_id p = mp_player_id mp /\ mp_match_id mp = m_match_id m
  /\ m_status m = "COMPLETED".
Proof.
  unfold performer_rows. intros H. apply left_join_elem in H.
  apply join_elem in H as (H & Hm & Hon2).
  apply join_elem in H as (Hp & Hmp & Hon1).
  apply andb_true_iff in Hon2 as [H2 Hs].
  apply Z.eqb_eq in Hon1, H2. apply String.eqb_eq in Hs. auto 10.
Qed.

Lemma performer_rows_intro (db : database) p mp m :
  p ∈ players db -> mp ∈ match_participants db -> m ∈ matches db ->
  p_player_id p = mp_player_id mp -> mp_match_id mp = m_match_id m ->
  m_status m = "COMPLETED" ->
  exists ms, (p, mp, m, ms) ∈ performer_rows db.
Proof.
  intros Hp Hmp Hm H1 H2 Hs. unfold performer_rows.
  apply (left_join_keeps _ _ _ (p, mp, m)).
  apply join_elem. split; [|split; [exact Hm|]].
  - apply join_elem. split; [exact Hp|]. split; [exact Hmp|].
    apply Z.eqb_eq. exact H1.
  - apply andb_true_iff. split; [apply Z.eqb_eq; exact H2|].
    apply String.eqb_eq. exact Hs.
Qed.

Lemma top_groups_matches (db : database) expr min_matches lim k g :
  (k, g) ∈ top_groups db expr min_matches lim ->
  matches_in g
  = length (remove_dups (m_match_id <$> completed_matches db (k.1.1.1.1.1)))
  /\ exists p, p ∈ players db /\ key_of p = k.
Proof.
  intros H. apply top_groups_elem in H as (_ & -> & p0 & mp0 & m0 & ms0 & Hr0 & Hk).
  pose proof (performer_rows_elem db _ _ _ _ Hr0) as (Hp0 & _).
  split; [|eauto]. unfold matches_in. apply remove_dups_length_ext. intros x.
  rewrite !list_elem_of_fmap. split.
  - intros ([[[p mp] m] ms] & -> & H). apply elem_of_filter in H as [H Hkey].
    apply bool_decide_eq_true in Hkey.
    apply performer_rows_elem in H as (Hp & Hmp & Hm & H1 & H2 & Hs).
    exists m. split; [reflexivity|]. apply completed_matches_elem.
    split; [exact Hm|]. split; [exact Hs|]. exists mp. split; [exact Hmp|].
    split; [|exact H2]. rewrite <- H1, <- Hkey. reflexivity.
  - intros (m & -> & H). apply completed_matches_elem in H as (Hm & Hs & mp & Hmp & H1 & H2).
    destruct (performer_rows_intro db p0 mp m Hp0 Hmp Hm) as [ms Hr];
      [rewrite H1, <- Hk; reflexivity|exact H2|exact Hs|].
    exists (p0, mp, m, ms). split; [reflexivity|].
    apply elem_of_filter. split; [exact Hr|]. apply bool_decide_eq_true. exact Hk.
Qed.

(** X5. In every row that [get_top_performers] returns, [total_matches] is
    the number of distinct completed matches in which the player of the row
    takes part, and the player is a player of the store. *)
Theorem get_top_performers_total_matches (db : database) (metric : string)
    (lim min_matches : Z) (rows : list dict) (row : dict) :
  get_top_performers db metric lim min_matches = Ok rows ->
  row ∈ rows ->
  exists p,
    p ∈ players db
    /\ row !! "player_id" = Some (VInt (p_player_id p))
    /\ row !! "total_matches"
       = Some (VInt (Z.of_nat (length (remove_dups
                 (m_match_id <$> completed_matches db (p_player_id p)))))).
Proof.
  intros H Hrow. apply get_top_performers_Ok in H as (expr & _ & ->).
  apply list_elem_of_fmap in Hrow as ([k g] & -> & Hg).
  apply top_groups_matches in Hg as (Hn & p & Hp & Hk).
  destruct (performer_columns_lookup expr k g) as (Ht & _ & Hid).
  exists p. split; [exact Hp|]. rewrite Ht, Hid, Hn, <- Hk. split; reflexivity.
Qed.

Lemma get_top_performers_total_matches_witness :
  exists rows row p,
    get_top_performers season_db "win_percentage" 10 1 = Ok rows
    /\ row ∈ rows
    /\ p ∈ players season_db
    /\ row !! "player_id" = Some (VInt (p_player_id p))
    /\ row !! "total_matches"
       = Some (VInt (Z.of_nat (length (remove_dups
                 (m_match_id <$> completed_matches season_db (p_player_id p)))))).
Proof.
  assert (length (top_performers_query season_db win_share 1 10) = 2%nat) as H
    by (vm_compute; reflexivity).
  destruct (top_performers_query season_db win_share 1 10) as [|row l] eqn:E;
    [discriminate|].
  destruct (get_top_performers_total_matches season_db "win_percentage" 10 1
              (top_performers_query season_db win_share 1 10) row eq_refl)
    as (p & Hp); [rewrite E; left|].
  exists (top_performers_query season_db win_share 1 10), row, p.
  split; [reflexivity|]. split; [rewrite E; left|]. exact Hp.
Defined.

(** The matches behind the profile of a player. *)
Lemma profile_rows_matches (db : database) (player_id : Z) p0 (x : Z) :
  p0 ∈ players db -> p_player_id p0 = player_id ->
  x ∈ non_null (fmap (M:=option) m_match_id
                <$> ((fun '(_, _, m) => m) <$> profile_rows db player_id))
  <-> x ∈ m_match_id <$> completed_matches db player_id.
Proof.
  intros Hp0 Hid0. unfold non_null. rewrite list_elem_of_omap, list_elem_of_fmap.
  split.
  - intros (o & Ho & Hx). apply list_elem_of_fmap in Ho as (o' & -> & Ho').
    apply list_elem_of_fmap in Ho' as ([[p mp] m] & -> & Hr).
    destruct m as [m|]; [|discriminate]. cbn in Hx. injection Hx as <-.
    exists m. split; [reflexivity|].
    unfold profile_rows in Hr. apply elem_of_filter in Hr as [Hr Hk].
    apply Z.eqb_eq in Hk.
    apply left_join_partner in Hr as (Hx & Hm & Hon).
    destruct mp as [mp|]; [|discriminate].
    apply andb_true_iff in Hon as [H2 Hs].
    apply left_join_partner in Hx as (_ & Hmp & H1).
    apply Z.eqb_eq in H1, H2. apply String.eqb_eq in Hs.
    apply completed_matches_elem. split; [exact Hm|]. split; [exact Hs|].
    exists mp. split; [exact Hmp|]. split; [congruence|exact H2].
  - intros (m & -> & H).
    apply completed_matches_elem in H as (Hm & Hs & mp & Hmp & H1 & H2).
    exists (Some (m_match_id m)). split; [|reflexivity].
    apply list_elem_of_fmap. exists (Some m). split; [reflexivity|].
    apply list_elem_of_fmap. exists (p0, Some mp, Some m). split; [reflexivity|].
    unfold profile_rows. apply elem_of_filter. split; [|apply Z.eqb_eq; exact Hid0].
    apply (left_join_elem_Some _ _ _ (p0, Some mp) m); [|exact Hm|].
    + apply (left_join_elem_Some _ _ _ p0 mp); [exact Hp0|exact Hmp|].
      apply Z.eqb_eq. congruence.
    + apply andb_true_iff. split; [apply Z.eqb_eq; exact H2|].
      apply String.eqb_eq. exact Hs.
Qed.

Lemma profile_total_matches_lookup (c w wp d l t : value) (p : player) :
  let row : dict :=
    {[ "total_matches" := c; "matches_won" := w; "win_percentage" := wp;
       "avg_match_duration" := d; "last_match_date" := l;
       "tournaments_played" := t ]} ∪ player_columns p in
  row !! "total_matches" = Some c.
Proof. cbv zeta. apply lookup_union_Some_l. by simplify_map_eq. Qed.

(** X6. In the profile of a player of the store, [total_matches] is the
    number of distinct completed matches in which the player takes part;
    matches that are not completed are not counted. *)
Theorem get_player_profile_total_matches (db : database) (player_id : Z)
    (p : player) :
  p ∈ players db -> p_player_id p = player_id ->
  get_player_profile db player_id !! "total_matches"
  = Some (VInt (Z.of_nat (length (remove_dups
            (m_match_id <$> completed_matches db player_id))))).
Proof.
  intros Hp Hid.
  pose proof (profile_rows_exist db player_id p Hp Hid) as Hne.
  pose proof (profile_rows_matches db player_id p) as Hm.
  unfold get_player_profile, player_profile_query.
  destruct (profile_rows db player_id) as [|[[p' mp'] m'] rest] eqn:E; [congruence|].
  cbn [first_or_empty]. rewrite profile_total_matches_lookup.
  unfold count_distinct. do 3 f_equal.
  apply remove_dups_length_ext. intros x. apply Hm; assumption.
Qed.

Lemma get_player_profile_total_matches_witness :
  get_player_profile season_db 1 !! "total_matches" = Some (VInt 3).
Proof.
  rewrite (get_player_profile_total_matches season_db 1 (example_player 1 "Viktor" "Axelsen"));
    [reflexivity|left|reflexivity].
Defined.

Lemma NoDup_fmap_inj {A B} (f : A -> B) (l : list A) (x y : A) :
  NoDup (f <$> l) -> x ∈ l -> y ∈ l -> f x = f y -> x = y.
Proof.
  induction l as [|a l IH]; intros Hnd Hx Hy E; [inversion Hx|].
  cbn in Hnd. apply NoDup_cons in Hnd as [Ha Hnd].
  apply elem_of_cons in Hx as [->|Hx]; apply elem_of_cons in Hy as [->|Hy].
  - reflexivity.
  - exfalso. apply Ha. rewrite E. apply list_elem_of_fmap_2. exact Hy.
  - exfalso. apply Ha. rewrite <- E. apply list_elem_of_fmap_2. exact Hx.
  - apply IH; assumption.
Qed.

Lemma filter_fst_NoDup {A B} (f : A * B -> bool) (l : list (A * B)) :
  NoDup l.*1 -> NoDup (List.filter f l).*1.
Proof.
  induction l as [|[a b] l IH]; intros H; [constructor|].
  cbn in H. apply NoDup_cons in H as [Ha H]. cbn [List.filter].
  destruct (f (a, b)); [|apply IH; exact H].
  cbn. apply NoDup_cons. split; [|apply IH; exact H].
  intros Hin. apply Ha. apply list_elem_of_fmap in Hin as ([a' b'] & -> & Hin).
  apply elem_of_filter in Hin as [Hin _].
  apply (list_elem_of_fmap_2 fst) in Hin. exact Hin.
Qed.

Lemma top_groups_NoDup (db : database) expr min_matches lim :
  NoDup (top_groups db expr min_matches lim).*1.
Proof.
  unfold top_groups. set (l := order_by _ _).
  assert (NoDup l.*1) as H.
  { subst l. rewrite order_by_Permutation. apply filter_fst_NoDup.
    rewrite <- list_fmap_compose. unfold compose. cbn [fst].
    rewrite list_fmap_id. apply NoDup_remove_dups. }
  clearbody l. unfold limit. destruct (lim <? 0)%Z; [exact H|].
  rewrite fmap_take. rewrite <- (take_drop (Z.to_nat lim) l.*1) in H.
  apply NoDup_app in H as [H _]. exact H.
Qed.

(** X7. When the ids in [players] are unique, [get_top_performers] lists no
    player twice: two different rows of the result carry different
    [player_id]s. *)
Theorem get_top_performers_unique (db : database) (metric : string)
    (lim min_matches : Z) (rows : list dict) (i j : nat) (a b : dict) :
  NoDup (p_player_id <$> players db) ->
  get_top_performers db metric lim min_matches = Ok rows ->
  i <> j -> rows !! i = Some a -> rows !! j = Some b ->
  exists x y,
    a !! "player_id" = Some (VInt x) /\ b !! "player_id" = Some (VInt y)
    /\ x <> y.
Proof.
  intros Hnd H Hij Ha Hb. apply get_top_performers_Ok in H as (expr & _ & ->).
  apply list_lookup_fmap_Some in Ha as ([ka ga] & -> & Ha).
  apply list_lookup_fmap_Some in Hb as ([kb gb] & -> & Hb).
  destruct (top_groups_matches db expr min_matches lim ka ga) as (_ & pa & Hpa & Hka);
    [eapply list_elem_of_lookup_2; exact Ha|].
  destruct (top_groups_matches db expr min_matches lim kb gb) as (_ & pb & Hpb & Hkb);
    [eapply list_elem_of_lookup_2; exact Hb|].
  exists (p_player_id pa), (p_player_id pb).
  split; [rewrite <- Hka; apply performer_columns_lookup|].
  split; [rewrite <- Hkb; apply performer_columns_lookup|].
  intros E. apply Hij.
  assert (pa = pb) as Hp by (apply (NoDup_fmap_inj p_player_id (players db)); assumption).
  assert (ka = kb) as Hk by congruence.
  apply (NoDup_lookup _ i j ka (top_groups_NoDup db expr min_matches lim));
    rewrite list_lookup_fmap.
  - rewrite Ha. reflexivity.
  - rewrite Hb, Hk. reflexivity.
Qed.

Lemma get_top_performers_unique_witness :
  exists rows a b x y,
    NoDup (p_player_id <$> players season_db)
    /\ get_top_performers season_db "win_percentage" 10 1 = Ok rows
    /\ 0%nat <> 1%nat
    /\ rows !! 0%nat = Some a /\ rows !! 1%nat = Some b
    /\ a !! "player_id" = Some (VInt x) /\ b !! "player_id" = Some (VInt y)
    /\ x <> y.
Proof.
  assert (NoDup (p_player_id <$> players season_db)) as Hnd by decide_closed.
  assert (length (top_performers_query season_db win_share 1 10) = 2%nat) as H
    by (vm_compute; reflexivity).
  destruct (top_performers_query season_db win_share 1 10) as [|a [|b l]] eqn:E;
    [discriminate..|].
  destruct (get_top_performers_unique season_db "win_percentage" 10 1
              (top_performers_query season_db win_share 1 10) 0 1 a b Hnd eq_refl)
    as (x & y & Hx); [lia|rewrite E; reflexivity|rewrite E; reflexivity|].
  exists (top_performers_query season_db win_share 1 10), a, b, x, y.
  split; [exact Hnd|]. split; [reflexivity|]. split; [lia|].
  split; [rewrite E; reflexivity|]. split; [rewrite E; reflexivity|]. exact Hx.
Defined.

(** ** Performance by tournament type, recent matches *)

Lemma remove_dups_length_pos `{EqDecision A} (l : list A) :
  l <> [] -> (1 <= length (remove_dups l))%nat.
Proof.
  intros Hl. destruct l as [|a l]; [congruence|].
  assert (a ∈ remove_dups (a :: l)) as H by (apply elem_of_remove_dups; left).
  destruct (remove_dups (a :: l)); [inversion H|cbn; lia].
Qed.

Lemma tournament_row_lookup (ty n w wp ap ad : value) :
  let row : dict :=
    {[ "tournament_type" := ty; "matches_played" := n; "matches_won" := w;
       "win_percentage" := wp; "avg_points_won_pct" := ap;
       "avg_match_duration" := ad ]} in
  row !! "tournament_type" = Some ty /\ row !! "matches_played" = Some n.
Proof. split; by simplify_map_eq. Qed.

Lemma get_performance_by_tournament_type_rows (db : database) (player_id : Z) :
  exists (R : Type) (rows : list (string * list R)) (played : list R -> nat)
         (columns : string * list R -> dict),
    get_performance_by_tournament_type db player_id
    = columns <$> order_by (fun '(_, g1) '(_, g2) => (played g2 <? played g1)%nat) rows
    /\ NoDup rows.*1
    /\ (forall ty g, (ty, g) ∈ rows -> (1 <= played g)%nat)
    /\ (forall ty g,
          columns (ty, g) !! "tournament_type" = Some (VStr ty)
          /\ columns (ty, g) !! "matches_played" = Some (VInt (Z.of_nat (played g)))).
Proof.
  unfold get_performance_by_tournament_type, performance_by_tournament_type_query.
  match goal with
  | |- context [order_by _ (_ <$> remove_dups (_ <$> ?r))] => set (rows := r)
  end.
  eexists _, _, _, _. split; [reflexivity|]. split; [|split].
  - rewrite <- list_fmap_compose. unfold compose. cbn [fst].
    rewrite list_fmap_id. apply NoDup_remove_dups.
  - intros ty g H. apply list_elem_of_fmap in H as (ty' & [= <- ->] & H).
    apply elem_of_remove_dups, list_elem_of_fmap in H as ([[[m t] mp] ms] & -> & H).
    apply remove_dups_length_pos. intros Hnil.
    apply (f_equal length) in Hnil. rewrite length_fmap in Hnil.
    assert ((m, t, mp, ms)
              ∈ List.filter (fun '(_, t', _, _) =>
                               String.eqb (t_tournament_type t') (t_tournament_type t))
                  rows) as Hin.
    { apply elem_of_filter. split; [exact H|]. apply String.eqb_refl. }
    destruct (List.filter _ rows); [inversion Hin|discriminate].
  - intros ty g. apply tournament_row_lookup.
Qed.

(** X8. [get_performance_by_tournament_type] returns one row per tournament
    type: two different rows of the result never carry the same
    [tournament_type]. *)
Theorem get_performance_by_tournament_type_distinct (db : database)
    (player_id : Z) (i j : nat) (a b : dict) :
  i <> j ->
  get_performance_by_tournament_type db player_id !! i = Some a ->
  get_performance_by_tournament_type db player_id !! j = Some b ->
  exists ta tb,
    a !! "tournament_type" = Some (VStr ta)
    /\ b !! "tournament_type" = Some (VStr tb)
    /\ ta <> tb.
Proof.
  destruct (get_performance_by_tournament_type_rows db player_id)
    as (R & rows & played & columns & -> & Hnd & _ & Hcol).
  intros Hij Ha Hb.
  apply list_lookup_fmap_Some in Ha as ([ta ga] & -> & Ha).
  apply list_lookup_fmap_Some in Hb as ([tb gb] & -> & Hb).
  exists ta, tb. split; [apply Hcol|]. split; [apply Hcol|].
  intros ->. apply Hij.
  rewrite <- (order_by_Permutation
                (fun '(_, g1) '(_, g2) => (played g2 <? played g1)%nat)) in Hnd.
  apply (NoDup_lookup _ i j tb Hnd); rewrite list_lookup_fmap.
  - rewrite Ha. reflexivity.
  - rewrite Hb. reflexivity.
Qed.

Lemma get_performance_by_tournament_type_distinct_witness :
  exists a b ta tb,
    0%nat <> 1%nat
    /\ get_performance_by_tournament_type season_db 1 !! 0%nat = Some a
    /\ get_performance_by_tournament_type season_db 1 !! 1%nat = Some b
    /\ a !! "tournament_type" = Some (VStr ta)
    /\ b !! "tournament_type" = Some (VStr tb)
    /\ ta <> tb.
Proof.
  assert (length (get_performance_by_tournament_type season_db 1) = 2%nat) as H
    by (vm_compute; reflexivity).
  destruct (get_performance_by_tournament_type season_db 1) as [|a [|b l]] eqn:E;
    [discriminate..|].
  destruct (get_performance_by_tournament_type_distinct season_db 1 0 1 a b)
    as (ta & tb & Ha & Hb & Hne);
    [lia|rewrite E; reflexivity|rewrite E; reflexivity|].
  exists a, b, ta, tb. split; [lia|]. auto 10.
Defined.

(** X9. Every row of [get_performance_by_tournament_type] counts at least
    one match, also when it is the only row, and the rows are in descending
    order of [matches_played]. *)
Theorem get_performance_by_tournament_type_descending (db : database)
    (player_id : Z) :
  (forall a, a ∈ get_performance_by_tournament_type db player_id ->
     exists n, a !! "matches_played" = Some (VInt n) /\ (1 <= n)%Z)
  /\ (forall (i j : nat) (a b : dict),
        (i < j)%nat ->
        get_performance_by_tournament_type db player_id !! i = Some a ->
        get_performance_by_tournament_type db player_id !! j = Some b ->
        exists n m,
          a !! "matches_played" = Some (VInt n)
          /\ b !! "matches_played" = Some (VInt m)
          /\ (m <= n)%Z).
Proof.
  destruct (get_performance_by_tournament_type_rows db player_id)
    as (R & rows & played & columns & -> & _ & Hpos & Hcol).
  split.
  - intros a Ha. apply list_elem_of_fmap in Ha as ([ta ga] & -> & Ha).
    rewrite order_by_Permutation in Ha. apply Hpos in Ha.
    exists (Z.of_nat (played ga)). split; [apply Hcol|lia].
  - intros i j a b Hij Ha Hb.
    apply list_lookup_fmap_Some in Ha as ([ta ga] & -> & Ha).
    apply list_lookup_fmap_Some in Hb as ([tb gb] & -> & Hb).
    exists (Z.of_nat (played ga)), (Z.of_nat (played gb)).
    split; [apply Hcol|]. split; [apply Hcol|].
    assert ((played ga <? played gb)%nat = false) as Hle.
    { refine (order_by_lookup _ _ _ _ i j (ta, ga) (tb, gb) Hij Ha Hb).
      - intros [? ?] [? ?]. rewrite Nat.ltb_lt, Nat.ltb_ge. lia.
      - intros [? ?] [? ?] [? ?]. rewrite !Nat.ltb_ge. lia. }
    apply Nat.ltb_ge in Hle. lia.
Qed.

Lemma get_performance_by_tournament_type_descending_witness :
  exists a b n m,
    (0 < 1)%nat
    /\ get_performance_by_tournament_type season_db 1 !! 0%nat = Some a
    /\ get_performance_by_tournament_type season_db 1 !! 1%nat = Some b
    /\ a !! "matches_played" = Some (VInt n)
    /\ b !! "matches_played" = Some (VInt m)
    /\ (1 <= m <= n)%Z.
Proof.
  assert (length (get_performance_by_tournament_type season_db 1) = 2%nat) as H
    by (vm_compute; reflexivity).
  destruct (get_performance_by_tournament_type_descending season_db 1)
    as [Hpos Hord].
  destruct (get_performance_by_tournament_type season_db 1) as [|a [|b l]] eqn:E;
    [discriminate..|].
  destruct (Hord 0%nat 1%nat a b) as (n & m & Ha & Hb & Hle);
    [lia|reflexivity|reflexivity|].
  destruct (Hpos b) as (m' & Hb' & Hm); [right; left|].
  rewrite Hb in Hb'. injection Hb' as <-.
  exists a, b, n, m. split; [lia|]. split; [reflexivity|]. split; [reflexivity|].
  split; [exact Ha|]. split; [exact Hb|]. lia.
Defined.

Lemma get_recent_matches_at_most (db : database) (player_id lim : Z) :
  (0 <= lim)%Z ->
  (Z.of_nat (length (get_recent_matches db player_id lim)) <= lim)%Z.
Proof.
  intros Hlim.
  destruct (get_recent_matches_rows db player_id lim) as (rows & columns & -> & _).
  rewrite length_fmap. apply limit_length. exact Hlim.
Qed.

(** X10. With a limit that is not negative, [get_recent_matches] returns at
    most [limit] rows. *)
Theorem get_recent_matches_limit (db : database) (player_id lim : Z) :
  (0 <= lim)%Z ->
  (Z.of_nat (length (get_recent_matches db player_id lim)) <= lim)%Z.
Proof. apply get_recent_matches_at_most. Qed.

Lemma get_recent_matches_limit_witness :
  (0 <= 2)%Z /\ (Z.of_nat (length (get_recent_matches season_db 1 2)) <= 2)%Z.
Proof.
  split; [lia|]. apply (get_recent_matches_limit season_db 1 2). lia.
Defined.

(** X11. Every row that [get_recent_matches] returns is a completed match of
    the store in which the player takes part: its [status] is COMPLETED, and
    its [is_winner] is the flag of a participation of the player in that
    match. *)
Theorem get_recent_matches_completed (db : database) (player_id lim : Z)
    (row : dict) :
  row ∈ get_recent_matches db player_id lim ->
  exists m mp,
    m ∈ completed_matches db player_id
    /\ mp ∈ match_participants db
    /\ mp_player_id mp = player_id /\ mp_match_id mp = m_match_id m
    /\ row !! "match_id" = Some (VInt (m_match_id m))
    /\ row !! "status" = Some (VStr "COMPLETED")
    /\ row !! "is_winner" = Some (VInt (mp_is_winner mp)).
Proof.
  destruct (get_recent_matches_rows db player_id lim)
    as (rows & columns & -> & Hrows & Hcol).
  intros H. apply list_elem_of_fmap in H as ([[[[[m mp] opp] p] t] ms] & -> & H).
  apply limit_subseteq in H. rewrite order_by_Permutation in H.
  apply Hrows in H as (Hm & Hmp & Hmid & Hpid & Hst).
  destruct (Hcol m mp opp p t ms) as (Hid & Hs & _ & _ & Hw).
  exists m, mp. split.
  { unfold completed_matches. apply elem_of_filter. split; [exact Hm|].
    apply andb_true_iff. split; [apply String.eqb_eq; exact Hst|].
    apply existsb_exists. exists mp. split; [apply list_elem_of_In; exact Hmp|].
    apply andb_true_iff. split; apply Z.eqb_eq; assumption. }
  rewrite <- Hst. auto 10.
Qed.

Lemma get_recent_matches_completed_witness :
  exists row,
    row ∈ get_recent_matches season_db 1 5
    /\ row !! "status" = Some (VStr "COMPLETED").
Proof.
  assert (length (get_recent_matches season_db 1 5) = 3%nat) as H
    by (vm_compute; reflexivity).
  destruct (get_recent_matches season_db 1 5) as [|row l] eqn:E; [discriminate|].
  exists row. split; [left|].
  destruct (get_recent_matches_completed season_db 1 5 row)
    as (m & mp & _ & _ & _ & _ & _ & Hs & _); [rewrite E; left|exact Hs].
Defined.

(** X12. [get_recent_matches] lists the newest match first: a later row never
    has a later [match_date] than an earlier row, nor, on the same date, a
    later [match_time] (dates and times compared as the strings they are). *)
Theorem get_recent_matches_newest_first (db : database) (player_id lim : Z)
    (i j : nat) (a b : dict) :
  (i < j)%nat ->
  get_recent_matches db player_id lim !! i = Some a ->
  get_recent_matches db player_id lim !! j = Some b ->
  exists da ta db' tb,
    a !! "match_date" = Some (VStr da) /\ a !! "match_time" = Some (VStr ta)
    /\ b !! "match_date" = Some (VStr db') /\ b !! "match_time" = Some (VStr tb)
    /\ String.ltb da db' = false
    /\ (da = db' -> String.ltb ta tb = false).
Proof.
  destruct (get_recent_matches_rows db player_id lim)
    as (rows & columns & -> & _ & Hcol).
  intros Hij Ha Hb.
  apply list_lookup_fmap_Some in Ha as ([[[[[ma mpa] oppa] pa] ta] msa] & -> & Ha).
  apply list_lookup_fmap_Some in Hb as ([[[[[mb mpb] oppb] pb] tb] msb] & -> & Hb).
  apply limit_lookup in Ha, Hb.
  destruct (Hcol ma mpa oppa pa ta msa) as (_ & _ & Hda & Hta & _).
  destruct (Hcol mb mpb oppb pb tb msb) as (_ & _ & Hdb & Htb & _).
  exists (m_match_date ma), (m_match_time ma), (m_match_date mb), (m_match_time mb).
  split; [exact Hda|]. split; [exact Hta|]. split; [exact Hdb|]. split; [exact Htb|].
  assert (later_than (m_match_date mb) (m_match_time mb)
            (m_match_date ma) (m_match_time ma) = false) as H.
  { refine (order_by_lookup _ _ _ _ i j _ _ Hij Ha Hb).
    - intros [[[[[? ?] ?] ?] ?] ?] [[[[[? ?] ?] ?] ?] ?]. apply later_than_asym.
    - intros [[[[[? ?] ?] ?] ?] ?] [[[[[? ?] ?] ?] ?] ?] [[[[[? ?] ?] ?] ?] ?].
      apply later_than_trans. }
  apply later_than_false in H as [H1 H2]. split; [exact H1|].
  intros E. apply H2. congruence.
Qed.

Lemma get_recent_matches_newest_first_witness :
  exists a b da db',
    (0 < 1)%nat
    /\ get_recent_matches season_db 1 5 !! 0%nat = Some a
    /\ get_recent_matches season_db 1 5 !! 1%nat = Some b
    /\ a !! "match_date" = Some (VStr da)
    /\ b !! "match_date" = Some (VStr db')
    /\ String.ltb da db' = false.
Proof.
  assert (length (get_recent_matches season_db 1 5) = 3%nat) as H
    by (vm_compute; reflexivity).
  destruct (get_recent_matches season_db 1 5) as [|a [|b l]] eqn:E;
    [discriminate..|].
  destruct (get_recent_matches_newest_first season_db 1 5 0 1 a b)
    as (da & ta & db' & tb & Hda & _ & Hdb & _ & Hlt & _);
    [lia|rewrite E; reflexivity|rewrite E; reflexivity|].
  exists a, b, da, db'. split; [lia|]. auto 10.
Defined.

(** ** Bounds of the percentages *)

Lemma round_half_even_le (q : Q) (n : Z) :
  (q <= inject_Z n)%Q -> (round_half_even q <= n)%Z.
Proof.
  intros H. unfold round_half_even.
  pose proof (Qfloor_le q) as Hl.
  assert (Qfloor q <= n)%Z as Hf.
  { rewrite Zle_Qle. lra. }
  destruct (Z.eq_dec (Qfloor q) n) as [E|E].
  - destruct (q - inject_Z (Qfloor q) ?= 1 # 2)%Q eqn:C; [|lia|].
    + apply Qeq_alt in C. rewrite E in C. lra.
    + apply Qgt_alt in C. rewrite E in C. lra.
  - destruct (q - inject_Z (Qfloor q) ?= 1 # 2)%Q; [destruct (Z.even _)|..]; lia.
Qed.

Lemma Qround2_le_100 (q : Q) : (q <= 100)%Q -> (Qround2 q <= 100)%Q.
Proof.
  intros H. unfold Qround2. rewrite Qred_correct.
  assert (round_half_even (q * 100) <= 10000)%Z as Hz.
  { apply round_half_even_le. change (inject_Z 10000) with 10000%Q. lra. }
  rewrite Zle_Qle in Hz. change (inject_Z 10000) with 10000%Q in Hz.
  set (z := inject_Z (round_half_even (q * 100))) in *. clearbody z.
  unfold Qdiv. change (/ 100)%Q with (1 # 100)%Q. lra.
Qed.

Lemma rate_nonneg (x t : Z) : (0 <= x)%Z -> (0 <= rate x t)%Q.
Proof.
  intros Hx. unfold rate. destruct (Z.ltb_spec 0 t) as [Ht|Ht]; [|lra].
  apply Qround2_nonneg. pose proof (Qdiv_nonneg x t Hx Ht). lra.
Qed.

Lemma rate_le_100 (x t : Z) : (x <= t)%Z -> (rate x t <= 100)%Q.
Proof.
  intros Hx. unfold rate. destruct (Z.ltb_spec 0 t) as [Ht|Ht]; [|lra].
  apply Qround2_le_100.
  assert (inject_Z x / inject_Z t <= 1)%Q as H.
  { apply Qle_shift_div_r.
    - change 0%Q with (inject_Z 0). rewrite <- Zlt_Qlt. exact Ht.
    - rewrite Qmult_1_l. rewrite <- Zle_Qle. exact Hx. }
  lra.
Qed.

Lemma get_shot_distribution_analysis_Ok (db : database) (player_id : Z) (r : dict) :
  get_shot_distribution_analysis db player_id = Ok r ->
  statistics_of db player_id <> [] ->
  exists row : dict, r = shot_distribution db player_id ∪ row.
Proof.
  intros H Hne.
  destruct (get_shot_distribution_analysis_rows db player_id Hne) as (row & _ & Hr).
  exists row. rewrite Hr in H. injection H as <-. reflexivity.
Qed.

(** X13. In the shot-distribution result of a player with statistics rows,
    each of the seven shot-type percentages is a number between 0 and 100. *)
Theorem shot_percentages_bounded (db : database) (player_id : Z) (r : dict)
    (key : string) :
  get_shot_distribution_analysis db player_id = Ok r ->
  statistics_of db player_id <> [] ->
  key ∈ ["smash_percentage"; "clear_percentage"; "drop_percentage";
         "drive_percentage"; "net_shot_percentage"; "lob_percentage";
         "kill_percentage"] ->
  exists v q,
    r !! key = Some v /\ to_float v = Some (Fin q) /\ (0 <= q <= 100)%Q.
Proof.
  intros H Hne Hkey.
  apply get_shot_distribution_analysis_Ok in H as (row & ->); [|exact Hne].
  pose proof (shot_distribution_lookup db player_id row)
    as (_ & _ & H1 & H2 & H3 & H4 & H5 & H6 & H7).
  pose proof (total_nonneg ms_smashes db player_id).
  pose proof (total_nonneg ms_clears db player_id).
  pose proof (total_nonneg ms_drops db player_id).
  pose proof (total_nonneg ms_drives db player_id).
  pose proof (total_nonneg ms_net_shots db player_id).
  pose proof (total_nonneg ms_lobs db player_id).
  pose proof (total_nonneg ms_kills db player_id).
  assert (forall f, (0 <= total f db player_id <= total_shots db player_id)%Z ->
            exists q, to_float (percentage (total f db player_id)
                                  (total_shots db player_id)) = Some (Fin q)
                      /\ (0 <= q <= 100)%Q) as Hb.
  { intros f [Hf1 Hf2]. eexists. split; [apply to_float_percentage|].
    split; [apply rate_nonneg; exact Hf1|apply rate_le_100; exact Hf2]. }
  repeat (apply elem_of_cons in Hkey as [->|Hkey]);
    [| | | | | | |inversion Hkey].
  - destruct (Hb ms_smashes) as (q & ? & ?); [unfold total_shots; lia|eauto].
  - destruct (Hb ms_clears) as (q & ? & ?); [unfold total_shots; lia|eauto].
  - destruct (Hb ms_drops) as (q & ? & ?); [unfold total_shots; lia|eauto].
  - destruct (Hb ms_drives) as (q & ? & ?); [unfold total_shots; lia|eauto].
  - destruct (Hb ms_net_shots) as (q & ? & ?); [unfold total_shots; lia|eauto].
  - destruct (Hb ms_lobs) as (q & ? & ?); [unfold total_shots; lia|eauto].
  - destruct (Hb ms_kills) as (q & ? & ?); [unfold total_shots; lia|eauto].
Qed.

Lemma shot_percentages_bounded_witness :
  exists r v q,
    get_shot_distribution_analysis example_db 1 = Ok r
    /\ statistics_of example_db 1 <> []
    /\ r !! "drop_percentage" = Some v /\ to_float v = Some (Fin q)
    /\ (0 <= q <= 100)%Q.
Proof.
  destruct (get_shot_distribution_analysis_rows example_db 1) as (row & _ & Hr);
    [discriminate|].
  destruct (shot_percentages_bounded example_db 1 _ "drop_percentage" Hr)
    as (v & q & H); [discriminate|right; right; left|].
  exists (shot_distribution example_db 1 ∪ row), v, q.
  split; [exact Hr|]. split; [discriminate|]. exact H.
Defined.

Lemma shot_distribution_query_row (db : database) (player_id : Z) :
  exists row,
    shot_distribution_query db player_id = [row]
    /\ row !! "total_matches" = Some (count_star (statistics_of db player_id))
    /\ row !! "total_shots" = None.
Proof.
  eexists. split; [reflexivity|]. split; by simplify_map_eq.
Qed.

Lemma shot_distribution_total_matches (db : database) (player_id : Z) :
  shot_distribution db player_id !! "total_matches" = None.
Proof. unfold shot_distribution. by simplify_map_eq. Qed.

(** X14. For every store and every id that fits an SQLite INTEGER and whose
    sums fit, [get_shot_distribution_analysis] does not raise: it returns a
    record; the record has a [total_shots] exactly when the player has a
    statistics row, and its [total_matches] is the number of the player's
    statistics rows. *)
Theorem get_shot_distribution_analysis_total (db : database) (player_id : Z) :
  fits player_id ->
  shot_sums_fit db player_id ->
  exists r,
    get_shot_distribution_analysis db player_id = Ok r
    /\ (is_Some (r !! "total_shots") <-> statistics_of db player_id <> [])
    /\ r !! "total_matches"
       = Some (VInt (Z.of_nat (length (statistics_of db player_id)))).
Proof.
  intros _ _.
  destruct (shot_distribution_query_row db player_id) as (row & Hq & Hm & Ht).
  assert (statistics_of db player_id = [] \/ statistics_of db player_id <> [])
    as [E|Hne] by (destruct (statistics_of db player_id); [left|right]; congruence).
  - destruct (get_shot_distribution_analysis_no_rows db player_id E)
      as (row' & Hq' & Hr & _).
    rewrite Hq in Hq'. injection Hq' as <-.
    exists row. split; [exact Hr|]. split; [|exact Hm].
    rewrite Ht. split; [intros [? ?]; discriminate|congruence].
  - destruct (get_shot_distribution_analysis_rows db player_id Hne)
      as (row' & Hq' & Hr).
    rewrite Hq in Hq'. injection Hq' as <-.
    exists (shot_distribution db player_id ∪ row). split; [exact Hr|]. split.
    + rewrite (proj1 (shot_distribution_lookup db player_id row)).
      split; [intros _; exact Hne|eauto].
    + rewrite lookup_union_r by apply shot_distribution_total_matches.
      exact Hm.
Qed.

Lemma get_shot_distribution_analysis_total_witness :
  exists r,
    get_shot_distribution_analysis example_db 3 = Ok r
    /\ r !! "total_shots" = None
    /\ r !! "total_matches" = Some (VInt 0).
Proof.
  destruct (get_shot_distribution_analysis_total example_db 3)
    as (r & Hr & Hs & Hm).
  - unfold fits. decide_closed.
  - apply sums_fit_example.
  - exists r. split; [exact Hr|]. split; [|exact Hm].
    destruct (r !! "total_shots") as [v|] eqn:E; [|reflexivity].
    exfalso. apply Hs; [eauto|reflexivity].
Defined.

(** X15. In every rally-length analysis result the three win rates are never
    negative, and the rate of a bucket is at most 100 when the player has
    not won more rallies of that bucket than were played. *)
Theorem rally_win_rates_bounded (db : database) (player_id : Z) (r : dict) :
  get_rally_length_analysis db player_id = Ok r ->
  exists s m l,
    (r !! "short_rally_win_rate" ≫= to_float) = Some (Fin s)
    /\ (r !! "medium_rally_win_rate" ≫= to_float) = Some (Fin m)
    /\ (r !! "long_rally_win_rate" ≫= to_float) = Some (Fin l)
    /\ (0 <= s)%Q /\ (0 <= m)%Q /\ (0 <= l)%Q
    /\ ((total ms_short_rallies_won db player_id
         <= total ms_short_rallies_played db player_id)%Z -> (s <= 100)%Q)
    /\ ((total ms_medium_rallies_won db player_id
         <= total ms_medium_rallies_played db player_id)%Z -> (m <= 100)%Q)
    /\ ((total ms_long_rallies_won db player_id
         <= total ms_long_rallies_played db player_id)%Z -> (l <= 100)%Q).
Proof.
  intros H. apply get_rally_length_analysis_Ok in H as (_ & row & ->).
  pose proof (rally_analysis_lookup db player_id row) as (Hs & Hm & Hl & _).
  exists (short_rate db player_id), (medium_rate db player_id),
    (long_rate db player_id).
  rewrite Hs, Hm, Hl. cbn [mbind option_bind]. rewrite !to_float_percentage.
  split; [reflexivity|]. split; [reflexivity|]. split; [reflexivity|].
  unfold short_rate, medium_rate, long_rate.
  split; [apply rate_nonneg, total_nonneg|].
  split; [apply rate_nonneg, total_nonneg|].
  split; [apply rate_nonneg, total_nonneg|].
  split; [apply rate_le_100|]. split; apply rate_le_100.
Qed.

Lemma rally_win_rates_bounded_witness :
  exists r s,
    get_rally_length_analysis example_db 1 = Ok r
    /\ (r !! "short_rally_win_rate" ≫= to_float) = Some (Fin s)
    /\ (0 <= s <= 100)%Q.
Proof.
  destruct (get_rally_length_analysis_rows example_db 1) as (row & _ & Hr);
    [discriminate|].
  destruct (rally_win_rates_bounded example_db 1 _ Hr)
    as (s & m & l & Hs & _ & _ & Hs0 & _ & _ & Hs1 & _).
  exists (rally_analysis example_db 1 ∪ row), s.
  split; [exact Hr|]. split; [exact Hs|]. split; [exact Hs0|].
  apply Hs1. vm_compute. discriminate.
Defined.

(** ** Comparison of any number of players *)

(** One round of the loop of [compare_players]: with statistics rows the id
    is entered, with the bucket that the rally-length analysis prefers;
    without, the round raises [TypeError]. *)
Lemma compare_players_loop (db : database) (player_ids : list Z) :
  (2 <= length player_ids)%nat ->
  exists step : Py.result (gmap Z comparison) -> Z -> Py.result (gmap Z comparison),
    compare_players db player_ids = foldl step (Ok ∅) player_ids
    /\ (forall e id, step (Raise e) id = Raise e)
    /\ (forall acc id, statistics_of db id = [] -> step (Ok acc) id = Raise TypeError)
    /\ (forall acc id, statistics_of db id <> [] ->
          exists entry,
            step (Ok acc) id = Ok (<[id := entry]> acc)
            /\ cmp_preferred_rally_length entry
               = VStr (preferred_rally_length db id)).
Proof.
  intros Hlen. unfold compare_players.
  apply Nat.ltb_ge in Hlen. rewrite Hlen.
  eexists. split; [reflexivity|]. split; [reflexivity|]. split.
  - intros acc id E. cbv beta. rewrite bind_Ok.
    destruct (get_shot_distribution_analysis_no_rows db id E) as (row & _ & -> & _).
    rewrite bind_Ok, (get_rally_length_analysis_no_rows db id E). reflexivity.
  - intros acc id Hne. cbv beta. rewrite bind_Ok.
    destruct (get_shot_distribution_analysis_rows db id Hne) as (srow & _ & ->).
    destruct (get_rally_length_analysis_rows db id Hne) as (rrow & _ & ->).
    rewrite !bind_Ok. eexists. split; [reflexivity|].
    cbn [cmp_preferred_rally_length]. unfold get.
    rewrite (proj2 (proj2 (proj2 (rally_analysis_lookup db id rrow)))).
    reflexivity.
Qed.

Lemma foldl_Raise {A B} (step : Py.result A -> B -> Py.result A) (e : exn) (l : list B) :
  (forall e id, step (Raise e) id = Raise e) -> foldl step (Raise e) l = Raise e.
Proof.
  intros H. induction l as [|b l IH]; [reflexivity|]. cbn. rewrite H. exact IH.
Qed.

Lemma compare_players_all (db : database) (player_ids : list Z) :
  (2 <= length player_ids)%nat ->
  (forall id, id ∈ player_ids -> statistics_of db id <> []) ->
  exists comparisons,
    compare_players db player_ids = Ok comparisons
    /\ dom comparisons = list_to_set player_ids
    /\ forall id entry,
         comparisons !! id = Some entry ->
         cmp_preferred_rally_length entry = VStr (preferred_rally_length db id).
Proof.
  intros Hlen Hall.
  destruct (compare_players_loop db player_ids Hlen) as (step & -> & _ & _ & Hstep).
  assert (forall acc : gmap Z comparison,
            (forall id entry, acc !! id = Some entry ->
               cmp_preferred_rally_length entry = VStr (preferred_rally_length db id)) ->
            exists c,
              foldl step (Ok acc) player_ids = Ok c
              /\ dom c = dom acc ∪ list_to_set player_ids
              /\ forall id entry, c !! id = Some entry ->
                   cmp_preferred_rally_length entry
                   = VStr (preferred_rally_length db id)) as H.
  { clear Hlen. induction player_ids as [|id ids IH]; intros acc Hacc.
    - exists acc. split; [reflexivity|]. split; [|exact Hacc].
      cbn. rewrite (right_id_L ∅ (∪)). reflexivity.
    - cbn [foldl].
      destruct (Hstep acc id) as (entry & -> & Hentry); [apply Hall; left|].
      destruct (IH (fun i Hi => Hall i (list_elem_of_further _ _ _ Hi))
                  (<[id := entry]> acc)) as (c & Hc & Hdom & Hpref).
      { intros i e Hi. destruct (decide (i = id)) as [->|Hne].
        - rewrite lookup_insert_eq in Hi. injection Hi as <-. exact Hentry.
        - rewrite lookup_insert_ne in Hi by congruence. exact (Hacc i e Hi). }
      exists c. split; [exact Hc|]. split; [|exact Hpref].
      rewrite Hdom, dom_insert_L. cbn [list_to_set].
      rewrite (comm_L (∪) {[id]} (dom acc)), (assoc_L (∪)). reflexivity. }
  destruct (H ∅) as (c & Hc & Hdom & Hpref).
  { intros id entry Hi. rewrite lookup_empty in Hi. discriminate. }
  exists c. split; [exact Hc|]. split; [|exact Hpref].
  rewrite Hdom, dom_empty_L, (left_id_L ∅ (∪)). reflexivity.
Qed.

Lemma compare_players_some_missing (db : database) (player_ids : list Z) (id : Z) :
  (2 <= length player_ids)%nat ->
  id ∈ player_ids -> statistics_of db id = [] ->
  compare_players db player_ids = Raise TypeError.
Proof.
  intros Hlen Hid E.
  destruct (compare_players_loop db player_ids Hlen)
    as (step & -> & Hraise & Hmiss & Hstep).
  clear Hlen. generalize (∅ : gmap Z comparison).
  induction player_ids as [|x ids IH]; intros acc; [inversion Hid|].
  cbn [foldl].
  assert (statistics_of db x = [] \/ statistics_of db x <> []) as [Ex|Hx]
    by (destruct (statistics_of db x); [left|right]; congruence).
  - rewrite (Hmiss acc x Ex). apply foldl_Raise. exact Hraise.
  - destruct (Hstep acc x Hx) as (entry & -> & _).
    apply elem_of_cons in Hid as [->|Hid]; [congruence|].
    apply IH. exact Hid.
Qed.

(** X16. For every list of at least two ids that all have statistics rows,
    [compare_players] returns a mapping whose key set is the set of the
    listed ids; an id listed twice yields one key. *)
Theorem compare_players_keys (db : database) (player_ids : list Z) :
  (2 <= length player_ids)%nat ->
  (forall id, id ∈ player_ids -> statistics_of db id <> []) ->
  exists comparisons,
    compare_players db player_ids = Ok comparisons
    /\ dom comparisons = list_to_set player_ids.
Proof.
  intros Hlen Hall.
  destruct (compare_players_all db player_ids Hlen Hall) as (c & Hc & Hdom & _).
  eauto.
Qed.

Lemma compare_players_keys_witness :
  exists comparisons,
    compare_players example_db [1; 2; 1]%Z = Ok comparisons
    /\ dom comparisons = {[1%Z; 2%Z]}.
Proof.
  destruct (compare_players_keys example_db [1; 2; 1]%Z) as (c & Hc & Hdom).
  - cbn. lia.
  - intros id Hid.
    repeat (apply elem_of_cons in Hid as [->|Hid]); [discriminate..|inversion Hid].
  - exists c. split; [exact Hc|]. rewrite Hdom. decide_closed.
Defined.

(** X17. With at least two ids, [compare_players] raises [TypeError] as soon
    as one of the ids, at any position, has no statistics rows. *)
Theorem compare_players_missing_statistics (db : database)
    (player_ids : list Z) (id : Z) :
  (2 <= length player_ids)%nat ->
  id ∈ player_ids ->
  statistics_of db id = [] ->
  compare_players db player_ids = Raise TypeError.
Proof. apply compare_players_some_missing. Qed.

Lemma compare_players_missing_statistics_witness :
  compare_players example_db [3; 1; 2]%Z = Raise TypeError.
Proof.
  apply (compare_players_missing_statistics example_db [3; 1; 2]%Z 3).
  - cbn. lia.
  - left.
  - reflexivity.
Defined.

(** X18. [compare_players] raises [ValueError] exactly for a list of fewer
    than two ids; the check comes before any lookup, so the ids themselves
    do not matter. *)
Theorem compare_players_value_error (db : database) (player_ids : list Z) :
  compare_players db player_ids = Raise ValueError
  <-> (length player_ids < 2)%nat.
Proof.
  split; [|apply compare_players_insufficient].
  intros H. destruct (Nat.lt_ge_cases (length player_ids) 2) as [Hlt|Hge];
    [exact Hlt|exfalso].
  destruct (decide (Forall (fun id => length (statistics_of db id) <> 0%nat)
                      player_ids)) as [Hall|Hex].
  - destruct (compare_players_all db player_ids Hge) as (c & Hc & _).
    + intros id Hid. rewrite Forall_forall in Hall. specialize (Hall id Hid).
      intros E. rewrite E in Hall. cbn in Hall. congruence.
    + congruence.
  - apply not_Forall_Exists in Hex; [|apply _].
    apply Exists_exists in Hex as (id & Hid & Hnone).
    assert (statistics_of db id = []) as E.
    { unfold compose in Hnone. revert Hnone.
      destruct (statistics_of db id); [reflexivity|].
      intros Hnone. exfalso. apply Hnone. cbn. lia. }
    rewrite (compare_players_some_missing db player_ids id Hge Hid E) in H.
    discriminate.
Qed.

Lemma compare_players_value_error_witness :
  compare_players example_db [3]%Z = Raise ValueError.
Proof.
  apply (compare_players_value_error example_db [3]%Z). cbn. lia.
Defined.

(** X19. In every mapping that [compare_players] returns, the
    [preferred_rally_length] of each entry is the one of the rally-length
    analysis of that id, which returns a result, and is short, medium or
    long; the default ['unknown'] of the lookup is never returned. *)
Theorem compare_players_preferred_rally_length (db : database)
    (player_ids : list Z) (comparisons : gmap Z comparison) (id : Z)
    (entry : comparison) :
  compare_players db player_ids = Ok comparisons ->
  comparisons !! id = Some entry ->
  exists r name,
    get_rally_length_analysis db id = Ok r
    /\ r !! "preferred_rally_length" = Some (VStr name)
    /\ cmp_preferred_rally_length entry = VStr name
    /\ name ∈ ["short"; "medium"; "long"].
Proof.
  intros H Hentry.
  assert (2 <= length player_ids)%nat as Hlen.
  { destruct (Nat.lt_ge_cases (length player_ids) 2) as [Hlt|Hge]; [|exact Hge].
    rewrite (compare_players_insufficient db player_ids Hlt) in H. discriminate. }
  assert (forall i, i ∈ player_ids -> statistics_of db i <> []) as Hall.
  { intros i Hi E.
    rewrite (compare_players_some_missing db player_ids i Hlen Hi E) in H.
    discriminate. }
  destruct (compare_players_all db player_ids Hlen Hall) as (c & Hc & Hdom & Hpref).
  rewrite Hc in H. injection H as ->.
  assert (id ∈ player_ids) as Hid.
  { apply (elem_of_list_to_set (C:=gset Z)). rewrite <- Hdom.
    apply elem_of_dom. eauto. }
  destruct (get_rally_length_analysis_rows db id (Hall id Hid)) as (row & _ & Hr).
  exists (rally_analysis db id ∪ row), (preferred_rally_length db id).
  split; [exact Hr|].
  split; [exact (proj2 (proj2 (proj2 (rally_analysis_lookup db id row))))|].
  split; [exact (Hpref id entry Hentry)|].
  unfold preferred_rally_length.
  repeat match goal with |- context [Qltb ?a ?b] => destruct (Qltb a b) end;
    decide_closed.
Qed.

Lemma compare_players_preferred_rally_length_witness :
  exists comparisons entry,
    compare_players example_db [1; 2]%Z = Ok comparisons
    /\ comparisons !! 1%Z = Some entry
    /\ cmp_preferred_rally_length entry = VStr "short".
Proof.
  destruct (compare_players_pair_keys example_db 1 2) as (c & Hc & Hdom);
    [discriminate..|].
  assert (is_Some (c !! 1%Z)) as [entry Hentry].
  { apply (elem_of_dom (D:=gset Z)). rewrite Hdom.
    apply elem_of_union_l, elem_of_singleton. reflexivity. }
  exists c, entry. split; [exact Hc|]. split; [exact Hentry|].
  destruct (compare_players_preferred_rally_length example_db [1; 2]%Z c 1 entry
              Hc Hentry) as (r & name & Hr & Hname & -> & _).
  destruct (get_rally_length_analysis_rows example_db 1) as (row & _ & Hr');
    [discriminate|].
  rewrite Hr' in Hr. injection Hr as <-.
  pose proof (rally_analysis_lookup example_db 1 row) as (_ & _ & _ & Hp).
  rewrite Hp in Hname. injection Hname as <-. reflexivity.
Defined.

(** ** The scouting report, from the rows of the player *)

Lemma classify_closed (stats_summary shot_analysis rally_analysis : dict)
    (w a s l sh : float) :
  to_float (get stats_summary "winner_to_error_ratio" (VInt 0)) = Some w ->
  to_float (get stats_summary "ace_percentage" (VInt 0)) = Some a ->
  to_float (get shot_analysis "smash_percentage" (VInt 0)) = Some s ->
  to_float (get rally_analysis "long_rally_win_rate" (VInt 0)) = Some l ->
  to_float (get rally_analysis "short_rally_win_rate" (VInt 0)) = Some sh ->
  classify stats_summary shot_analysis rally_analysis
  = Ok (strengths_of w a s l sh, weaknesses_of w a).
Proof.
  intros Hw Ha Hs Hl Hsh. unfold classify, strengths_of, weaknesses_of.
  rewrite (py_gt_numbers _ (VFloat (Fin (3 # 2))) _ _ Hw eq_refl).
  rewrite (py_lt_numbers _ (VFloat (Fin (4 # 5))) _ _ Hw eq_refl).
  rewrite (py_gt_numbers _ (VInt 8) _ _ Ha eq_refl).
  rewrite (py_lt_numbers _ (VInt 3) _ _ Ha eq_refl).
  rewrite (py_gt_numbers _ (VInt 25) _ _ Hs eq_refl).
  rewrite (py_gt_numbers _ _ _ _ Hl Hsh).
  cbn [to_float].
  change (Fin (inject_Z 8)) with (Fin 8). change (Fin (inject_Z 3)) with (Fin 3).
  change (Fin (inject_Z 25)) with (Fin 25).
  destruct (float_ltb (Fin (3 # 2)) w), (float_ltb w (Fin (4 # 5))),
    (float_ltb (Fin 8) a), (float_ltb a (Fin 3)), (float_ltb (Fin 25) s),
    (float_ltb sh l); reflexivity.
Qed.

Lemma avg_ratio_None (a b : statistics -> N) (rows : list statistics) :
  avg_ratio a b rows = None <-> forall ms, ms ∈ rows -> b ms = 0%N.
Proof.
  unfold avg_ratio, avg.
  assert (non_null ((fun ms => real_div (counter (a ms)) (nullif (counter (b ms)) 0))
                    <$> rows) = []
          <-> forall ms, ms ∈ rows -> b ms = 0%N) as H.
  { induction rows as [|ms rows IH].
    - split; [intros _ ms Hms; inversion Hms|reflexivity].
    - unfold non_null in *. cbn [fmap list_fmap omap list_omap].
      unfold real_div at 1, nullif at 1, counter at 1 2. cbn [mbind option_bind].
      destruct (Z.eqb_spec (Z.of_N (b ms)) 0) as [E|E].
      + cbn [mbind option_bind id]. rewrite IH. split.
        * intros H x Hx. apply elem_of_cons in Hx as [->|Hx]; [lia|auto].
        * intros H x Hx. apply H. right. exact Hx.
      + cbn [mbind option_bind id].
        destruct (Z.eqb_spec (Z.of_N (b ms)) 0) as [E'|_]; [contradiction|].
        cbn [id]. split; [discriminate|].
        intros H. exfalso. apply E. rewrite (H ms) by left. reflexivity. }
  destruct (non_null _); [|split; [discriminate|]].
  - split; [intros _; apply H; reflexivity|reflexivity].
  - intros H'. apply H in H'. discriminate.
Qed.

Lemma generate_scouting_report_numbers (db : database) (player_id : Z)
    (report : scouting_report) :
  generate_scouting_report db player_id = Ok report ->
  exists w a,
    avg_ratio ms_winners ms_unforced_errors (statistics_of db player_id) = Some w
    /\ avg_ratio ms_service_aces ms_total_serves (statistics_of db player_id)
       = Some a.
Proof.
  intros H.
  assert (Hne : statistics_of db player_id <> []).
  { intros E. rewrite (generate_scouting_report_no_rows db player_id E) in H.
    discriminate. }
  destruct (avg_ratio ms_winners ms_unforced_errors (statistics_of db player_id))
    as [w|] eqn:Ew.
  - destruct (avg_ratio ms_service_aces ms_total_serves (statistics_of db player_id))
      as [a|] eqn:Ea; [eauto|].
    rewrite (generate_scouting_report_null db player_id Hne (or_intror Ea)) in H.
    discriminate.
  - rewrite (generate_scouting_report_null db player_id Hne (or_introl Ew)) in H.
    discriminate.
Qed.

(** The strengths and weaknesses of a report, from the rows of the player. *)
Lemma generate_scouting_report_closed (db : database) (player_id : Z)
    (report : scouting_report) :
  generate_scouting_report db player_id = Ok report ->
  exists w a,
    avg_ratio ms_winners ms_unforced_errors (statistics_of db player_id) = Some w
    /\ avg_ratio ms_service_aces ms_total_serves (statistics_of db player_id)
       = Some a
    /\ style_strengths (report_playing_style report)
       = strengths_of (Fin (Qred w)) (Fin (Qred (a * 100)))
           (Fin (rate (total ms_smashes db player_id) (total_shots db player_id)))
           (Fin (long_rate db player_id)) (Fin (short_rate db player_id))
    /\ style_weaknesses (report_playing_style report)
       = weaknesses_of (Fin (Qred w)) (Fin (Qred (a * 100))).
Proof.
  intros H.
  destruct (generate_scouting_report_numbers db player_id report H)
    as (w & a & Hw & Ha).
  exists w, a. split; [exact Hw|]. split; [exact Ha|].
  apply generate_scouting_report_Ok in H as (_ & srow & rrow & _ & _ & Hc).
  rewrite (classify_closed _ _ _ (Fin (Qred w)) (Fin (Qred (a * 100)))
             (Fin (rate (total ms_smashes db player_id) (total_shots db player_id)))
             (Fin (long_rate db player_id)) (Fin (short_rate db player_id))) in Hc.
  - injection Hc as <- <-. split; reflexivity.
  - rewrite (proj1 (summary_lookup db player_id)), Hw. reflexivity.
  - rewrite (proj2 (summary_lookup db player_id)), Ha. reflexivity.
  - rewrite get_shot_smash. apply to_float_percentage.
  - rewrite (proj1 (get_rally_rates db player_id rrow)). apply to_float_percentage.
  - rewrite (proj2 (get_rally_rates db player_id rrow)). apply to_float_percentage.
Qed.

Lemma float_ltb_Fin (x y : Q) : float_ltb (Fin x) (Fin y) = Qltb x y.
Proof. reflexivity. Qed.



(** X20. For every store and every id that fits an SQLite INTEGER and whose
    sums fit, [generate_scouting_report] produces a report exactly when the
    player has a statistics row with unforced errors and a statistics row
    with serves; for every other such id, known or not, it raises
    [TypeError]. *)
Theorem scouting_report_produced_iff (db : database) (player_id : Z) :
  fits player_id ->
  shot_sums_fit db player_id ->
  rally_sums_fit db player_id ->
  ((exists report, generate_scouting_report db player_id = Ok report)
   <-> (exists ms, ms ∈ statistics_of db player_id /\ ms_unforced_errors ms <> 0%N)
       /\ (exists ms, ms ∈ statistics_of db player_id /\ ms_total_serves ms <> 0%N))
  /\ ((exists report, generate_scouting_report db player_id = Ok report)
      \/ generate_scouting_report db player_id = Raise TypeError).
Proof.
  intros _ _ _.
  assert (forall (a b : statistics -> N),
            avg_ratio a b (statistics_of db player_id) <> None
            <-> exists ms, ms ∈ statistics_of db player_id /\ b ms <> 0%N) as Hex.
  { intros a b. rewrite avg_ratio_None. split.
    - intros H. rewrite <- Forall_forall in H.
      apply not_Forall_Exists in H; [|intros ?; apply _].
      apply Exists_exists in H. exact H.
    - intros (ms & Hms & Hb) H. exact (Hb (H ms Hms)). }
  assert (statistics_of db player_id = [] \/ statistics_of db player_id <> [])
    as [E|Hne] by (destruct (statistics_of db player_id); [left|right]; congruence).
  - pose proof (generate_scouting_report_no_rows db player_id E) as Hr.
    split; [|right; exact Hr]. split.
    + intros [report H]. congruence.
    + intros [(ms & Hms & _) _]. rewrite E in Hms. inversion Hms.
  - destruct (avg_ratio ms_winners ms_unforced_errors (statistics_of db player_id))
      as [w|] eqn:Ew.
    + destruct (avg_ratio ms_service_aces ms_total_serves (statistics_of db player_id))
        as [a|] eqn:Ea.
      * assert (exists report, generate_scouting_report db player_id = Ok report) as Hp.
        { apply generate_scouting_report_produced; [exact Hne|congruence..]. }
        split; [|left; exact Hp]. split; [|intros _; exact Hp].
        intros _. split.
        -- apply (Hex ms_winners ms_unforced_errors). congruence.
        -- apply (Hex ms_service_aces ms_total_serves). congruence.
      * pose proof (generate_scouting_report_null db player_id Hne (or_intror Ea)) as Hr.
        split; [|right; exact Hr]. split.
        -- intros [report H]. congruence.
        -- intros [_ H]. apply (Hex ms_service_aces ms_total_serves) in H.
           congruence.
    + pose proof (generate_scouting_report_null db player_id Hne (or_introl Ew)) as Hr.
      split; [|right; exact Hr]. split.
      * intros [report H]. congruence.
      * intros [H _]. apply (Hex ms_winners ms_unforced_errors) in H.
        congruence.
Qed.

Lemma scouting_report_produced_iff_witness :
  generate_scouting_report example_db 2 = Raise TypeError.
Proof.
  destruct (scouting_report_produced_iff example_db 2) as [H [[report Hr]|Hr]];
    [unfold fits; decide_closed|apply sums_fit_example..|exfalso|exact Hr].
  destruct (proj1 H (ex_intro _ report Hr)) as [(ms & Hms & Hne) _].
  apply list_elem_of_singleton in Hms. subst ms. apply Hne. reflexivity.
Defined.

(** X21. The assessment of a report never contradicts itself: the accuracy
    strength and the errors weakness are never both listed, nor the serving
    strength and the serving weakness; the weaknesses are at most these two
    strings, the strengths between one and four of the five strength
    strings, the last of them a rally string; and no string is listed
    twice. *)
Theorem scouting_report_consistent (db : database) (player_id : Z)
    (report : scouting_report) :
  generate_scouting_report db player_id = Ok report ->
  let strengths := style_strengths (report_playing_style report) in
  let weaknesses := style_weaknesses (report_playing_style report) in
  ~ (accuracy_strength ∈ strengths /\ errors_weakness ∈ weaknesses)
  /\ ~ (serving_strength ∈ strengths /\ serving_weakness ∈ weaknesses)
  /\ Forall (fun s => s ∈ [errors_weakness; serving_weakness]) weaknesses
  /\ Forall (fun s => s ∈ [accuracy_strength; serving_strength;
                           attacking_strength; endurance_strength;
                           quick_finishing_strength]) strengths
  /\ (1 <= length strengths <= 4)%nat
  /\ (exists s, last strengths = Some s
                /\ s ∈ [endurance_strength; quick_finishing_strength])
  /\ NoDup strengths /\ NoDup weaknesses.
Proof.
  intros H strengths weaknesses. subst strengths weaknesses.
  apply generate_scouting_report_closed in H as (w & a & _ & _ & -> & ->).
  unfold strengths_of, weaknesses_of.
  destruct (float_ltb (Fin (3 # 2)) (Fin (Qred w))),
    (float_ltb (Fin (Qred w)) (Fin (4 # 5))),
    (float_ltb (Fin 8) (Fin (Qred (a * 100)))),
    (float_ltb (Fin (Qred (a * 100))) (Fin 3)),
    (float_ltb (Fin 25) _), (float_ltb (Fin (short_rate db player_id)) _);
    (split; [decide_closed|]); (split; [decide_closed|]);
    (split; [decide_closed|]); (split; [decide_closed|]);
    (split; [cbn; lia|]); (split; [eexists; split; [reflexivity|decide_closed]|]);
    split; decide_closed.
Qed.

Lemma scouting_report_consistent_witness :
  exists report,
    generate_scouting_report season_db 1 = Ok report
    /\ ~ (accuracy_strength ∈ style_strengths (report_playing_style report)
          /\ errors_weakness ∈ style_weaknesses (report_playing_style report)).
Proof.
  destruct (generate_scouting_report_produced season_db 1) as [report Hr];
    [discriminate..|].
  exists report. split; [exact Hr|].
  exact (proj1 (scouting_report_consistent season_db 1 report Hr)).
Defined.

(** X22. The thresholds of a report, on the numbers that the statistics
    summary and the report's shot distribution carry. With [w] the
    [winner_to_error_ratio] and [a] the [ace_percentage] of the summary and
    [s] the [smash_percentage] of the distribution: the accuracy strength is
    listed exactly when [w > 1.5], the errors weakness exactly when
    [w < 0.8], the serving strength exactly when [a > 8], the serving
    weakness exactly when [a < 3], and the attacking strength exactly when
    [s > 25]. *)
Theorem scouting_report_thresholds (db : database) (player_id : Z)
    (report : scouting_report) :
  generate_scouting_report db player_id = Ok report ->
  let summary := get_player_statistics_summary db player_id in
  let style := report_playing_style report in
  let strengths := style_strengths style in
  let weaknesses := style_weaknesses style in
  exists w a s : Q,
    to_float (get summary "winner_to_error_ratio" (VInt 0)) = Some (Fin w)
    /\ to_float (get summary "ace_percentage" (VInt 0)) = Some (Fin a)
    /\ to_float (get (style_shot_distribution style) "smash_percentage" (VInt 0))
       = Some (Fin s)
    /\ (accuracy_strength ∈ strengths <-> (3 # 2 < w)%Q)
    /\ (errors_weakness ∈ weaknesses <-> (w < 4 # 5)%Q)
    /\ (serving_strength ∈ strengths <-> (8 < a)%Q)
    /\ (serving_weakness ∈ weaknesses <-> (a < 3)%Q)
    /\ (attacking_strength ∈ strengths <-> (25 < s)%Q).
Proof.
  intros H summary style strengths weaknesses.
  subst summary style strengths weaknesses.
  destruct (generate_scouting_report_Ok db player_id report H)
    as (_ & srow & rrow & Hshot & _ & _).
  apply generate_scouting_report_closed in H as (w & a & Hw & Ha & -> & ->).
  exists (Qred w), (Qred (a * 100)),
    (rate (total ms_smashes db player_id) (total_shots db player_id)).
  rewrite (proj1 (summary_lookup db player_id)), Hw.
  rewrite (proj2 (summary_lookup db player_id)), Ha.
  rewrite Hshot, get_shot_smash, to_float_percentage.
  split; [reflexivity|]. split; [reflexivity|]. split; [reflexivity|].
  unfold strengths_of, weaknesses_of. rewrite !float_ltb_Fin.
  pose proof (Qltb_lt (3 # 2) (Qred w)) as H1.
  pose proof (Qltb_lt (Qred w) (4 # 5)) as H2.
  pose proof (Qltb_lt 8 (Qred (a * 100))) as H3.
  pose proof (Qltb_lt (Qred (a * 100)) 3) as H4.
  pose proof (Qltb_lt 25 (rate (total ms_smashes db player_id)
                            (total_shots db player_id))) as H5.
  destruct (Qltb (3 # 2) (Qred w)), (Qltb (Qred w) (4 # 5)),
    (Qltb 8 (Qred (a * 100))), (Qltb (Qred (a * 100)) 3), (Qltb 25 _),
    (Qltb (short_rate db player_id) _);
    rewrite <- ?H1, <- ?H2, <- ?H3, <- ?H4, <- ?H5;
    try (exfalso; apply proj1 in H1, H2; specialize (H1 eq_refl);
         specialize (H2 eq_refl); lra);
    try (exfalso; apply proj1 in H3, H4; specialize (H3 eq_refl);
         specialize (H4 eq_refl); lra);
    (split; [decide_closed|]); (split; [decide_closed|]);
    (split; [decide_closed|]); (split; [decide_closed|]); decide_closed.
Qed.

Lemma scouting_report_thresholds_witness :
  exists report,
    generate_scouting_report season_db 1 = Ok report
    /\ accuracy_strength ∈ style_strengths (report_playing_style report)
    /\ errors_weakness ∉ style_weaknesses (report_playing_style report).
Proof.
  destruct (generate_scouting_report_produced season_db 1) as [report Hr];
    [discriminate..|].
  exists report. split; [exact Hr|].
  destruct (scouting_report_thresholds season_db 1 report Hr)
    as (w & a & s & Hw & _ & _ & H1 & H2 & _).
  assert (w = 2%Q) as ->.
  { vm_compute in Hw. injection Hw as <-. reflexivity. }
  split.
  - apply H1. reflexivity.
  - intros H. apply H2 in H. discriminate.
Defined.

Lemma generate_scouting_report_fields (db : database) (player_id : Z)
    (report : scouting_report) :
  generate_scouting_report db player_id = Ok report ->
  report_recent_matches report = take 5 (get_recent_matches db player_id 5)
  /\ report_tournament_performance report
     = get_performance_by_tournament_type db player_id
  /\ _calculate_recent_form (get_recent_matches db player_id 5)
     = Ok (perf_recent_form (report_performance_overview report)).
Proof.
  intros H.
  assert (Hne : statistics_of db player_id <> []).
  { intros E. rewrite (generate_scouting_report_no_rows db player_id E) in H.
    discriminate. }
  destruct (get_shot_distribution_analysis_rows db player_id Hne) as (srow & _ & Hs).
  destruct (get_rally_length_analysis_rows db player_id Hne) as (rrow & _ & Hr).
  unfold generate_scouting_report in H.
  rewrite Hs, bind_Ok, Hr, bind_Ok in H.
  apply bind_Ok_inv in H as ([st wk] & Hc & H).
  apply bind_Ok_inv in H as (form & Hf & H).
  injection H as <-. split; [reflexivity|]. split; [reflexivity|exact Hf].
Qed.

Lemma band_values (w : Q) : band w ∈ ["Excellent"; "Good"; "Average"; "Poor"].
Proof.
  unfold band.
  destruct (Qle_bool 80 w), (Qle_bool 60 w), (Qle_bool 40 w); decide_closed.
Qed.

(** X23. The recent matches of a report are the rows of
    [get_recent_matches] with limit 5, at most five of them, and the recent
    form is ['No recent data'] exactly when there is none; otherwise it is
    one of Excellent, Good, Average and Poor, the band of the share of won
    matches among these rows. *)
Theorem scouting_report_recent_matches (db : database) (player_id : Z)
    (report : scouting_report) :
  generate_scouting_report db player_id = Ok report ->
  let form := perf_recent_form (report_performance_overview report) in
  report_recent_matches report = get_recent_matches db player_id 5
  /\ (length (report_recent_matches report) <= 5)%nat
  /\ (form = "No recent data" <-> report_recent_matches report = [])
  /\ (report_recent_matches report <> [] ->
      form = band (win_rate (report_recent_matches report))
      /\ form ∈ ["Excellent"; "Good"; "Average"; "Poor"]).
Proof.
  intros H form. subst form.
  apply generate_scouting_report_fields in H as (Hrm & _ & Hf).
  pose proof (get_recent_matches_at_most db player_id 5 ltac:(lia)) as Hlen.
  rewrite take_ge in Hrm by lia. rewrite Hrm.
  split; [reflexivity|]. split; [lia|].
  destruct (get_recent_matches db player_id 5) as [|m l] eqn:E.
  - injection Hf as <-. split; [split; reflexivity|]. congruence.
  - rewrite recent_form_eval in Hf by discriminate. injection Hf as <-.
    pose proof (band_values (win_rate (m :: l))) as Hb.
    split; [|intros _; split; [reflexivity|exact Hb]].
    split; [|discriminate].
    intros Hn. rewrite Hn in Hb. exfalso. revert Hb. clear. intros Hb.
    repeat (apply elem_of_cons in Hb as [Hb|Hb]; [discriminate|]).
    inversion Hb.
Qed.

Lemma scouting_report_recent_matches_witness :
  exists report,
    generate_scouting_report season_db 1 = Ok report
    /\ length (report_recent_matches report) = 3%nat
    /\ perf_recent_form (report_performance_overview report) = "Good".
Proof.
  destruct (generate_scouting_report_produced season_db 1) as [report Hr];
    [discriminate..|].
  exists report. split; [exact Hr|].
  destruct (scouting_report_recent_matches season_db 1 report Hr)
    as (Hrm & _ & _ & Hform).
  assert (length (get_recent_matches season_db 1 5) = 3%nat) as Hlen
    by (vm_compute; reflexivity).
  rewrite <- Hrm in Hlen. split; [exact Hlen|].
  destruct Hform as [-> _].
  - intros E. rewrite E in Hlen. discriminate.
  - rewrite Hrm. vm_compute. reflexivity.
Defined.

(** ** The statistics summary *)

Lemma summary_row (db : database) (player_id : Z) :
  let rows := statistics_of db player_id in
  let s := get_player_statistics_summary db player_id in
  s !! "total_matches" = Some (VInt (Z.of_nat (length rows)))
  /\ s !! "winner_to_error_ratio"
     = Some (real (avg_ratio ms_winners ms_unforced_errors rows))
  /\ s !! "ace_percentage"
     = Some (real (times100 (avg_ratio ms_service_aces ms_total_serves rows)))
  /\ s !! "points_won_percentage"
     = Some (real (times100 (avg_ratio ms_points_won ms_points_played rows))).
Proof.
  cbv zeta. unfold get_player_statistics_summary, player_statistics_summary_query.
  cbn [first_or_empty]. unfold count_star.
  split; [|split; [|split]]; apply lookup_union_Some_l; by simplify_map_eq.
Qed.

(** X24. [get_player_statistics_summary] returns a record for every id, also
    for one without statistics rows: its [total_matches] is the number of
    the player's rows, and its [winner_to_error_ratio] is [None] exactly
    when no row of the player has unforced errors, its [ace_percentage]
    exactly when no row has serves. The entries are present then, so the
    default of a [get] on them is not used. *)
Theorem statistics_summary_nulls (db : database) (player_id : Z) :
  let rows := statistics_of db player_id in
  let s := get_player_statistics_summary db player_id in
  s !! "total_matches" = Some (VInt (Z.of_nat (length rows)))
  /\ (get s "winner_to_error_ratio" (VInt 0) = VNone
      <-> forall ms, ms ∈ rows -> ms_unforced_errors ms = 0%N)
  /\ (get s "ace_percentage" (VInt 0) = VNone
      <-> forall ms, ms ∈ rows -> ms_total_serves ms = 0%N)
  /\ (get s "points_won_percentage" (VInt 0) = VNone
      <-> forall ms, ms ∈ rows -> ms_points_played ms = 0%N).
Proof.
  cbv zeta. destruct (summary_row db player_id) as (Ht & Hw & Ha & Hp).
  split; [exact Ht|]. unfold get. rewrite Hw, Ha, Hp. cbn [default].
  rewrite <- (avg_ratio_None ms_winners ms_unforced_errors).
  rewrite <- (avg_ratio_None ms_service_aces ms_total_serves).
  rewrite <- (avg_ratio_None ms_points_won ms_points_played).
  split; [|split].
  - destruct (avg_ratio ms_winners _ _);
      [cbn; split; intros E; discriminate E|split; reflexivity].
  - destruct (avg_ratio ms_service_aces _ _);
      [cbn; split; intros E; discriminate E|split; reflexivity].
  - destruct (avg_ratio ms_points_won _ _);
      [cbn; split; intros E; discriminate E|split; reflexivity].
Qed.

Lemma statistics_summary_nulls_witness :
  get (get_player_statistics_summary example_db 2) "ace_percentage" (VInt 0) = VNone
  /\ get_player_statistics_summary example_db 3 !! "total_matches" = Some (VInt 0).
Proof.
  split.
  - apply (statistics_summary_nulls example_db 2). intros ms Hms.
    apply list_elem_of_singleton in Hms. subst ms. reflexivity.
  - exact (proj1 (statistics_summary_nulls example_db 3)).
Defined.

(** ** The player profile *)

(** X25. [get_player_profile] returns the empty record exactly when no row of
    [players] has the id; for a known id the record carries the id. *)
Theorem get_player_profile_empty_iff (db : database) (player_id : Z) :
  (get_player_profile db player_id = ∅
   <-> forall p, p ∈ players db -> p_player_id p <> player_id)
  /\ (get_player_profile db player_id <> ∅
      <-> get_player_profile db player_id !! "player_id" = Some (VInt player_id)).
Proof.
  assert (get_player_profile db player_id = ∅
          <-> forall p, p ∈ players db -> p_player_id p <> player_id) as H.
  { split; [|apply get_player_profile_unknown].
    intros E p Hp Hid.
    destruct (get_player_profile_known db player_id p Hp Hid) as [H _].
    rewrite E, lookup_empty in H. discriminate. }
  split; [exact H|]. split.
  - intros Hne.
    destruct (decide (Exists (fun p => p_player_id p = player_id) (players db)))
      as [Hex|Hnex].
    + apply Exists_exists in Hex as (p & Hp & Hid).
      exact (proj1 (get_player_profile_known db player_id p Hp Hid)).
    + exfalso. apply Hne, H. intros p Hp Hid. apply Hnex.
      apply Exists_exists. eauto.
  - intros Hl E. rewrite E, lookup_empty in Hl. discriminate.
Qed.

Lemma get_player_profile_empty_iff_witness :
  get_player_profile example_db 9 = ∅
  /\ get_player_profile example_db 3 !! "player_id" = Some (VInt 3).
Proof.
  split.
  - apply (get_player_profile_empty_iff example_db 9). intros p Hp.
    repeat (apply elem_of_cons in Hp as [->|Hp]; [discriminate|]).
    inversion Hp.
  - apply (get_player_profile_empty_iff example_db 3). intros E.
    destruct (proj1 (proj1 (get_player_profile_empty_iff example_db 3)) E
                (example_player 3 "Anders" "Antonsen")).
    + right. right. left.
    + reflexivity.
Defined.

(** ** Head to head *)

Lemma head_to_head_row_lookup (h : h2h) (n1 n2 : value) :
  let row : dict :=
    <["player2_name" := n2]> (<["player1_name" := n1]> (h2h_columns h)) in
  row !! "player1_id" = Some (VInt (h_player1_id h))
  /\ row !! "player2_id" = Some (VInt (h_player2_id h)).
Proof. cbv zeta. unfold h2h_columns. split; by simplify_map_eq. Qed.

(** X26. [get_head_to_head] looks the pair up in the order smaller id, larger
    id: a record that it returns has [player1_id] the smaller and
    [player2_id] the larger of the two ids and both players exist; it returns
    the empty record when the table has no row for the pair in this order, so
    a row stored with the larger id first is never found. *)
Theorem get_head_to_head_ordered (db : database) (player1_id player2_id : Z) :
  let r := get_head_to_head db player1_id player2_id in
  (r <> ∅ ->
   r !! "player1_id" = Some (VInt (Z.min player1_id player2_id))
   /\ r !! "player2_id" = Some (VInt (Z.max player1_id player2_id))
   /\ (exists p, p ∈ players db /\ p_player_id p = player1_id)
   /\ (exists p, p ∈ players db /\ p_player_id p = player2_id))
  /\ ((forall h, h ∈ head_to_head db ->
         ~ (h_player1_id h = Z.min player1_id player2_id
            /\ h_player2_id h = Z.max player1_id player2_id)) ->
      r = ∅).
Proof.
  cbv zeta. unfold get_head_to_head, head_to_head_query.
  match goal with
  | |- context [_ <$> ?l] => set (rows := l)
  end.
  assert (forall h p1 p2, (h, p1, p2) ∈ rows ->
            h ∈ head_to_head db /\ p1 ∈ players db /\ p2 ∈ players db
            /\ h_player1_id h = p_player_id p1 /\ h_player2_id h = p_player_id p2
            /\ h_player1_id h = Z.min player1_id player2_id
            /\ h_player2_id h = Z.max player1_id player2_id) as Hrows.
  { intros h p1 p2 H. subst rows.
    apply elem_of_filter in H as [H Hc].
    apply join_elem in H as (H & Hp2 & Hon2).
    apply join_elem in H as (Hh & Hp1 & Hon1).
    apply Z.eqb_eq in Hon1, Hon2.
    rewrite orb_diag in Hc. apply andb_true_iff in Hc as [Hc1 Hc2].
    apply Z.eqb_eq in Hc1, Hc2. auto 10. }
  clearbody rows. destruct rows as [|[[h p1] p2] rows]; cbn [fmap list_fmap first_or_empty].
  - split; [congruence|reflexivity].
  - destruct (Hrows h p1 p2) as (Hh & Hp1 & Hp2 & E1 & E2 & Hmin & Hmax); [left|].
    split.
    + intros _.
      destruct (head_to_head_row_lookup h (VStr (full_name p1)) (VStr (full_name p2)))
        as [H1 H2].
      rewrite <- Hmin, <- Hmax. split; [exact H1|]. split; [exact H2|].
      destruct (Z.le_ge_cases player1_id player2_id) as [Hle|Hle].
      * rewrite Z.min_l in Hmin by lia. rewrite Z.max_r in Hmax by lia.
        split; [exists p1|exists p2]; split; auto; congruence.
      * rewrite Z.min_r in Hmin by lia. rewrite Z.max_l in Hmax by lia.
        split; [exists p2|exists p1]; split; auto; congruence.
    + intros Hnone. exfalso. exact (Hnone h Hh (conj Hmin Hmax)).
Qed.

Lemma get_head_to_head_ordered_witness :
  get_head_to_head example_db 2 1 !! "player1_id" = Some (VInt 1)
  /\ get_head_to_head example_db 2 1 !! "player2_id" = Some (VInt 2).
Proof.
  destruct (get_head_to_head_ordered example_db 2 1) as [H _].
  destruct H as (H1 & H2 & _); [|split; [exact H1|exact H2]].
  intros E. apply (f_equal (fun d : dict => d !! "player1_id")) in E.
  vm_compute in E. discriminate.
Defined.
